(** * Jan-Dhan gateway: gate validator and hash-linked ledger

    A shallow embedding of [backend/services/state.js],
    [backend/services/registry.js], [backend/services/ledger.js],
    [backend/services/validator.js], [backend/routes/claim.js],
    [backend/routes/admin.js], the route table of [server.js] and the mark
    loop of [components/GateViz.jsx], followed by the properties of the
    specification that concern them and by further properties of the code.

    Conventions of the embedding:
    - JavaScript strings are [string]s (sequences of 8-bit characters);
      the string primitives are the ASCII fragments of the JS ones:
      [JS.trim] removes TAB, LF, VT, FF, CR and SPACE and [JS.toLowerCase]
      maps A to Z, which is what [String.prototype.trim] and
      [toLowerCase] do on a text of ASCII characters. On other text the
      JS primitives also remove the Unicode spaces and map every cased
      letter; a statement that depends on the difference says so
      ([Runs.ascii_field]).
    - JavaScript numbers holding rupee amounts, counters and epoch
      milliseconds are integers ([Z]); the day difference of the
      frequency gate is an exact rational ([Q]). The code holds them as
      doubles, which are these integers up to [Number.MAX_SAFE_INTEGER]; a
      statement that adds up more than one step of arithmetic says so
      ([Runs.exact_arithmetic]).
    - The module-level variables of the four services, the two files under
      [data/] and the disk's fault state form one [World]; every service
      function is a computation in a state-and-exception monad over it, so
      that a mutation made before a [throw] stays made.
    - [crypto.createHash('sha256')] and [Date.prototype.toISOString] are
      taken from a [Runtime]; what the proofs use of them is in
      [RuntimeLaws]. *)

From Stdlib Require Import ZArith QArith Qround Ascii String List Bool Lia.
From stdpp Require Import gmap strings.

Local Open Scope string_scope.
Local Open Scope Z_scope.

(** * JavaScript string primitives *)

Module JS.

(** The white space removed by [String.prototype.trim], ASCII range:
    TAB, LF, VT, FF, CR and SPACE. *)
Definition is_ws (a : ascii) : bool :=
  match nat_of_ascii a with
  | 9%nat | 10%nat | 11%nat | 12%nat | 13%nat | 32%nat => true
  | _ => false
  end.

Fixpoint trimStart (s : string) : string :=
  match s with
  | EmptyString => EmptyString
  | String a r => if is_ws a then trimStart r else s
  end.

Fixpoint trimEnd (s : string) : string :=
  match s with
  | EmptyString => EmptyString
  | String a r =>
      match trimEnd r with
      | EmptyString => if is_ws a then EmptyString else String a EmptyString
      | r' => String a r'
      end
  end.

Definition trim (s : string) : string := trimEnd (trimStart s).

Definition lower_ascii (a : ascii) : ascii :=
  let n := nat_of_ascii a in
  if ((65 <=? n)%nat && (n <=? 90)%nat)%bool then ascii_of_nat (n + 32) else a.

Fixpoint toLowerCase (s : string) : string :=
  match s with
  | EmptyString => EmptyString
  | String a r => String (lower_ascii a) (toLowerCase r)
  end.

(** [s.split(c)] for a one-character separator. *)
Fixpoint split (c : ascii) (s : string) : list string :=
  match s with
  | EmptyString => [EmptyString]
  | String a r =>
      if Ascii.eqb a c then EmptyString :: split c r
      else match split c r with
           | h :: t => String a h :: t
           | [] => [String a EmptyString]
           end
  end.

(** [parts.join('')]. *)
Definition join (parts : list string) : string :=
  fold_right String.append EmptyString parts.

Fixpoint repeat (a : ascii) (n : nat) : string :=
  match n with
  | O => EmptyString
  | S k => String a (repeat a k)
  end.

(** [s.padStart(n, c)] for a one-character filler. *)
Definition padStart (n : nat) (c : ascii) (s : string) : string :=
  String.append (repeat c (n - String.length s)) s.

(** [Boolean(s)] for a string: the empty string is the only falsy one. *)
Definition truthy (s : string) : bool :=
  match s with EmptyString => false | _ => true end.

(** [s.includes(t)]. *)
Fixpoint includes (t s : string) : bool :=
  if String.prefix t s then true
  else match s with
       | EmptyString => false
       | String _ r => includes t r
       end.

(** Decimal rendering of an integer, as [String(n)] and template
    literals produce it for integral numbers. *)
Definition digit (d : Z) : ascii := ascii_of_nat (48 + Z.to_nat d).

Fixpoint digits_fuel (fuel : nat) (n : Z) (acc : string) : string :=
  match fuel with
  | O => acc
  | S k =>
      let acc' := String (digit (n mod 10)) acc in
      if n <? 10 then acc' else digits_fuel k (n / 10) acc'
  end.

Definition digits (n : Z) : string :=
  digits_fuel (S (Z.to_nat (Z.log2 n))) n EmptyString.

Definition String_of (n : Z) : string :=
  if n <? 0 then String "-" (digits (- n)) else digits n.

(** The number a string of decimal digits denotes, continuing from [v]. *)
Fixpoint decimal_value (v : Z) (s : string) : Z :=
  match s with
  | EmptyString => v
  | String a r => decimal_value (10 * v + (Z.of_nat (nat_of_ascii a) - 48)) r
  end.

(** [n.toLocaleString('en-IN')] for an integral number: Indian digit
    grouping, the last three digits and then groups of two. *)
Fixpoint group2 (fuel : nat) (rev_digits : string) : string :=
  match fuel, rev_digits with
  | S k, String a (String b (String c r)) =>
      String a (String b (String "," (group2 k (String c r))))
  | _, _ => rev_digits
  end.

Fixpoint rev (s : string) : string :=
  match s with
  | EmptyString => EmptyString
  | String a r => String.append (rev r) (String a EmptyString)
  end.

Definition group_enIN (ds : string) : string :=
  match rev ds with
  | String a (String b (String c (String d r))) =>
      rev (String a (String b (String c
             (String "," (group2 (String.length ds) (String d r))))))
  | _ => ds
  end.

Definition toLocaleString_enIN (n : Z) : string :=
  if n <? 0 then String "-" (group_enIN (digits (- n)))
  else group_enIN (digits n).

End JS.

(** * The Node runtime

    [sha256_hex s] is [crypto.createHash('sha256').update(s).digest('hex')]
    and [toISOString t] is [new Date(t).toISOString()] for the epoch
    millisecond [t]. *)

Class Runtime := {
  sha256_hex : string -> string;
  toISOString : Z -> string
}.

(** * state.js *)

Module State.

Inductive Status := active | paused | frozen.

Record SystemState := mkState {
  status : Status;
  budget : Z;
  transactionCount : Z;
  initialBudget : Z
}.

Definition INITIAL_BUDGET : Z := 1000000.

(** The object literal bound to [_state] when the module is loaded. *)
Definition _state : SystemState :=
  {| status := active; budget := INITIAL_BUDGET;
     transactionCount := 0; initialBudget := INITIAL_BUDGET |}.

Definition set_status (v : Status) (s : SystemState) : SystemState :=
  {| status := v; budget := budget s;
     transactionCount := transactionCount s; initialBudget := initialBudget s |}.

Definition set_budget (v : Z) (s : SystemState) : SystemState :=
  {| status := status s; budget := v;
     transactionCount := transactionCount s; initialBudget := initialBudget s |}.

Definition set_transactionCount (v : Z) (s : SystemState) : SystemState :=
  {| status := status s; budget := budget s;
     transactionCount := v; initialBudget := initialBudget s |}.

(** [getState] returns a copy: a value of the same record. *)
Definition getState (s : SystemState) : SystemState := s.

Definition pause (s : SystemState) : SystemState :=
  match status s with
  | active => set_status paused s
  | _ => s
  end.

Definition resume (s : SystemState) : SystemState :=
  match status s with
  | paused => set_status active s
  | _ => s
  end.

Definition freeze (s : SystemState) : SystemState := set_status frozen s.

Definition deduct (amount : Z) (s : SystemState) : SystemState :=
  let s1 := set_budget (budget s - amount) s in
  if budget s1 <=? 0 then freeze (set_budget 0 s1) else s1.

Definition incrTx (s : SystemState) : SystemState :=
  set_transactionCount (transactionCount s + 1) s.

(** The operations exported by the module, as data. *)
Inductive Op := Pause | Resume | Freeze | Deduct (amount : Z) | IncrTx.

Definition run (o : Op) : SystemState -> SystemState :=
  match o with
  | Pause => pause
  | Resume => resume
  | Freeze => freeze
  | Deduct amount => deduct amount
  | IncrTx => incrTx
  end.

End State.

(** * registry.js: the record type of the lookup map *)

Module Registry.

Record Record_ := mkRecord {
  account_status : string;
  aadhaar_linked : bool;
  scheme_eligibility : string;
  scheme_amount : Z;
  last_claim_date : option Z;   (* epoch milliseconds, [None] for null *)
  claim_count : Z;
  income_tier : string;
  region_code : string
}.

End Registry.

(** * The world: module variables, files and the disk *)

(** [data/ledger_meta.json] as [loadMeta] sees it after [JSON.parse]. *)
Inductive MetaJson :=
| MetaUnusable                 (* not JSON, or a falsy JSON value *)
| MetaNoHash                   (* a truthy value whose [fileHash] is no string *)
| MetaFileHash (fileHash : string).

(** Which of the two writes of [ledger.js] the disk refuses. *)
Record Disk := mkDisk {
  appendFile_fails : bool;
  writeFile_fails : bool
}.

Definition healthy : Disk :=
  {| appendFile_fails := false; writeFile_fails := false |}.

Record World := mkWorld {
  sys : State.SystemState;                          (* state.js [_state] *)
  registryMap : gmap string Registry.Record_;       (* registry.js *)
  processedHashes : gset string;                    (* validator.js *)
  lastHash : string;                                (* ledger.js *)
  initialized : bool;                               (* ledger.js *)
  LEDGER_FILE : option string;                      (* data/ledger.txt *)
  META_FILE : option MetaJson;                      (* data/ledger_meta.json *)
  disk : Disk
}.

Definition set_sys (v : State.SystemState) (w : World) : World :=
  mkWorld v (registryMap w) (processedHashes w) (lastHash w) (initialized w)
          (LEDGER_FILE w) (META_FILE w) (disk w).

Definition set_processedHashes (v : gset string) (w : World) : World :=
  mkWorld (sys w) (registryMap w) v (lastHash w) (initialized w)
          (LEDGER_FILE w) (META_FILE w) (disk w).

Definition set_lastHash (v : string) (w : World) : World :=
  mkWorld (sys w) (registryMap w) (processedHashes w) v (initialized w)
          (LEDGER_FILE w) (META_FILE w) (disk w).

Definition set_initialized (v : bool) (w : World) : World :=
  mkWorld (sys w) (registryMap w) (processedHashes w) (lastHash w) v
          (LEDGER_FILE w) (META_FILE w) (disk w).

Definition set_LEDGER_FILE (v : option string) (w : World) : World :=
  mkWorld (sys w) (registryMap w) (processedHashes w) (lastHash w)
          (initialized w) v (META_FILE w) (disk w).

Definition set_META_FILE (v : option MetaJson) (w : World) : World :=
  mkWorld (sys w) (registryMap w) (processedHashes w) (lastHash w)
          (initialized w) (LEDGER_FILE w) v (disk w).

(** * Computations: state of the world plus exceptions *)

Inductive Exn := IOError.

Inductive Outcome (A : Type) :=
| Returned (a : A)
| Thrown (e : Exn).
Arguments Returned {A} a.
Arguments Thrown {A} e.

Definition M (A : Type) : Type := World -> Outcome A * World.

Definition ret {A} (a : A) : M A := fun w => (Returned a, w).

Definition throw {A} (e : Exn) : M A := fun w => (Thrown e, w).

Definition bind {A B} (m : M A) (k : A -> M B) : M B :=
  fun w =>
    match m w with
    | (Returned a, w') => k a w'
    | (Thrown e, w') => (Thrown e, w')
    end.

Notation "x <- m ;; k" := (bind m (fun x => k))
  (at level 100, m at next level, right associativity).
Notation "m ;; k" := (bind m (fun _ => k))
  (at level 100, right associativity).

Definition get {A} (f : World -> A) : M A := fun w => (Returned (f w), w).

Definition modify (f : World -> World) : M unit := fun w => (Returned tt, f w).

(** A call of a function of [state.js]. *)
Definition state_call (f : State.SystemState -> State.SystemState) : M unit :=
  modify (fun w => set_sys (f (sys w)) w).

Definition state_getState : M State.SystemState :=
  get (fun w => State.getState (sys w)).

(** * The file system calls of ledger.js

    Reading a file that exists does not fail; [appendFileSync] and
    [writeFileSync] throw when the disk refuses them, leaving the file as
    it was. *)

Module Fs.

Definition existsSync_LEDGER_FILE : M bool :=
  get (fun w => match LEDGER_FILE w with Some _ => true | None => false end).

Definition existsSync_META_FILE : M bool :=
  get (fun w => match META_FILE w with Some _ => true | None => false end).

Definition readFileSync_LEDGER_FILE : M string :=
  fun w =>
    match LEDGER_FILE w with
    | Some content => (Returned content, w)
    | None => (Thrown IOError, w)
    end.

(** Creates the file when it does not exist. *)
Definition appendFileSync_LEDGER_FILE (data : string) : M unit :=
  fun w =>
    if appendFile_fails (disk w) then (Thrown IOError, w)
    else
      let old := match LEDGER_FILE w with Some c => c | None => EmptyString end in
      (Returned tt, set_LEDGER_FILE (Some (String.append old data)) w).

Definition writeFileSync_META_FILE (doc : MetaJson) : M unit :=
  fun w =>
    if writeFile_fails (disk w) then (Thrown IOError, w)
    else (Returned tt, set_META_FILE (Some doc) w).

End Fs.

(** * ledger.js *)

Module Ledger.

Section WithRuntime.
Context `{Runtime}.

Definition GENESIS_HASH : string := JS.repeat "0" 64.

(** The directory [data/] is taken to exist. *)
Definition ensureDataDir : M unit := ret tt.

Definition sha256 (parts : list string) : string := sha256_hex (JS.join parts).

Definition computeFileHash : M string :=
  ex <- Fs.existsSync_LEDGER_FILE ;;
  if negb ex then ret GENESIS_HASH
  else
    content <- Fs.readFileSync_LEDGER_FILE ;;
    ret (sha256 [content]).

(** [JSON.stringify({ fileHash })] parses back to an object holding that
    string. *)
Definition saveMeta (fileHash : string) : M unit :=
  Fs.writeFileSync_META_FILE (MetaFileHash fileHash).

(** The value of [meta] in [verifyIntegrity], as far as
    [meta && meta.fileHash !== actualFileHash] looks at it: [None] when
    [meta] is falsy, otherwise its [fileHash] when that is a string. *)
Definition loadMeta : M (option (option string)) :=
  ex <- Fs.existsSync_META_FILE ;;
  if negb ex then ret None
  else
    doc <- get META_FILE ;;
    match doc with
    | Some (MetaFileHash h) => ret (Some (Some h))
    | Some MetaNoHash => ret (Some None)
    | _ => ret None
    end.

(** [meta && meta.fileHash !== actualFileHash] *)
Definition meta_mismatch (meta : option (option string)) (actualFileHash : string) : bool :=
  match meta with
  | None => false
  | Some None => true
  | Some (Some h) => negb (String.eqb h actualFileHash)
  end.

(** The [for] loop of [verifyIntegrity] from line [i] on, with [prevHash]
    the running hash: [None] when the loop left the function with
    [return false], otherwise the running hash after the last line. *)
Fixpoint walk (lines : list string) (prevHash : string) : M (option string) :=
  match lines with
  | [] => ret (Some prevHash)
  | line :: rest =>
      match JS.split "|" line with
      | [timestamp; citizenHash; scheme; amount; storedPrevHash; storedCurrHash] =>
          let expectedCurrHash :=
            sha256 [timestamp; citizenHash; scheme; amount; storedPrevHash] in
          if (negb (String.eqb storedPrevHash prevHash)
              || negb (String.eqb storedCurrHash expectedCurrHash))%bool
          then state_call State.freeze ;; ret None
          else walk rest storedCurrHash
      | _ => state_call State.freeze ;; ret None
      end
  end.

(** [content.split('\n').map(l => l.trim()).filter(Boolean)] *)
Definition read_lines (content : string) : list string :=
  List.filter JS.truthy (List.map JS.trim (JS.split "010" content)).

Definition verifyIntegrity : M bool :=
  ensureDataDir ;;
  ex <- Fs.existsSync_LEDGER_FILE ;;
  if negb ex then
    modify (set_initialized true) ;;
    ret true
  else
    meta <- loadMeta ;;
    actualFileHash <- computeFileHash ;;
    if meta_mismatch meta actualFileHash then
      state_call State.freeze ;;
      ret false
    else
      content <- Fs.readFileSync_LEDGER_FILE ;;
      r <- walk (read_lines content) GENESIS_HASH ;;
      match r with
      | None => ret false
      | Some prevHash =>
          modify (set_lastHash prevHash) ;;
          modify (set_initialized true) ;;
          ret true
      end.

Record Entry := mkEntry {
  entry_citizenHash : string;
  entry_scheme : string;
  entry_amount : Z
}.

Record Receipt := mkReceipt {
  timestamp : string;
  currentHash : string
}.

(** The line [append] writes, without its final line feed. *)
Definition line_of (timestamp citizenHash scheme amount prevHash currentHash : string)
  : string :=
  JS.join [timestamp; "|"; citizenHash; "|"; scheme; "|"; amount; "|";
           prevHash; "|"; currentHash].

(** [append({ citizenHash, scheme, amount })]; [now] is the clock reading
    of [new Date()]. *)
Definition append (now : Z) (entry : Entry) : M Receipt :=
  let citizenHash := entry_citizenHash entry in
  let scheme := entry_scheme entry in
  let amount := entry_amount entry in
  ensureDataDir ;;
  init <- get initialized ;;
  (if negb init then (_ <- verifyIntegrity ;; ret tt) else ret tt) ;;
  let timestamp := toISOString now in
  prevHash <- get lastHash ;;
  let currentHash :=
    sha256 [timestamp; citizenHash; scheme; JS.String_of amount; prevHash] in
  let line :=
    String.append
      (line_of timestamp citizenHash scheme (JS.String_of amount) prevHash currentHash)
      (String "010" EmptyString) in
  Fs.appendFileSync_LEDGER_FILE line ;;
  modify (set_lastHash currentHash) ;;
  fileHash <- computeFileHash ;;
  saveMeta fileHash ;;
  ret {| timestamp := timestamp; currentHash := currentHash |}.

End WithRuntime.

End Ledger.

(** * registry.js: hashing and lookup *)

Module RegistryFns.

Section WithRuntime.
Context `{Runtime}.

Definition hashCitizenId (rawId : string) : string :=
  let normalised := JS.padStart 12 "0" (JS.trim rawId) in
  sha256_hex normalised.

Definition lookup (hash : string) : M (option Registry.Record_) :=
  get (fun w => registryMap w !! hash).

End WithRuntime.

End RegistryFns.

(** * validator.js *)

Module Validator.

(** The decision object. [amount], [scheme] and [timestamp] are the
    properties only an approval has. *)
Record Decision := mkDecision {
  approved : bool;
  gate : string;
  reason : string;
  amount : option Z;
  scheme : option string;
  timestamp : option string
}.

Definition rejection (gate reason : string) : Decision :=
  {| approved := false; gate := gate; reason := reason;
     amount := None; scheme := None; timestamp := None |}.

Definition dquote : string := String "034" EmptyString.
Definition rupee : string := String "226" (String "130" (String "185" EmptyString)).

Definition MS_PER_DAY : Z := 1000 * 60 * 60 * 24.

(** [(now - lastClaim) / (1000 * 60 * 60 * 24)] *)
Definition diffDays_of (now lastClaim : Z) : Q :=
  Qmake (now - lastClaim) (Z.to_pos MS_PER_DAY).

Definition Qlt_bool (x y : Q) : bool := negb (Qle_bool y x).

Section WithRuntime.
Context `{Runtime}.

Definition validate (now now' : Z) (citizenId scheme : string) : M Decision :=
  let citizenHash := RegistryFns.hashCitizenId citizenId in
  (* Gate 1: System Status *)
  s <- state_getState ;;
  let status := State.status s in
  let budget := State.budget s in
  match status with
  | State.frozen =>
      ret (rejection "System"
        "System is FROZEN due to a security or budget event. All transactions are blocked.")
  | State.paused =>
      ret (rejection "System"
        "System is PAUSED by administrator. No transactions are being processed.")
  | State.active =>
  (* Gate 2: Replay / Duplicate Block *)
  seen <- get processedHashes ;;
  if bool_decide (citizenHash ∈ seen) then
    ret (rejection "Replay"
      "Duplicate claim detected. This Citizen ID has already submitted a claim in this session.")
  else
  (* Gate 3: Eligibility *)
  found <- RegistryFns.lookup citizenHash ;;
  match found with
  | None =>
      ret (rejection "Eligibility" "Citizen ID not found in the national registry.")
  | Some record =>
  if negb (String.eqb (JS.toLowerCase (Registry.account_status record)) "active") then
    ret (rejection "Eligibility"
      (JS.join ["Account is not active. Current status: "; dquote;
                Registry.account_status record; dquote; "."]))
  else if negb (Registry.aadhaar_linked record) then
    ret (rejection "Eligibility"
      "Aadhaar is not linked to this Jan-Dhan account. Linking is mandatory.")
  else if negb (String.eqb (JS.toLowerCase (Registry.scheme_eligibility record))
                           (JS.toLowerCase (JS.trim scheme))) then
    ret (rejection "Eligibility"
      (JS.join ["Scheme mismatch. Citizen is eligible for "; dquote;
                Registry.scheme_eligibility record; dquote; ", not "; dquote;
                scheme; dquote; "."]))
  else if 3 <? Registry.claim_count record then
    ret (rejection "Eligibility"
      (JS.join ["Annual claim limit exceeded (Count: ";
                JS.String_of (Registry.claim_count record);
                " / Max: 3). Referred for manual review."]))
  else
  let amount := Registry.scheme_amount record in
  (* Gate 4: Budget *)
  if budget <=? 0 then
    state_call State.freeze ;;
    ret (rejection "Budget"
      (JS.join ["Budget exhausted ("; rupee; "0 remaining). System auto-locked."]))
  else if budget <? amount then
    ret (rejection "Budget"
      (JS.join ["Insufficient budget. Available: "; rupee;
                JS.toLocaleString_enIN budget; ", Required: "; rupee;
                JS.toLocaleString_enIN amount; "."]))
  else
  (* All gates passed: approve *)
  let approve : M Decision :=
    state_call (State.deduct amount) ;;
    state_call State.incrTx ;;
    modify (fun w => set_processedHashes ({[citizenHash]} ∪ processedHashes w) w) ;;
    ledgerEntry <- Ledger.append now'
      {| Ledger.entry_citizenHash := citizenHash;
         Ledger.entry_scheme := scheme;
         Ledger.entry_amount := amount |} ;;
    ret {| approved := true;
           gate := "Approved";
           reason := "All validation gates passed. Transaction approved and recorded.";
           amount := Some amount;
           scheme := Some scheme;
           timestamp := Some (Ledger.timestamp ledgerEntry) |} in
  (* Gate 5: Frequency (30-day check) *)
  match Registry.last_claim_date record with
  | Some lastClaim =>
      let diffDays := diffDays_of now lastClaim in
      if Qlt_bool diffDays (inject_Z 30) then
        let daysLeft := Qceiling (inject_Z 30 - diffDays) in
        ret (rejection "Frequency"
          (JS.join ["Frequency violation. Last claim was ";
                    JS.String_of (Qfloor diffDays);
                    " day(s) ago. Please wait "; JS.String_of daysLeft;
                    " more day(s)."]))
      else approve
  | None => approve
  end
  end
  end.

End WithRuntime.

End Validator.

(** * routes/claim.js *)

Module ClaimRoute.

Record Response := mkResponse {
  code : Z;
  body : Validator.Decision
}.

Definition is_digit (a : ascii) : bool :=
  let n := nat_of_ascii a in ((48 <=? n)%nat && (n <=? 57)%nat)%bool.

Fixpoint all_digits (s : string) : bool :=
  match s with
  | EmptyString => true
  | String a r => (is_digit a && all_digits r)%bool
  end.

(** [/^\d{12}$/.test(s)] *)
Definition twelve_digits (s : string) : bool :=
  ((String.length s =? 12)%nat && all_digits s)%bool.

Definition falsy (v : option string) : bool :=
  match v with
  | Some s => negb (JS.truthy s)
  | None => true
  end.

Section WithRuntime.
Context `{Runtime}.

(** The handler of [POST /api/claim]; a body property that is absent is
    [None]. An exception of [validate] leaves the handler. *)
Definition post (now now' : Z) (citizen_id scheme : option string) : M Response :=
  if (falsy citizen_id || falsy scheme)%bool then
    ret {| code := 400;
           body := Validator.rejection "Input"
                     "Missing required fields: citizen_id and scheme." |}
  else
    let cidStr := JS.trim (default EmptyString citizen_id) in
    if negb (twelve_digits cidStr) then
      ret {| code := 400;
             body := Validator.rejection "Input"
                       "Invalid Citizen ID format. Must be exactly 12 digits." |}
    else
      result <- Validator.validate now now' cidStr
                  (JS.trim (default EmptyString scheme)) ;;
      (* the decision has no [citizenHash] property to strip *)
      let safeResult := result in
      ret {| code := 200; body := safeResult |}.

End WithRuntime.

End ClaimRoute.

(** * What the proofs use of the runtime *)

Module Fields.

(** No white space and no field separator: timestamps and digests. *)
Fixpoint plain (s : string) : bool :=
  match s with
  | EmptyString => true
  | String a r => (negb (JS.is_ws a) && negb (Ascii.eqb a "|") && plain r)%bool
  end.

(** No field separator and no line feed: what a field in the middle of
    a ledger line must be for the line to be read back as written. *)
Fixpoint inline (s : string) : bool :=
  match s with
  | EmptyString => true
  | String a r => (negb (Ascii.eqb a "|") && negb (Ascii.eqb a "010") && inline r)%bool
  end.

Definition is_hex (a : ascii) : bool :=
  let n := nat_of_ascii a in
  (((48 <=? n)%nat && (n <=? 57)%nat) || ((97 <=? n)%nat && (n <=? 102)%nat))%bool.

Fixpoint all_hex (s : string) : bool :=
  match s with
  | EmptyString => true
  | String a r => (is_hex a && all_hex r)%bool
  end.

(** The character [c] does not occur in [s]. *)
Fixpoint lacks (c : ascii) (s : string) : bool :=
  match s with
  | EmptyString => true
  | String a r => (negb (Ascii.eqb a c) && lacks c r)%bool
  end.

(** The file made of the given lines, each followed by a line feed. *)
Fixpoint unlines (ls : list string) : string :=
  match ls with
  | [] => EmptyString
  | l :: rest => String.append l (String "010" (unlines rest))
  end.

(** 64 lower-case hexadecimal digits. *)
Definition is_digest (s : string) : bool :=
  ((String.length s =? 64)%nat && all_hex s)%bool.

End Fields.

Class RuntimeLaws `{Runtime} : Prop := {
  sha256_hex_is_digest : forall s, Fields.is_digest (sha256_hex s) = true;
  toISOString_plain : forall t, Fields.plain (toISOString t) = true
}.

(** * A simulated runtime, to run the model on concrete inputs

    A rolling checksum spread over 64 hexadecimal digits stands in for
    SHA-256, and the millisecond count followed by [Z] for the calendar
    rendering of [toISOString]. *)

Module Sim.

Definition hex_digit (d : Z) : ascii :=
  if d <? 10 then ascii_of_nat (48 + Z.to_nat d) else ascii_of_nat (87 + Z.to_nat d).

(** [k] digits drawn from a linear congruential sequence seeded with [x]. *)
Fixpoint spread (k : nat) (x : Z) : string :=
  match k with
  | O => EmptyString
  | S k' =>
      let x' := (x * 75 + 74) mod 65537 in
      String (hex_digit (x' mod 16)) (spread k' x')
  end.

Fixpoint checksum (s : string) (acc : Z) : Z :=
  match s with
  | EmptyString => acc
  | String a r => checksum r ((acc * 31 + Z.of_nat (nat_of_ascii a) + 1) mod 65521)
  end.

Definition checksum_hex (s : string) : string := spread 64 (checksum s 7).

Definition clock_text (t : Z) : string :=
  String.append (JS.String_of t) "Z".

#[global] Instance runtime : Runtime :=
  {| sha256_hex := checksum_hex; toISOString := clock_text |}.

Definition food : Registry.Record_ :=
  {| Registry.account_status := "Active";
     Registry.aadhaar_linked := true;
     Registry.scheme_eligibility := "Food";
     Registry.scheme_amount := 5000;
     Registry.last_claim_date := None;
     Registry.claim_count := 0;
     Registry.income_tier := "Low";
     Registry.region_code := "KA" |}.

Definition citizen : string := "123456789012".

(** The same record with a last claim at the epoch. *)
Definition claimed_at_zero : Registry.Record_ :=
  {| Registry.account_status := "Active";
     Registry.aadhaar_linked := true;
     Registry.scheme_eligibility := "Food";
     Registry.scheme_amount := 5000;
     Registry.last_claim_date := Some 0;
     Registry.claim_count := 1;
     Registry.income_tier := "Low";
     Registry.region_code := "KA" |}.

(** The world right after the server has started with an empty [data/]
    directory, a registry holding [citizen] with the given record, and the
    given budget. *)
Definition boot_with (record : Registry.Record_) (budget : Z) : World :=
  {| sys := State.set_budget budget State._state;
     registryMap := {[ RegistryFns.hashCitizenId citizen := record ]};
     processedHashes := ∅;
     lastHash := Ledger.GENESIS_HASH;
     initialized := false;
     LEDGER_FILE := None;
     META_FILE := None;
     disk := healthy |}.

Definition boot (budget : Z) : World := boot_with food budget.

(** The same start with a disk that refuses to append. *)
Definition refusing : World :=
  {| sys := State._state;
     registryMap := {[ RegistryFns.hashCitizenId citizen := food ]};
     processedHashes := ∅;
     lastHash := Ledger.GENESIS_HASH;
     initialized := false;
     LEDGER_FILE := None;
     META_FILE := None;
     disk := {| appendFile_fails := true; writeFile_fails := false |} |}.

(** A start on a ledger file that somebody has overwritten. *)
Definition overwritten : World :=
  {| sys := State._state;
     registryMap := {[ RegistryFns.hashCitizenId citizen := food ]};
     processedHashes := ∅;
     lastHash := Ledger.GENESIS_HASH;
     initialized := false;
     LEDGER_FILE := Some (String.append "not a ledger line" (String "010" EmptyString));
     META_FILE := None;
     disk := healthy |}.

Definition entry : Ledger.Entry :=
  {| Ledger.entry_citizenHash := RegistryFns.hashCitizenId citizen;
     Ledger.entry_scheme := "Food";
     Ledger.entry_amount := 5000 |}.

(** An entry whose scheme text contains the field separator. *)
Definition piped : Ledger.Entry :=
  {| Ledger.entry_citizenHash := RegistryFns.hashCitizenId citizen;
     Ledger.entry_scheme := "Food|Plus";
     Ledger.entry_amount := 5000 |}.

(** The world after one claim of [citizen] has been served. *)
Definition served (budget : Z) : World :=
  snd (Validator.validate 1000 1001 citizen "Food" (boot budget)).

(** The world after one append. *)
Definition ledgered : World := snd (Ledger.append 1001 entry (boot 1000000)).

(** The world after that append and the removal of the ledger file. *)
Definition removed : World := set_LEDGER_FILE None ledgered.

Definition receipt : Ledger.Receipt :=
  {| Ledger.timestamp := toISOString 1001;
     Ledger.currentHash :=
       Ledger.sha256 [toISOString 1001; Ledger.entry_citizenHash entry;
                      Ledger.entry_scheme entry;
                      JS.String_of (Ledger.entry_amount entry);
                      Ledger.GENESIS_HASH] |}.

(** The rejection that quotes the scheme text [citizen]. *)
Definition echo : Validator.Decision :=
  Validator.rejection "Eligibility"
    (JS.join ["Scheme mismatch. Citizen is eligible for "; Validator.dquote;
              "Food"; Validator.dquote; ", not "; Validator.dquote;
              citizen; Validator.dquote; "."]).

(** The file of [ledgered], and the same with its first character, the
    digit 1, replaced by the digit 9. *)
Definition written : string :=
  match LEDGER_FILE ledgered with Some c => c | None => EmptyString end.

Definition written_tail : string :=
  match written with String _ r => r | EmptyString => EmptyString end.

Definition tampered : string := String "9" written_tail.

(** The file of [ledgered] with its final line feed replaced by a space. *)
Definition respaced : string :=
  String.append (JS.trimEnd written) " ".

End Sim.

(** * Vocabulary of the properties *)

Module Chain.

Section WithRuntime.
Context `{Runtime}.

(** [linked prev lines]: every line has six fields; its fifth field is
    the sixth field of the line before it ([prev] for the first line) and
    its sixth field is the hash of its first five fields. *)
Inductive linked : string -> list string -> Prop :=
| linked_nil prev : linked prev []
| linked_cons prev timestamp citizenHash scheme amount currHash line rest :
    JS.split "|" line = [timestamp; citizenHash; scheme; amount; prev; currHash] ->
    currHash = Ledger.sha256 [timestamp; citizenHash; scheme; amount; prev] ->
    linked currHash rest ->
    linked prev (line :: rest).

(** The sixth field of a line, the empty string when it has none. *)
Definition stored_hash (line : string) : string :=
  nth 5 (JS.split "|" line) EmptyString.

(** The running hash after [lines], starting from [prev]. *)
Definition final_hash (prev : string) (lines : list string) : string :=
  fold_left (fun _ line => stored_hash line) lines prev.

(** A line that breaks the chain after running hash [prev]. *)
Definition breaks (prev line : string) : Prop :=
  forall timestamp citizenHash scheme amount currHash,
    JS.split "|" line = [timestamp; citizenHash; scheme; amount; prev; currHash] ->
    currHash <> Ledger.sha256 [timestamp; citizenHash; scheme; amount; prev].

(** The lines [verifyIntegrity] walks. *)
Definition ledger_lines (w : World) : list string :=
  match LEDGER_FILE w with
  | Some content => Ledger.read_lines content
  | None => []
  end.

(** The stored digest disagrees with [actual], as
    [meta && meta.fileHash !== actualFileHash] decides it. *)
Definition digest_differs (meta : option MetaJson) (actual : string) : Prop :=
  match meta with
  | Some (MetaFileHash h) => h <> actual
  | Some MetaNoHash => True
  | _ => False
  end.

Fixpoint ends_with_LF (s : string) : bool :=
  match s with
  | EmptyString => true
  | String a EmptyString => Ascii.eqb a "010"
  | String _ r => ends_with_LF r
  end.

(** A ledger as the program itself leaves it: no file and the cursor at
    genesis, or a file of line-feed terminated lines that is linked from
    genesis, agrees with the stored digest, and is where the cursor points
    once the ledger has been verified. *)
Definition consistent (w : World) : Prop :=
  match LEDGER_FILE w with
  | None => lastHash w = Ledger.GENESIS_HASH
  | Some content =>
      ends_with_LF content = true /\
      ~ digest_differs (META_FILE w) (sha256_hex content) /\
      linked Ledger.GENESIS_HASH (Ledger.read_lines content) /\
      (initialized w = true ->
       lastHash w = final_hash Ledger.GENESIS_HASH (Ledger.read_lines content))
  end.

(** The fields of an entry handed to [append] contain neither the field
    separator nor a line feed. *)
Definition entry_inline (e : Ledger.Entry) : Prop :=
  Fields.inline (Ledger.entry_citizenHash e) = true /\
  Fields.inline (Ledger.entry_scheme e) = true.

(** The lines a run of appends adds after running hash [prev]. *)
Fixpoint appended_lines (prev : string) (es : list (Z * Ledger.Entry)) : list string :=
  match es with
  | [] => []
  | (now, e) :: rest =>
      let timestamp := toISOString now in
      let amount := JS.String_of (Ledger.entry_amount e) in
      let currHash :=
        Ledger.sha256 [timestamp; Ledger.entry_citizenHash e; Ledger.entry_scheme e;
                       amount; prev] in
      Ledger.line_of timestamp (Ledger.entry_citizenHash e) (Ledger.entry_scheme e)
                     amount prev currHash
        :: appended_lines currHash rest
  end.

(** A run of appends, each with its clock reading. *)
Fixpoint run_appends (es : list (Z * Ledger.Entry)) : M (list Ledger.Receipt) :=
  match es with
  | [] => ret []
  | (now, e) :: rest =>
      r <- Ledger.append now e ;;
      rs <- run_appends rest ;;
      ret (r :: rs)
  end.

(** [tampered] is [original] with one character replaced by another. *)
Definition one_char_changed (original tampered : string) : Prop :=
  exists before a b after,
    a <> b /\
    original = String.append before (String a after) /\
    tampered = String.append before (String b after).

(** The digest tells the two contents apart. *)
Definition no_collision (x y : string) : Prop :=
  sha256_hex x = sha256_hex y -> x = y.

End WithRuntime.

End Chain.

Module Gates.

(** [deduct] is called with a positive amount. *)
Definition positive_amount (o : State.Op) : Prop :=
  match o with
  | State.Deduct amount => 0 < amount
  | _ => True
  end.

Section WithRuntime.
Context `{Runtime}.

(** Gates 1 to 3 let the claim through with registry record [record]. *)
Definition reaches_budget_gate
    (w : World) (citizenId scheme : string) (record : Registry.Record_) : Prop :=
  State.status (sys w) = State.active /\
  (RegistryFns.hashCitizenId citizenId ∉ processedHashes w) /\
  registryMap w !! RegistryFns.hashCitizenId citizenId = Some record /\
  JS.toLowerCase (Registry.account_status record) = "active" /\
  Registry.aadhaar_linked record = true /\
  JS.toLowerCase (Registry.scheme_eligibility record)
    = JS.toLowerCase (JS.trim scheme) /\
  Registry.claim_count record <= 3.

(** Gate 4 lets the claim through. *)
Definition passes_budget_gate (w : World) (record : Registry.Record_) : Prop :=
  0 < State.budget (sys w) /\
  Registry.scheme_amount record <= State.budget (sys w).

(** Gate 5 lets the claim through at clock reading [now]. *)
Definition passes_frequency_gate (now : Z) (record : Registry.Record_) : Prop :=
  match Registry.last_claim_date record with
  | None => True
  | Some lastClaim => 30 * Validator.MS_PER_DAY <= now - lastClaim
  end.

Definition passes_all_gates
    (w : World) (now : Z) (citizenId scheme : string) (record : Registry.Record_) : Prop :=
  reaches_budget_gate w citizenId scheme record /\
  passes_budget_gate w record /\
  passes_frequency_gate now record.

End WithRuntime.

End Gates.

(** * Worlds and values that the steps of ledger.js produce *)

Module LedgerSteps.

Import Ledger.

(** The world after [state.freeze()]. *)
Definition frozen_world (w : World) : World := set_sys (State.freeze (sys w)) w.

(** The world after a verification that succeeded with running hash [h]. *)
Definition verified_world (h : string) (w : World) : World :=
  set_initialized true (set_lastHash h w).

(** [loadMeta] as a function of the meta file. *)
Definition meta_view (m : option MetaJson) : option (option string) :=
  match m with
  | Some (MetaFileHash h) => Some (Some h)
  | Some MetaNoHash => Some None
  | _ => None
  end.

(** What [verifyIntegrity] and the calls around it leave alone. *)
Definition same_files (w w' : World) : Prop :=
  LEDGER_FILE w' = LEDGER_FILE w /\ META_FILE w' = META_FILE w /\
  disk w' = disk w /\
  registryMap w' = registryMap w /\ processedHashes w' = processedHashes w /\
  (sys w' = sys w \/ sys w' = State.freeze (sys w)).

Section WithRuntime.
Context `{Runtime}.

Definition LF : string := String "010" EmptyString.

(** The world in which [append] builds its line: after the verification
    it runs first when the ledger has not been verified yet. *)
Definition after_verify (w : World) : World :=
  if initialized w then w else snd (verifyIntegrity w).

Definition new_hash (now : Z) (e : Entry) (prev : string) : string :=
  sha256 [toISOString now; entry_citizenHash e; entry_scheme e;
          JS.String_of (entry_amount e); prev].

Definition new_line (now : Z) (e : Entry) (prev : string) : string :=
  line_of (toISOString now) (entry_citizenHash e) (entry_scheme e)
          (JS.String_of (entry_amount e)) prev (new_hash now e prev).

Definition old_content (w : World) : string :=
  match LEDGER_FILE w with Some c => c | None => EmptyString end.

(** The file after the line has been appended. *)
Definition new_content (now : Z) (e : Entry) (w1 : World) : string :=
  String.append (old_content w1)
                (String.append (new_line now e (lastHash w1)) LF).

(** The world after the line has been appended and the cursor moved. *)
Definition appended_world (now : Z) (e : Entry) (w1 : World) : World :=
  set_lastHash (new_hash now e (lastHash w1))
    (set_LEDGER_FILE (Some (new_content now e w1)) w1).

(** The world after the digest has been stored as well. *)
Definition recorded_world (now : Z) (e : Entry) (w1 : World) : World :=
  set_META_FILE (Some (MetaFileHash (sha256_hex (new_content now e w1))))
    (appended_world now e w1).

End WithRuntime.

End LedgerSteps.

(** * Parts of [validate], named for the proofs *)

Module ValidatorSteps.

Import Validator.

Section WithRuntime.
Context `{Runtime}.

(** The statements after the five gates. *)
Definition approve_steps (now' : Z) (citizenHash scheme : string) (amount : Z)
  : M Decision :=
  state_call (State.deduct amount) ;;
  state_call State.incrTx ;;
  modify (fun w => set_processedHashes ({[citizenHash]} ∪ processedHashes w) w) ;;
  ledgerEntry <- Ledger.append now'
    {| Ledger.entry_citizenHash := citizenHash;
       Ledger.entry_scheme := scheme;
       Ledger.entry_amount := amount |} ;;
  ret {| approved := true;
         gate := "Approved";
         reason := "All validation gates passed. Transaction approved and recorded.";
         amount := Some amount;
         scheme := Some scheme;
         timestamp := Some (Ledger.timestamp ledgerEntry) |}.

(** [validate] from the budget gate on, [budget] being the budget read
    at gate 1. *)
Definition from_budget_gate
    (now now' : Z) (citizenHash scheme : string) (record : Registry.Record_)
    (budget : Z) : M Decision :=
  let amount := Registry.scheme_amount record in
  if budget <=? 0 then
    state_call State.freeze ;;
    ret (rejection "Budget"
      (JS.join ["Budget exhausted ("; rupee; "0 remaining). System auto-locked."]))
  else if budget <? amount then
    ret (rejection "Budget"
      (JS.join ["Insufficient budget. Available: "; rupee;
                JS.toLocaleString_enIN budget; ", Required: "; rupee;
                JS.toLocaleString_enIN amount; "."]))
  else
  match Registry.last_claim_date record with
  | Some lastClaim =>
      let diffDays := diffDays_of now lastClaim in
      if Qlt_bool diffDays (inject_Z 30) then
        let daysLeft := Qceiling (inject_Z 30 - diffDays) in
        ret (rejection "Frequency"
          (JS.join ["Frequency violation. Last claim was ";
                    JS.String_of (Qfloor diffDays);
                    " day(s) ago. Please wait "; JS.String_of daysLeft;
                    " more day(s)."]))
      else approve_steps now' citizenHash scheme amount
  | None => approve_steps now' citizenHash scheme amount
  end.

(** [validate] once the registry has answered with [record]. *)
Definition from_record
    (now now' : Z) (citizenHash scheme : string) (record : Registry.Record_)
    (budget : Z) : M Decision :=
  if negb (String.eqb (JS.toLowerCase (Registry.account_status record)) "active") then
    ret (rejection "Eligibility"
      (JS.join ["Account is not active. Current status: "; dquote;
                Registry.account_status record; dquote; "."]))
  else if negb (Registry.aadhaar_linked record) then
    ret (rejection "Eligibility"
      "Aadhaar is not linked to this Jan-Dhan account. Linking is mandatory.")
  else if negb (String.eqb (JS.toLowerCase (Registry.scheme_eligibility record))
                           (JS.toLowerCase (JS.trim scheme))) then
    ret (rejection "Eligibility"
      (JS.join ["Scheme mismatch. Citizen is eligible for "; dquote;
                Registry.scheme_eligibility record; dquote; ", not "; dquote;
                scheme; dquote; "."]))
  else if 3 <? Registry.claim_count record then
    ret (rejection "Eligibility"
      (JS.join ["Annual claim limit exceeded (Count: ";
                JS.String_of (Registry.claim_count record);
                " / Max: 3). Referred for manual review."]))
  else from_budget_gate now now' citizenHash scheme record budget.

(** The decision of an approval written at clock reading [now']. *)
Definition approval (now' : Z) (scheme : string) (amount : Z) : Decision :=
  {| approved := true;
     gate := "Approved";
     reason := "All validation gates passed. Transaction approved and recorded.";
     amount := Some amount;
     scheme := Some scheme;
     timestamp := Some (toISOString now') |}.

(** The world when [validate] calls [append]. *)
Definition charged_world (citizenHash : string) (amount : Z) (w : World) : World :=
  set_processedHashes ({[citizenHash]} ∪ processedHashes w)
    (set_sys (State.incrTx (State.deduct amount (sys w))) w).

Definition exhausted_reason : string :=
  JS.join ["Budget exhausted ("; rupee; "0 remaining). System auto-locked."].

Definition insufficient_reason (budget amount : Z) : string :=
  JS.join ["Insufficient budget. Available: "; rupee;
           JS.toLocaleString_enIN budget; ", Required: "; rupee;
           JS.toLocaleString_enIN amount; "."].

Definition replay_reason : string :=
  "Duplicate claim detected. This Citizen ID has already submitted a claim in this session.".

(** The texts a decision carries. *)
Definition texts (d : Decision) : list string :=
  gate d :: reason d ::
  match scheme d with Some s => [s] | None => [] end ++
  match timestamp d with Some t => [t] | None => [] end.

(** No text of the decision contains the raw identity or its token. *)
Definition hides_identity (citizenId : string) (d : Decision) : Prop :=
  Forall (fun text =>
            JS.includes citizenId text = false /\
            JS.includes (RegistryFns.hashCitizenId citizenId) text = false)
         (texts d).

End WithRuntime.

End ValidatorSteps.

(** * Readings of the specification that the code does not meet

    Each is refuted on a concrete run further down, next to the statement
    that does hold. *)

Module Readings.

Import Validator ValidatorSteps.

Section WithRuntime.
Context `{Runtime}.

(** A failed ledger write undoes the charge. *)
Definition write_failure_rolls_back
    (w : World) (now now' : Z) (citizenId scheme : string) : Prop :=
  forall record,
    Gates.passes_all_gates w now citizenId scheme record ->
    appendFile_fails (disk w) = true ->
    exists w',
      validate now now' citizenId scheme w = (Thrown IOError, w') /\
      State.budget (sys w') = State.budget (sys w) /\
      State.transactionCount (sys w') = State.transactionCount (sys w) /\
      processedHashes w' = processedHashes w.

(** A token in the replay set is always reported at the Replay gate. *)
Definition replay_always_reported
    (w : World) (now now' : Z) (citizenId scheme : string) : Prop :=
  RegistryFns.hashCitizenId citizenId ∈ processedHashes w ->
  exists d,
    validate now now' citizenId scheme w = (Returned d, w) /\
    approved d = false /\ gate d = "Replay".

(** No decision contains the identity it was asked about. *)
Definition identity_never_echoed
    (w : World) (now now' : Z) (citizenId scheme : string) : Prop :=
  forall d w',
    validate now now' citizenId scheme w = (Returned d, w') ->
    hides_identity citizenId d.

(** [verifyIntegrity] always compares the digest of the ledger, as
    [computeFileHash] gives it, with the stored one first. *)
Definition digest_checked_first (w : World) : Prop :=
  forall actual w1,
    Ledger.computeFileHash w = (Returned actual, w1) ->
    Chain.digest_differs (META_FILE w) actual ->
    Ledger.verifyIntegrity w = (Returned false, set_sys (State.freeze (sys w)) w).

(** A successful [verifyIntegrity] always leaves the cursor on the final
    hash of the chain on disk. *)
Definition success_caches_final_hash (w : World) : Prop :=
  forall w',
    Ledger.verifyIntegrity w = (Returned true, w') ->
    lastHash w' = Chain.final_hash Ledger.GENESIS_HASH (Chain.ledger_lines w).

(** After any append the ledger verifies. *)
Definition append_then_verifies (w : World) (now : Z) (e : Ledger.Entry) : Prop :=
  Chain.consistent w ->
  disk w = healthy ->
  fst (Ledger.verifyIntegrity (snd (Ledger.append now e w))) = Returned true.

End WithRuntime.

End Readings.

(** * ledger.js: the reporting view *)

Module LedgerView.

(** One entry of [getLastLines]. A field the line does not have is
    [undefined]: [None] where it is passed on as it is, the empty string
    where it is shortened. *)
Record Shown := mkShown {
  timestamp : option string;
  citizenHash : string;
  scheme : option string;
  amount : option string;
  prevHash : string;
  currHash : string
}.

(** [field ? field.slice(0, 12) + '...' : ''] *)
Definition shorten (field : option string) : string :=
  match field with
  | Some s =>
      if JS.truthy s then String.append (String.substring 0 12 s) "..."
      else EmptyString
  | None => EmptyString
  end.

(** [a.slice(start)] for an array: a negative [start] counts from the
    end, and either way it is clamped to the array. *)
Definition slice {A} (start : Z) (a : list A) : list A :=
  let len := Z.of_nat (List.length a) in
  let k := if start <? 0 then Z.max (len + start) 0 else Z.min start len in
  drop (Z.to_nat k) a.

Definition show (line : string) : Shown :=
  let parts := JS.split "|" line in
  {| timestamp := parts !! 0%nat;
     citizenHash := shorten (parts !! 1%nat);
     scheme := parts !! 2%nat;
     amount := parts !! 3%nat;
     prevHash := shorten (parts !! 4%nat);
     currHash := shorten (parts !! 5%nat) |}.

Definition getLastLines (n : Z) : M (list Shown) :=
  ex <- Fs.existsSync_LEDGER_FILE ;;
  if negb ex then ret []
  else
    content <- Fs.readFileSync_LEDGER_FILE ;;
    let lines :=
      List.filter JS.truthy (List.map JS.trim (JS.split "010" content)) in
    ret (List.map show (slice (- n) lines)).

End LedgerView.

(** * routes/admin.js *)

Module AdminRoute.

Record StatusReply := mkStatusReply {
  status : State.Status;
  budget : Z;
  initialBudget : Z;
  transactionCount : Z;
  ledgerIntegrity : bool
}.

Record SwitchReply := mkSwitchReply {
  success : bool;
  switched_status : State.Status
}.

Section WithRuntime.
Context `{Runtime}.

(** [GET /api/admin/status] *)
Definition get_status : M StatusReply :=
  s <- state_getState ;;
  ledgerIntegrity <- Ledger.verifyIntegrity ;;
  ret {| status := State.status s;
         budget := State.budget s;
         initialBudget := State.initialBudget s;
         transactionCount := State.transactionCount s;
         ledgerIntegrity := ledgerIntegrity |}.

(** [POST /api/admin/pause] *)
Definition post_pause : M SwitchReply :=
  state_call State.pause ;;
  s <- state_getState ;;
  ret {| success := true; switched_status := State.status s |}.

(** [POST /api/admin/resume] *)
Definition post_resume : M SwitchReply :=
  state_call State.resume ;;
  s <- state_getState ;;
  ret {| success := true; switched_status := State.status s |}.

(** [GET /api/admin/ledger] *)
Definition get_ledger : M (list LedgerView.Shown) :=
  entries <- LedgerView.getLastLines 20 ;;
  ret entries.

End WithRuntime.

End AdminRoute.

(** * server.js: the routes, one request after another

    Node runs one handler at a time and every handler here is synchronous,
    so a run of the server is a list of requests served in order. A handler
    that throws is answered by Express with status 500; the world stays as
    the handler left it and the next request is served. *)

Module Server.

Inductive Request :=
| PostClaim (now now' : Z) (citizen_id scheme : option string)
| GetStatus
| PostPause
| PostResume
| GetLedger.

Inductive Reply :=
| ClaimReply (r : ClaimRoute.Response)
| StatusReply (r : AdminRoute.StatusReply)
| SwitchReply (r : AdminRoute.SwitchReply)
| LedgerReply (entries : list LedgerView.Shown).

Section WithRuntime.
Context `{Runtime}.

Definition handle (req : Request) : M Reply :=
  match req with
  | PostClaim now now' citizen_id scheme =>
      r <- ClaimRoute.post now now' citizen_id scheme ;; ret (ClaimReply r)
  | GetStatus => r <- AdminRoute.get_status ;; ret (StatusReply r)
  | PostPause => r <- AdminRoute.post_pause ;; ret (SwitchReply r)
  | PostResume => r <- AdminRoute.post_resume ;; ret (SwitchReply r)
  | GetLedger => r <- AdminRoute.get_ledger ;; ret (LedgerReply r)
  end.

(** The requests with what each was answered, and the world at the end. *)
Fixpoint serve (reqs : list Request) (w : World)
  : list (Request * Outcome Reply) * World :=
  match reqs with
  | [] => ([], w)
  | req :: rest =>
      let (out, w1) := handle req w in
      let (trace, w2) := serve rest w1 in
      ((req, out) :: trace, w2)
  end.

(** The start of the server, after the registry has been loaded:
    [verifyIntegrity()]. *)
Definition startup : M bool := Ledger.verifyIntegrity.

End WithRuntime.

End Server.

(** * components/GateViz.jsx: the marks drawn for a decision *)

Module GateViz.

Definition GATE_FAIL_IDX : gmap string Z :=
  list_to_map
    [("System", 0); ("Replay", 0); ("Eligibility", 0);
     ("Budget", 1); ("Frequency", 2); ("Approved", -1)].

(** The property names an object literal inherits from
    [Object.prototype]. *)
Definition Object_prototype : list string :=
  ["constructor"; "hasOwnProperty"; "isPrototypeOf"; "propertyIsEnumerable";
   "toLocaleString"; "toString"; "valueOf"; "__proto__";
   "__defineGetter__"; "__defineSetter__"; "__lookupGetter__"; "__lookupSetter__"].

(** What [GATE_FAIL_IDX[gate] ?? -1] can be: a number, or a member of
    [Object.prototype]. *)
Inductive Value := Num (z : Z) | Inherited.

Definition fail_index (gate : string) : Value :=
  match GATE_FAIL_IDX !! gate with
  | Some z => Num z
  | None => if bool_decide (gate ∈ Object_prototype) then Inherited else Num (-1)
  end.

(** One turn of the loop of [animate]: the entries [newStates[i]] and
    [newStatus[i]]. Compared with a number, a function or an object is
    neither equal, nor less, nor more. *)
Definition mark (failIdx : Value) (i : Z) : option string * string :=
  match failIdx with
  | Num f =>
      if f =? -1 then (Some "pass", "PASS")
      else if i <? f then (Some "pass", "PASS")
      else if i =? f then (Some "fail", "FAIL")
      else (None, "SKIP")
  | Inherited => (None, "SKIP")
  end.

(** [newStates] and [newStatus] when the loop of [animate] has ended,
    for a result whose gate is [gate]. *)
Definition marks (gate : string) : list (option string * string) :=
  List.map (mark (fail_index gate)) [0; 1; 2].

Definition PASS : option string * string := (Some "pass", "PASS").
Definition FAIL : option string * string := (Some "fail", "FAIL").
Definition SKIP : option string * string := (None, "SKIP").

End GateViz.

(** * Vocabulary of the properties of runs *)

Module Runs.

Import Server.

(** A computation that has ended, its result passed through [f]. *)
Definition answer {A B} (f : A -> B) (r : Outcome A * World) : Outcome B * World :=
  match r with
  | (Returned a, w) => (Returned (f a), w)
  | (Thrown e, w) => (Thrown e, w)
  end.

(** The gate names of the rejections of [validate]. *)
Definition rejecting_gates : list string :=
  ["System"; "Replay"; "Eligibility"; "Budget"; "Frequency"].

Definition is_claim (req : Request) : bool :=
  match req with PostClaim _ _ _ _ => true | _ => false end.

Definition returned {A} (out : Outcome A) : bool :=
  match out with Returned _ => true | Thrown _ => false end.

(** The decision an answered request carries, when it was a claim. *)
Definition decision_of (out : Outcome Reply) : option Validator.Decision :=
  match out with
  | Returned (ClaimReply r) => Some (ClaimRoute.body r)
  | _ => None
  end.

Definition is_approval (out : Outcome Reply) : bool :=
  match decision_of out with
  | Some d => Validator.approved d
  | None => false
  end.

(** The amount of an approval. *)
Definition approved_amount (p : Request * Outcome Reply) : option Z :=
  match decision_of (snd p) with
  | Some d => if Validator.approved d then Validator.amount d else None
  | None => None
  end.

Definition approved_amounts (trace : list (Request * Outcome Reply)) : list Z :=
  omap approved_amount trace.

(** A text of ASCII characters. On these [String.prototype.trim] removes
    TAB, LF, VT, FF, CR and SPACE and nothing else, as [JS.trim] does. *)
Fixpoint ascii_text (s : string) : bool :=
  match s with
  | EmptyString => true
  | String a r => ((nat_of_ascii a <? 128)%nat && ascii_text r)%bool
  end.

Definition ascii_field (v : option string) : bool :=
  match v with
  | Some s => ascii_text s
  | None => true
  end.

(** [Number.MAX_SAFE_INTEGER]: up to it every whole number is a double. *)
Definition MAX_SAFE_INTEGER : Z := 2 ^ 53 - 1.

(** The numbers on which the arithmetic of [state.js] is exact for a run
    of [steps] requests: the budget, the amounts of the registry and the
    transaction count are whole numbers, as they are throughout this
    development, the amounts are not negative, and the budget and the count
    stay among the whole numbers that a double holds exactly. *)
Definition exact_arithmetic (w : World) (steps : nat) : Prop :=
  0 <= State.budget (sys w) <= MAX_SAFE_INTEGER /\
  0 <= State.transactionCount (sys w) /\
  State.transactionCount (sys w) + Z.of_nat steps <= MAX_SAFE_INTEGER /\
  map_Forall (fun _ record => 0 <= Registry.scheme_amount record) (registryMap w).

(** What a status reply says of the ledger. *)
Definition reported_integrity (p : Request * Outcome Reply) : option bool :=
  match snd p with
  | Returned (StatusReply r) => Some (AdminRoute.ledgerIntegrity r)
  | _ => None
  end.

Section WithRuntime.
Context `{Runtime}.

(** The token of the identity of an approval. *)
Definition approved_token (p : Request * Outcome Reply) : option string :=
  match fst p with
  | PostClaim _ _ (Some cid) _ =>
      if is_approval (snd p) then Some (RegistryFns.hashCitizenId (JS.trim cid))
      else None
  | _ => None
  end.

Definition approved_tokens (trace : list (Request * Outcome Reply)) : list string :=
  omap approved_token trace.

(** No scheme name of the registry contains the field separator or a
    line feed. *)
Definition registry_inline (w : World) : Prop :=
  map_Forall (fun _ record =>
                Fields.inline (Registry.scheme_eligibility record) = true)
             (registryMap w).

End WithRuntime.

End Runs.

(** * A session of the toy runtime *)

Module Session.

Definition claim : Server.Request :=
  Server.PostClaim 1000 1001 (Some Sim.citizen) (Some "Food").

(** The identity with white space around it, the scheme as well. *)
Definition spaced_claim : Server.Request :=
  Server.PostClaim 2000 2001 (Some " 123456789012 ") (Some "Food ").

Definition malformed_claim : Server.Request :=
  Server.PostClaim 3000 3001 (Some "12345") (Some "Food").

Definition requests : list Server.Request :=
  [Server.GetLedger; claim; Server.GetStatus; spaced_claim; malformed_claim;
   Server.PostPause; claim; Server.PostResume; Server.GetLedger].

(** The world after one append, on a disk that now takes the line and
    refuses the digest. *)
Definition unrecording : World :=
  {| sys := sys Sim.ledgered;
     registryMap := registryMap Sim.ledgered;
     processedHashes := processedHashes Sim.ledgered;
     lastHash := lastHash Sim.ledgered;
     initialized := initialized Sim.ledgered;
     LEDGER_FILE := LEDGER_FILE Sim.ledgered;
     META_FILE := META_FILE Sim.ledgered;
     disk := {| appendFile_fails := false; writeFile_fails := true |} |}.

(** A start with an exhausted budget, and the world after the claim that
    finds it so. *)
Definition exhausted : World := Sim.boot 0.

Definition locked : World := set_sys (State.freeze (sys exhausted)) exhausted.

(** A start with a last claim at the epoch on record. *)
Definition claimed : World := Sim.boot_with Sim.claimed_at_zero 1000000.

End Session.

(** * Properties of state.js *)

Module StateFacts.

Import State Gates.

Lemma freeze_frozen s : status (freeze s) = frozen.
Proof. reflexivity. Qed.

Lemma freeze_budget s : budget (freeze s) = budget s.
Proof. reflexivity. Qed.

Lemma freeze_idempotent s : freeze (freeze s) = freeze s.
Proof. reflexivity. Qed.

Lemma resume_frozen s : status s = frozen -> resume s = s.
Proof. intros Hs. unfold resume. now rewrite Hs. Qed.

Lemma pause_frozen s : status s = frozen -> pause s = s.
Proof. intros Hs. unfold pause. now rewrite Hs. Qed.

Lemma deduct_budget amount s :
  budget (deduct amount s) = Z.max 0 (budget s - amount).
Proof.
  unfold deduct. cbn [budget set_budget].
  destruct (Z.leb_spec (budget s - amount) 0); cbn; lia.
Qed.

Lemma deduct_status amount s :
  status (deduct amount s) =
  if budget s - amount <=? 0 then frozen else status s.
Proof.
  unfold deduct. cbn [budget set_budget].
  now destruct (budget s - amount <=? 0).
Qed.

Lemma deduct_transactionCount amount s :
  transactionCount (deduct amount s) = transactionCount s.
Proof.
  unfold deduct. cbn [budget set_budget].
  now destruct (budget s - amount <=? 0).
Qed.

(** [frozen] is absorbing: no operation leaves it. *)
Lemma run_frozen (o : Op) (s : SystemState) :
  status s = frozen -> status (run o s) = frozen.
Proof.
  intros Hs. destruct o as [ | | | amount | ]; cbn [run].
  - now rewrite pause_frozen.
  - now rewrite resume_frozen.
  - reflexivity.
  - rewrite deduct_status. now destruct (budget s - amount <=? 0).
  - exact Hs.
Qed.

(** C8. Every operation of the system state, [deduct] being called with
    a positive amount, keeps the budget non-negative and does not raise
    it, does not lower the transaction count, and leaves a frozen status
    frozen; so [resume] does not leave [frozen]. *)
Theorem operations_preserve_invariant (o : Op) (s : SystemState) :
  0 <= budget s ->
  positive_amount o ->
  0 <= budget (run o s) /\
  budget (run o s) <= budget s /\
  transactionCount s <= transactionCount (run o s) /\
  (status s = frozen -> status (run o s) = frozen).
Proof.
  intros Hb Hpos.
  split; [ | split; [ | split]]; [ | | | apply run_frozen].
  - destruct o as [ | | | amount | ]; cbn [run].
    + unfold pause. destruct (status s); cbn; lia.
    + unfold resume. destruct (status s); cbn; lia.
    + cbn. lia.
    + rewrite deduct_budget. lia.
    + cbn. lia.
  - destruct o as [ | | | amount | ]; cbn [run positive_amount] in *.
    + unfold pause. destruct (status s); cbn; lia.
    + unfold resume. destruct (status s); cbn; lia.
    + cbn. lia.
    + rewrite deduct_budget. lia.
    + cbn. lia.
  - destruct o as [ | | | amount | ]; cbn [run].
    + unfold pause. destruct (status s); cbn; lia.
    + unfold resume. destruct (status s); cbn; lia.
    + cbn. lia.
    + rewrite deduct_transactionCount. lia.
    + cbn. lia.
Qed.

Lemma operations_preserve_invariant_witness :
  0 <= budget (run (Deduct 5000) _state) /\
  budget (run (Deduct 5000) _state) <= budget _state /\
  transactionCount _state <= transactionCount (run (Deduct 5000) _state) /\
  (status _state = frozen -> status (run (Deduct 5000) _state) = frozen).
Proof.
  apply (operations_preserve_invariant (Deduct 5000) _state).
  - vm_compute. discriminate.
  - vm_compute. reflexivity.
Defined.

(** Once frozen, the system stays frozen over any run of operations. *)
Lemma runs_stay_frozen (os : list Op) (s : SystemState) :
  status s = frozen ->
  status (fold_left (fun acc o => run o acc) os s) = frozen.
Proof.
  revert s. induction os as [ | o os IH]; intros s Hs; cbn [fold_left].
  - exact Hs.
  - apply IH. now apply run_frozen.
Qed.

End StateFacts.

(** * Properties of the string primitives *)

Module JSFacts.

Example digits_examples :
  JS.String_of 0 = "0" /\ JS.String_of 5000 = "5000" /\
  JS.String_of (-42) = "-42" /\ JS.String_of 1000000 = "1000000".
Proof. vm_compute. auto. Qed.

Example toLocaleString_examples :
  JS.toLocaleString_enIN 1000000 = "10,00,000" /\
  JS.toLocaleString_enIN 995000 = "9,95,000" /\
  JS.toLocaleString_enIN 5000 = "5,000" /\
  JS.toLocaleString_enIN 500 = "500" /\
  JS.toLocaleString_enIN 12345678 = "1,23,45,678".
Proof. vm_compute. auto 6. Qed.

Example split_examples :
  JS.split "|" "a|b||c" = ["a"; "b"; ""; "c"] /\
  JS.split "|" "" = [""] /\
  JS.trim "  Food " = "Food" /\
  JS.padStart 12 "0" "42" = "000000000042" /\
  JS.toLowerCase "Active" = "active".
Proof. vm_compute. auto 6. Qed.

Lemma append_cons a s t :
  String.append (String a s) t = String a (String.append s t).
Proof. reflexivity. Qed.

Lemma append_nil s : String.append EmptyString s = s.
Proof. reflexivity. Qed.

Lemma append_empty_r s : String.append s EmptyString = s.
Proof.
  induction s as [ | a s IH]; [reflexivity | ]. now rewrite append_cons, IH.
Qed.

Lemma append_assoc s t u :
  String.append (String.append s t) u = String.append s (String.append t u).
Proof.
  induction s as [ | a s IH]; [reflexivity | ]. now rewrite !append_cons, IH.
Qed.

Lemma join_single s : JS.join [s] = s.
Proof. cbn. apply append_empty_r. Qed.

Lemma eqb_false_iff s t : String.eqb s t = false <-> s <> t.
Proof.
  destruct (String.eqb_spec s t); split; intros; congruence.
Qed.

End JSFacts.

(** * Properties of ledger.js *)

Module LedgerFacts.

Import Ledger Chain LedgerSteps.

Section WithRuntime.
Context `{Runtime}.

Lemma sha256_single content : sha256 [content] = sha256_hex content.
Proof. unfold sha256. now rewrite JSFacts.join_single. Qed.

(** ** The chain walk *)

Lemma walk_linked lines : forall prev w,
  linked prev lines ->
  walk lines prev w = (Returned (Some (final_hash prev lines)), w).
Proof.
  induction lines as [ | line rest IH]; intros prev w Hl.
  - reflexivity.
  - inversion Hl as [ | ? ts ch sc am cur ? ? Hsplit Hcur Hrest]; subst.
    cbn [walk]. rewrite Hsplit. rewrite !String.eqb_refl. cbn [negb orb].
    rewrite (IH _ w Hrest).
    unfold final_hash at 2. cbn [fold_left]. unfold stored_hash at 2.
    rewrite Hsplit. reflexivity.
Qed.

Lemma walk_breaks line rest prev w :
  breaks prev line ->
  walk (line :: rest) prev w = (Returned None, frozen_world w).
Proof.
  intros Hb. cbn [walk].
  destruct (JS.split "|" line)
    as [ | ts [ | ch [ | sc [ | am [ | sp [ | cur [ | x l]]]]]]] eqn:Hsplit;
    try reflexivity.
  destruct (String.eqb_spec sp prev) as [-> | Hne]; [ | reflexivity].
  destruct (String.eqb_spec cur (sha256 [ts; ch; sc; am; prev])) as [Heq | Hne];
    [ | reflexivity].
  exfalso. exact (Hb ts ch sc am cur Hsplit Heq).
Qed.

Lemma final_hash_app prev xs ys :
  final_hash prev (xs ++ ys) = final_hash (final_hash prev xs) ys.
Proof. unfold final_hash. apply fold_left_app. Qed.

Lemma walk_app good rest : forall prev w,
  linked prev good ->
  walk (good ++ rest) prev w = walk rest (final_hash prev good) w.
Proof.
  induction good as [ | line good IH]; intros prev w Hl.
  - reflexivity.
  - inversion Hl as [ | ? ts ch sc am cur ? ? Hsplit Hcur Hrest]; subst.
    cbn [walk app]. rewrite Hsplit. rewrite !String.eqb_refl. cbn [negb orb].
    rewrite (IH _ w Hrest).
    unfold final_hash at 2. cbn [fold_left]. unfold stored_hash at 2.
    rewrite Hsplit. reflexivity.
Qed.

(** The walk stops at the first line that breaks the chain. *)
Lemma walk_first_break good bad rest w :
  linked GENESIS_HASH good ->
  breaks (final_hash GENESIS_HASH good) bad ->
  walk (good ++ bad :: rest) GENESIS_HASH w = (Returned None, frozen_world w).
Proof.
  intros Hl Hb. rewrite (walk_app _ _ _ _ Hl). now apply walk_breaks.
Qed.

(** The walk decides [linked]: it either yields a running hash, and the
    lines are linked, or it freezes. *)
Lemma walk_cases lines : forall prev w,
  (linked prev lines /\
   walk lines prev w = (Returned (Some (final_hash prev lines)), w)) \/
  (~ linked prev lines /\
   walk lines prev w = (Returned None, frozen_world w)).
Proof.
  induction lines as [ | line rest IH]; intros prev w.
  - left. split; [constructor | reflexivity].
  - cbn [walk].
    destruct (JS.split "|" line)
      as [ | ts [ | ch [ | sc [ | am [ | sp [ | cur [ | x l]]]]]]] eqn:Hsplit;
      try (right; split; [ | reflexivity];
           intros Hl; inversion Hl; subst; congruence).
    destruct (String.eqb_spec sp prev) as [-> | Hne]; cbn [negb orb].
    + destruct (String.eqb_spec cur (sha256 [ts; ch; sc; am; prev])) as [Heq | Hne];
        cbn [negb].
      * destruct (IH cur w) as [[Hl Hw] | [Hl Hw]].
        -- left. split; [econstructor; eauto | ].
           rewrite Hw. unfold final_hash at 2. cbn [fold_left].
           unfold stored_hash at 2. rewrite Hsplit. reflexivity.
        -- right. split; [ | exact Hw].
           intros Hl'. inversion Hl'; subst.
           match goal with
           | Hs : JS.split _ line = _ |- _ => rewrite Hsplit in Hs; inversion Hs; subst
           end.
           auto.
      * right. split; [ | reflexivity].
        intros Hl. inversion Hl; subst.
        match goal with
        | Hs : JS.split _ line = _ |- _ => rewrite Hsplit in Hs; inversion Hs; subst
        end.
        congruence.
    + right. split; [ | reflexivity].
      intros Hl. inversion Hl; subst.
      match goal with
      | Hs : JS.split _ line = _ |- _ => rewrite Hsplit in Hs; inversion Hs; subst
      end.
      congruence.
Qed.

(** ** verifyIntegrity *)

Lemma loadMeta_eq w : loadMeta w = (Returned (meta_view (META_FILE w)), w).
Proof.
  unfold loadMeta, Fs.existsSync_META_FILE, bind, get, ret, meta_view.
  cbv beta. destruct (META_FILE w) as [[ | | h] | ] eqn:E; cbn; rewrite ?E; reflexivity.
Qed.

Lemma meta_mismatch_iff m actual :
  meta_mismatch (meta_view m) actual = true <-> digest_differs m actual.
Proof.
  destruct m as [[ | | h] | ]; cbn; try (split; [discriminate | tauto]);
    try tauto.
  destruct (String.eqb_spec h actual); cbn; split; intros; congruence.
Qed.

Lemma computeFileHash_present w content :
  LEDGER_FILE w = Some content ->
  computeFileHash w = (Returned (sha256_hex content), w).
Proof.
  intros Hf.
  unfold computeFileHash, Fs.existsSync_LEDGER_FILE, Fs.readFileSync_LEDGER_FILE,
    bind, get, ret.
  cbv beta. rewrite Hf. cbn [negb]. cbv beta. rewrite Hf.
  now rewrite sha256_single.
Qed.

Lemma verifyIntegrity_absent w :
  LEDGER_FILE w = None ->
  verifyIntegrity w = (Returned true, set_initialized true w).
Proof.
  intros Hf.
  unfold verifyIntegrity, ensureDataDir, Fs.existsSync_LEDGER_FILE,
    bind, get, ret, modify.
  now rewrite Hf.
Qed.

Lemma verifyIntegrity_present w content :
  LEDGER_FILE w = Some content ->
  verifyIntegrity w =
  if meta_mismatch (meta_view (META_FILE w)) (sha256_hex content)
  then (Returned false, frozen_world w)
  else match walk (read_lines content) GENESIS_HASH w with
       | (Returned (Some h), w') => (Returned true, verified_world h w')
       | (Returned None, w') => (Returned false, w')
       | (Thrown e, w') => (Thrown e, w')
       end.
Proof.
  intros Hf.
  unfold verifyIntegrity, ensureDataDir.
  unfold bind at 1. unfold ret at 1.
  unfold bind at 1. unfold Fs.existsSync_LEDGER_FILE at 1. unfold get at 1.
  rewrite Hf. cbn [negb].
  unfold bind at 1. rewrite loadMeta_eq.
  unfold bind at 1. rewrite (computeFileHash_present w content Hf).
  destruct (meta_mismatch (meta_view (META_FILE w)) (sha256_hex content)).
  - reflexivity.
  - unfold bind at 1. unfold Fs.readFileSync_LEDGER_FILE at 1. rewrite Hf.
    unfold bind at 1.
    destruct (walk (read_lines content) GENESIS_HASH w) as [[[h | ] | e] w'];
      reflexivity.
Qed.

(** The stored digest disagrees: frozen and [false], whatever the lines. *)
Lemma verifyIntegrity_digest_differs w content :
  LEDGER_FILE w = Some content ->
  digest_differs (META_FILE w) (sha256_hex content) ->
  verifyIntegrity w = (Returned false, frozen_world w).
Proof.
  intros Hf Hd. rewrite (verifyIntegrity_present w content Hf).
  apply meta_mismatch_iff in Hd. now rewrite Hd.
Qed.

Lemma not_digest_differs m actual :
  ~ digest_differs m actual -> meta_mismatch (meta_view m) actual = false.
Proof.
  intros Hd. destruct (meta_mismatch (meta_view m) actual) eqn:E; [ | reflexivity].
  apply meta_mismatch_iff in E. contradiction.
Qed.

Lemma verifyIntegrity_linked w content :
  LEDGER_FILE w = Some content ->
  ~ digest_differs (META_FILE w) (sha256_hex content) ->
  linked GENESIS_HASH (read_lines content) ->
  verifyIntegrity w =
  (Returned true,
   verified_world (final_hash GENESIS_HASH (read_lines content)) w).
Proof.
  intros Hf Hd Hl. rewrite (verifyIntegrity_present w content Hf).
  rewrite (not_digest_differs _ _ Hd).
  now rewrite (walk_linked _ _ w Hl).
Qed.

Lemma verifyIntegrity_first_break w content (good : list string) bad rest :
  LEDGER_FILE w = Some content ->
  ~ digest_differs (META_FILE w) (sha256_hex content) ->
  read_lines content = (good ++ bad :: rest)%list ->
  linked GENESIS_HASH good ->
  breaks (final_hash GENESIS_HASH good) bad ->
  verifyIntegrity w = (Returned false, frozen_world w).
Proof.
  intros Hf Hd Hlines Hl Hb. rewrite (verifyIntegrity_present w content Hf).
  rewrite (not_digest_differs _ _ Hd), Hlines.
  now rewrite (walk_first_break good bad rest w Hl Hb).
Qed.

(** [verifyIntegrity] does not throw; it answers [false] exactly when it
    froze the system, and then it touched nothing else. *)
Lemma verifyIntegrity_total w :
  (exists h, verifyIntegrity w = (Returned true, verified_world h w)) \/
  verifyIntegrity w = (Returned true, set_initialized true w) \/
  verifyIntegrity w = (Returned false, frozen_world w).
Proof.
  destruct (LEDGER_FILE w) as [content | ] eqn:Hf.
  - rewrite (verifyIntegrity_present w content Hf).
    destruct (meta_mismatch _ _); [now right; right | ].
    destruct (walk_cases (read_lines content) GENESIS_HASH w) as [[_ Hw] | [_ Hw]];
      rewrite Hw; [left; eauto | now right; right].
  - right; left. now apply verifyIntegrity_absent.
Qed.

Lemma verifyIntegrity_same_files w :
  same_files w (snd (verifyIntegrity w)).
Proof.
  destruct (verifyIntegrity_total w) as [[h Hv] | [Hv | Hv]]; rewrite Hv;
    cbn; unfold same_files; cbn; tauto.
Qed.

(** ** append *)

Lemma after_verify_same_files w : same_files w (after_verify w).
Proof.
  unfold after_verify. destruct (initialized w).
  - unfold same_files. tauto.
  - apply verifyIntegrity_same_files.
Qed.

(** [append] step by step: verification when due, its outcome ignored;
    the line written unless the disk refuses; the cursor moved; the
    digest stored unless the disk refuses. *)
Lemma append_eq now e w :
  append now e w =
  let w1 := after_verify w in
  if appendFile_fails (disk w1) then (Thrown IOError, w1)
  else if writeFile_fails (disk w1) then (Thrown IOError, appended_world now e w1)
  else (Returned {| timestamp := toISOString now;
                    currentHash := new_hash now e (lastHash w1) |},
        recorded_world now e w1).
Proof.
  assert (Hstep : forall w1,
    (prevHash <- get lastHash ;;
     Fs.appendFileSync_LEDGER_FILE
       (String.append
          (line_of (toISOString now) (entry_citizenHash e) (entry_scheme e)
             (JS.String_of (entry_amount e)) prevHash
             (sha256 [toISOString now; entry_citizenHash e; entry_scheme e;
                      JS.String_of (entry_amount e); prevHash]))
          (String "010" EmptyString)) ;;
     modify (set_lastHash
       (sha256 [toISOString now; entry_citizenHash e; entry_scheme e;
                JS.String_of (entry_amount e); prevHash])) ;;
     fileHash <- computeFileHash ;;
     saveMeta fileHash ;;
     ret {| timestamp := toISOString now;
            currentHash :=
              sha256 [toISOString now; entry_citizenHash e; entry_scheme e;
                      JS.String_of (entry_amount e); prevHash] |}) w1 =
    if appendFile_fails (disk w1) then (Thrown IOError, w1)
    else if writeFile_fails (disk w1) then (Thrown IOError, appended_world now e w1)
    else (Returned {| timestamp := toISOString now;
                      currentHash := new_hash now e (lastHash w1) |},
          recorded_world now e w1)).
  { intros w1.
    unfold bind at 1. unfold get at 1.
    unfold bind at 1. unfold Fs.appendFileSync_LEDGER_FILE at 1.
    destruct (appendFile_fails (disk w1)); [reflexivity | ].
    unfold bind at 1. unfold modify at 1.
    unfold bind at 1.
    rewrite (computeFileHash_present _ (new_content now e w1)) by reflexivity.
    unfold bind at 1. unfold saveMeta, Fs.writeFileSync_META_FILE.
    cbn [disk set_lastHash set_LEDGER_FILE].
    destruct (writeFile_fails (disk w1)); reflexivity. }
  unfold append, ensureDataDir.
  unfold bind at 1. unfold ret at 1.
  unfold bind at 1. unfold get at 1.
  unfold after_verify.
  destruct (initialized w); cbn [negb].
  - unfold bind at 1. unfold ret at 1. apply Hstep.
  - unfold bind at 1. unfold bind at 1.
    destruct (verifyIntegrity_total w) as [[h Hv] | [Hv | Hv]]; rewrite Hv;
      unfold ret at 1; cbn [snd]; apply Hstep.
Qed.

Lemma verifyIntegrity_false w :
  fst (verifyIntegrity w) = Returned false ->
  verifyIntegrity w = (Returned false, frozen_world w).
Proof.
  destruct (verifyIntegrity_total w) as [[h Hv] | [Hv | Hv]]; rewrite Hv; cbn;
    intros Hf; congruence.
Qed.

(** Lines that are not linked have a first line that breaks the chain. *)
Lemma linked_or_first_break lines : forall prev,
  linked prev lines \/
  exists good bad rest,
    lines = (good ++ bad :: rest)%list /\ linked prev good /\
    breaks (final_hash prev good) bad.
Proof.
  induction lines as [ | line rest IH]; intros prev.
  - left. constructor.
  - assert (Hdec : breaks prev line \/
                   exists ts ch sc am cur,
                     JS.split "|" line = [ts; ch; sc; am; prev; cur] /\
                     cur = sha256 [ts; ch; sc; am; prev]).
    { unfold breaks.
      destruct (JS.split "|" line)
        as [ | ts [ | ch [ | sc [ | am [ | sp [ | cur [ | x l]]]]]]] eqn:Hsplit;
        try (left; intros; discriminate).
      destruct (String.eqb_spec sp prev) as [-> | Hne].
      - destruct (String.eqb_spec cur (sha256 [ts; ch; sc; am; prev])) as [Heq | Hne].
        + right. exists ts, ch, sc, am, cur. auto.
        + left. intros ? ? ? ? ? Hs. inversion Hs; subst. exact Hne.
      - left. intros ? ? ? ? ? Hs. inversion Hs; subst. congruence. }
    destruct Hdec as [Hb | (ts & ch & sc & am & cur & Hsplit & Hcur)].
    + right. exists [], line, rest. repeat split; [constructor | exact Hb].
    + destruct (IH cur) as [Hl | (good & bad & rest' & Heq & Hl & Hb)].
      * left. econstructor; eauto.
      * right. exists (line :: good), bad, rest'. subst rest. repeat split.
        -- econstructor; eauto.
        -- unfold final_hash in *. cbn [fold_left]. unfold stored_hash at 2.
           now rewrite Hsplit.
Qed.

(** The three ways a line breaks the chain: it has not six fields, its
    fifth field is not the running hash, or its sixth field is not the
    hash of the first five. *)
Lemma breaks_iff prev line :
  breaks prev line <->
  List.length (JS.split "|" line) <> 6%nat \/
  nth 4 (JS.split "|" line) EmptyString <> prev \/
  stored_hash line <> sha256 (firstn 5 (JS.split "|" line)).
Proof.
  unfold breaks, stored_hash.
  destruct (JS.split "|" line)
    as [ | ts [ | ch [ | sc [ | am [ | sp [ | cur [ | x l]]]]]]] eqn:Hsplit;
    try (split; [intros _; left; cbn; lia | intros _ ? ? ? ? ? Hs; discriminate]).
  cbn [List.length nth firstn]. split.
  - intros Hb. destruct (String.eqb_spec sp prev) as [-> | Hne]; [ | now right; left].
    right; right. now apply Hb.
  - intros [Hlen | [Hprev | Hhash]] ? ? ? ? ? Hs; inversion Hs; subst;
      [lia | congruence | exact Hhash].
Qed.

(** C3, as the code has it. With no ledger file, [verifyIntegrity]
    answers [true] at once: it marks the ledger verified and looks neither
    at the stored digest nor at the cursor. With a ledger file, it first
    compares the digest of the file with the stored one and, when they
    differ, freezes the system and answers [false] whatever the lines are;
    otherwise it walks the lines from the genesis hash, and at the first
    line that has not six fields, or whose previous hash is not the running
    hash, or whose current hash is not the hash of its fields, it freezes
    the system and answers [false]; when every line passes it stores the
    final running hash in the cursor, marks the ledger verified and answers
    [true]. One of these cases always applies. *)
Theorem verifyIntegrity_behaviour w :
  match LEDGER_FILE w with
  | None => verifyIntegrity w = (Returned true, set_initialized true w)
  | Some content =>
      (digest_differs (META_FILE w) (sha256_hex content) ->
       verifyIntegrity w = (Returned false, set_sys (State.freeze (sys w)) w)) /\
      (~ digest_differs (META_FILE w) (sha256_hex content) ->
       (forall (good : list string) bad rest,
          read_lines content = (good ++ bad :: rest)%list ->
          linked GENESIS_HASH good ->
          breaks (final_hash GENESIS_HASH good) bad ->
          verifyIntegrity w = (Returned false, set_sys (State.freeze (sys w)) w)) /\
       (linked GENESIS_HASH (read_lines content) ->
          verifyIntegrity w =
          (Returned true,
           set_initialized true
             (set_lastHash (final_hash GENESIS_HASH (read_lines content)) w)))) /\
      (linked GENESIS_HASH (read_lines content) \/
       exists (good : list string) bad rest,
         read_lines content = (good ++ bad :: rest)%list /\
         linked GENESIS_HASH good /\
         breaks (final_hash GENESIS_HASH good) bad)
  end.
Proof.
  destruct (LEDGER_FILE w) as [content | ] eqn:Hf.
  - split; [ | split].
    + now apply verifyIntegrity_digest_differs.
    + intros Hd. split.
      * intros good bad rest. now apply verifyIntegrity_first_break.
      * now apply verifyIntegrity_linked.
    + apply linked_or_first_break.
  - now apply verifyIntegrity_absent.
Qed.

(** C10. When the ledger has not been verified yet and the verification
    that [append] runs fails, [append] still returns its receipt. The file
    it leaves is the file it found followed by one line, written out here
    character by character: the timestamp, the citizen hash, the scheme,
    the amount in decimal, then the cursor as it stood before the call
    (the genesis hash in a fresh process) as previous hash, and the digest
    of those five texts, with the separator between them and a line feed
    at the end. The cursor is moved to that digest, the digest
    of the new file contents is stored, and the system is frozen. *)
Theorem append_ignores_failed_verification now e w :
  initialized w = false ->
  fst (verifyIntegrity w) = Returned false ->
  disk w = healthy ->
  let timestamp := toISOString now in
  let amount := JS.String_of (entry_amount e) in
  let stale := lastHash w in
  let currHash :=
    sha256_hex (timestamp ++ entry_citizenHash e ++ entry_scheme e ++ amount ++ stale) in
  let line :=
    timestamp ++ "|" ++ entry_citizenHash e ++ "|" ++ entry_scheme e ++ "|"
      ++ amount ++ "|" ++ stale ++ "|" ++ currHash in
  exists found w',
    LEDGER_FILE w = Some found /\
    append now e w =
      (Returned {| timestamp := timestamp; currentHash := currHash |}, w') /\
    LEDGER_FILE w' = Some (found ++ line ++ String "010" EmptyString) /\
    META_FILE w' =
      Some (MetaFileHash (sha256_hex (found ++ line ++ String "010" EmptyString))) /\
    lastHash w' = currHash /\
    State.status (sys w') = State.frozen.
Proof.
  intros Hinit Hv Hdisk. cbv zeta.
  destruct (LEDGER_FILE w) as [found | ] eqn:Hfile;
    [ | rewrite (verifyIntegrity_absent w Hfile) in Hv; discriminate Hv].
  apply verifyIntegrity_false in Hv.
  rewrite append_eq. unfold after_verify. rewrite Hinit, Hv. cbn [snd].
  cbv zeta. cbn [disk frozen_world set_sys]. rewrite Hdisk.
  cbn [healthy appendFile_fails writeFile_fails].
  assert (Hhash : new_hash now e (lastHash w)
                  = sha256_hex (toISOString now ++ entry_citizenHash e
                                ++ entry_scheme e ++ JS.String_of (entry_amount e)
                                ++ lastHash w)).
  { unfold new_hash, sha256, JS.join. cbn [fold_right].
    now rewrite JSFacts.append_empty_r. }
  assert (Hline : new_content now e (set_sys (State.freeze (sys w)) w)
                  = found ++
                    (toISOString now ++ "|" ++ entry_citizenHash e ++ "|"
                     ++ entry_scheme e ++ "|" ++ JS.String_of (entry_amount e)
                     ++ "|" ++ lastHash w ++ "|"
                     ++ sha256_hex (toISOString now ++ entry_citizenHash e
                                    ++ entry_scheme e
                                    ++ JS.String_of (entry_amount e)
                                    ++ lastHash w))
                    ++ String "010" EmptyString).
  { unfold new_content, old_content, new_line, line_of, JS.join, LF.
    cbn [LEDGER_FILE lastHash set_sys fold_right]. rewrite Hfile, Hhash.
    rewrite JSFacts.append_empty_r.
    rewrite <- !JSFacts.append_assoc. reflexivity. }
  exists found, (recorded_world now e (set_sys (State.freeze (sys w)) w)).
  split; [reflexivity | ].
  change (lastHash (frozen_world w)) with (lastHash w).
  rewrite Hhash. split; [reflexivity | ].
  unfold recorded_world, appended_world.
  cbn [LEDGER_FILE META_FILE lastHash sys set_META_FILE set_lastHash
       set_LEDGER_FILE].
  rewrite Hline.
  change (lastHash (set_sys (State.freeze (sys w)) w)) with (lastHash w).
  rewrite Hhash.
  repeat apply conj; reflexivity.
Qed.

(** ** Tampering with the file *)

Lemma one_char_changed_neq original tampered :
  one_char_changed original tampered -> tampered <> original.
Proof.
  intros (before & a & b & after & Hab & -> & ->).
  induction before as [ | c before IH].
  - rewrite !JSFacts.append_nil. intros Heq. inversion Heq. congruence.
  - rewrite !JSFacts.append_cons. intros Heq. apply IH. now inversion Heq.
Qed.

Lemma append_returned now e w r w' :
  append now e w = (Returned r, w') ->
  exists content,
    LEDGER_FILE w' = Some content /\
    META_FILE w' = Some (MetaFileHash (sha256_hex content)).
Proof.
  rewrite append_eq. cbv zeta.
  destruct (appendFile_fails _); [discriminate | ].
  destruct (writeFile_fails _); [discriminate | ].
  intros Heq. inversion Heq; subst. eexists. split; reflexivity.
Qed.

(** C2. Take the ledger file as an append has left it, with its stored
    digest, and replace one character of it by another. If the digest
    tells the two contents apart, [verifyIntegrity] answers [false] and
    the system is frozen. *)
Theorem one_changed_character_is_detected now e w r w' content tampered :
  append now e w = (Returned r, w') ->
  LEDGER_FILE w' = Some content ->
  one_char_changed content tampered ->
  no_collision tampered content ->
  exists w'',
    verifyIntegrity (set_LEDGER_FILE (Some tampered) w') = (Returned false, w'') /\
    State.status (sys w'') = State.frozen.
Proof.
  intros Happ Hf Hchg Hnc.
  destruct (append_returned _ _ _ _ _ Happ) as (c & Hc & Hm).
  rewrite Hf in Hc. inversion Hc; subst c.
  eexists. split.
  - apply (verifyIntegrity_digest_differs _ tampered); [reflexivity | ].
    cbn [META_FILE set_LEDGER_FILE]. rewrite Hm. cbn.
    intros Heq. apply (one_char_changed_neq _ _ Hchg). apply Hnc. congruence.
  - reflexivity.
Qed.

End WithRuntime.

End LedgerFacts.

(** * Properties of validator.js *)

Module ValidatorFacts.

Import Validator ValidatorSteps Gates LedgerSteps.

Section WithRuntime.
Context `{Runtime}.

(** ** [validate] gate by gate *)

Lemma validate_eq now now' citizenId scheme0 w :
  validate now now' citizenId scheme0 w =
  let citizenHash := RegistryFns.hashCitizenId citizenId in
  match State.status (sys w) with
  | State.frozen =>
      (Returned (rejection "System"
         "System is FROZEN due to a security or budget event. All transactions are blocked."),
       w)
  | State.paused =>
      (Returned (rejection "System"
         "System is PAUSED by administrator. No transactions are being processed."),
       w)
  | State.active =>
      if bool_decide (citizenHash ∈ processedHashes w) then
        (Returned (rejection "Replay" replay_reason), w)
      else
        match registryMap w !! citizenHash with
        | None =>
            (Returned (rejection "Eligibility"
               "Citizen ID not found in the national registry."), w)
        | Some record =>
            from_record now now' citizenHash scheme0 record (State.budget (sys w)) w
        end
  end.
Proof.
  unfold validate. cbv zeta.
  unfold bind at 1. unfold state_getState at 1. unfold get at 1.
  unfold State.getState.
  destruct (State.status (sys w)); try reflexivity.
  unfold bind at 1. unfold get at 1.
  destruct (bool_decide _); [reflexivity | ].
  unfold bind at 1. unfold RegistryFns.lookup at 1. unfold get at 1.
  destruct (registryMap w !! _); reflexivity.
Qed.

Lemma from_record_eligible now now' citizenHash scheme0 record budget w :
  JS.toLowerCase (Registry.account_status record) = "active" ->
  Registry.aadhaar_linked record = true ->
  JS.toLowerCase (Registry.scheme_eligibility record)
    = JS.toLowerCase (JS.trim scheme0) ->
  Registry.claim_count record <= 3 ->
  from_record now now' citizenHash scheme0 record budget w =
  from_budget_gate now now' citizenHash scheme0 record budget w.
Proof.
  intros Hst Hlink Hsch Hcount. unfold from_record.
  rewrite Hst, Hlink, Hsch, !String.eqb_refl. cbn [negb].
  destruct (Z.ltb_spec 3 (Registry.claim_count record)); [lia | reflexivity].
Qed.

(** Gates 1 to 3 passed: [validate] is at the budget gate. *)
Lemma validate_reaches_budget_gate now now' citizenId scheme0 record w :
  reaches_budget_gate w citizenId scheme0 record ->
  validate now now' citizenId scheme0 w =
  from_budget_gate now now' (RegistryFns.hashCitizenId citizenId) scheme0 record
                   (State.budget (sys w)) w.
Proof.
  intros (Hact & Hnew & Hrec & Hst & Hlink & Hsch & Hcount).
  rewrite validate_eq. cbv zeta. rewrite Hact.
  rewrite (bool_decide_eq_false_2 _ Hnew), Hrec.
  now apply from_record_eligible.
Qed.

Lemma frequency_passes now lastClaim :
  30 * MS_PER_DAY <= now - lastClaim ->
  Qlt_bool (diffDays_of now lastClaim) (inject_Z 30) = false.
Proof.
  intros Hd. unfold Qlt_bool, diffDays_of, Qle_bool, inject_Z. cbn [Qnum Qden].
  apply negb_false_iff, Z.leb_le.
  change (Z.pos (Z.to_pos MS_PER_DAY)) with MS_PER_DAY. lia.
Qed.

Lemma from_budget_gate_passes now now' citizenHash scheme0 record w :
  passes_budget_gate w record ->
  passes_frequency_gate now record ->
  from_budget_gate now now' citizenHash scheme0 record (State.budget (sys w)) w =
  approve_steps now' citizenHash scheme0 (Registry.scheme_amount record) w.
Proof.
  intros [Hpos Hle] Hfreq. unfold from_budget_gate. cbv zeta.
  destruct (Z.leb_spec (State.budget (sys w)) 0); [lia | ].
  destruct (Z.ltb_spec (State.budget (sys w)) (Registry.scheme_amount record));
    [lia | ].
  unfold passes_frequency_gate in Hfreq.
  destruct (Registry.last_claim_date record) as [lastClaim | ]; [ | reflexivity].
  now rewrite (frequency_passes _ _ Hfreq).
Qed.

(** All five gates passed: [validate] runs the approval statements. *)
Lemma validate_passes_all_gates now now' citizenId scheme0 record w :
  passes_all_gates w now citizenId scheme0 record ->
  validate now now' citizenId scheme0 w =
  approve_steps now' (RegistryFns.hashCitizenId citizenId) scheme0
                (Registry.scheme_amount record) w.
Proof.
  intros (Hreach & Hbudget & Hfreq).
  rewrite (validate_reaches_budget_gate _ _ _ _ _ _ Hreach).
  now apply from_budget_gate_passes.
Qed.

(** ** The approval statements *)

Lemma after_verify_charged citizenHash amount0 w :
  same_files (charged_world citizenHash amount0 w)
             (after_verify (charged_world citizenHash amount0 w)).
Proof. apply LedgerFacts.after_verify_same_files. Qed.

(** The charge is made, then [append] runs: its exception leaves
    [validate], its receipt gives the approval its timestamp. *)
Lemma approve_steps_eq now' citizenHash scheme0 amount0 w :
  approve_steps now' citizenHash scheme0 amount0 w =
  let e := {| Ledger.entry_citizenHash := citizenHash;
              Ledger.entry_scheme := scheme0;
              Ledger.entry_amount := amount0 |} in
  let w1 := after_verify (charged_world citizenHash amount0 w) in
  if appendFile_fails (disk w) then (Thrown IOError, w1)
  else if writeFile_fails (disk w) then (Thrown IOError, appended_world now' e w1)
  else (Returned (approval now' scheme0 amount0), recorded_world now' e w1).
Proof.
  unfold approve_steps.
  unfold bind at 1. unfold state_call at 1. unfold modify at 1.
  unfold bind at 1. unfold state_call at 1. unfold modify at 1.
  unfold bind at 1. unfold modify at 1.
  unfold bind at 1. rewrite LedgerFacts.append_eq. cbv zeta.
  change (set_processedHashes _ _) with (charged_world citizenHash amount0 w).
  destruct (after_verify_charged citizenHash amount0 w) as (_ & _ & Hdisk & _).
  rewrite Hdisk. change (disk (charged_world citizenHash amount0 w)) with (disk w).
  destruct (appendFile_fails (disk w)); [reflexivity | ].
  destruct (writeFile_fails (disk w)); reflexivity.
Qed.

Lemma sys_after_verify_charged citizenHash amount0 w :
  let s1 := State.incrTx (State.deduct amount0 (sys w)) in
  let w1 := after_verify (charged_world citizenHash amount0 w) in
  (sys w1 = s1 \/ sys w1 = State.freeze s1) /\
  processedHashes w1 = {[citizenHash]} ∪ processedHashes w /\
  LEDGER_FILE w1 = LEDGER_FILE w /\ META_FILE w1 = META_FILE w.
Proof.
  cbv zeta.
  destruct (after_verify_charged citizenHash amount0 w)
    as (Hl & Hm & _ & _ & Hp & Hs).
  repeat split; auto.
Qed.

(** ** The gates *)

(** C5, as the code has it. While the system is active, a claim whose
    token is in the replay set is rejected at the Replay gate, whatever
    the registry says about it, and the world (budget, transaction count,
    ledger, replay set) is left as it was. *)
Theorem replay_rejected_when_active now now' citizenId scheme0 w :
  State.status (sys w) = State.active ->
  RegistryFns.hashCitizenId citizenId ∈ processedHashes w ->
  validate now now' citizenId scheme0 w =
  (Returned (rejection "Replay" replay_reason), w).
Proof.
  intros Hact Hseen. rewrite validate_eq. cbv zeta. rewrite Hact.
  now rewrite (bool_decide_eq_true_2 _ Hseen).
Qed.

(** C6. A claim that reaches the budget gate with a budget of zero is
    rejected as exhausted, whatever amount it asks for, and the system,
    active before, is frozen after, with the budget, the transaction
    count, the replay set and the ledger as they were; with a positive
    budget below the amount it is rejected as insufficient and the world,
    so the status [active], is left as it was. The two reasons differ. *)
Theorem budget_gate_zero_before_shortfall now now' citizenId scheme0 record w :
  reaches_budget_gate w citizenId scheme0 record ->
  (State.budget (sys w) = 0 ->
   exists w',
     validate now now' citizenId scheme0 w =
     (Returned (rejection "Budget" exhausted_reason), w') /\
     State.status (sys w) = State.active /\
     State.status (sys w') = State.frozen /\
     State.budget (sys w') = 0 /\
     State.transactionCount (sys w') = State.transactionCount (sys w) /\
     processedHashes w' = processedHashes w /\
     LEDGER_FILE w' = LEDGER_FILE w /\ META_FILE w' = META_FILE w) /\
  (0 < State.budget (sys w) < Registry.scheme_amount record ->
   validate now now' citizenId scheme0 w =
   (Returned (rejection "Budget"
      (insufficient_reason (State.budget (sys w)) (Registry.scheme_amount record))),
    w) /\
   State.status (sys w) = State.active /\
   insufficient_reason (State.budget (sys w)) (Registry.scheme_amount record)
     <> exhausted_reason).
Proof.
  intros Hreach.
  rewrite (validate_reaches_budget_gate _ _ _ _ _ _ Hreach).
  destruct Hreach as (Hact & _).
  unfold from_budget_gate. cbv zeta. split.
  - intros Hzero. rewrite Hzero.
    exists (set_sys (State.freeze (sys w)) w).
    split; [reflexivity | ]. split; [exact Hact | ].
    cbn [sys set_sys processedHashes LEDGER_FILE META_FILE].
    split; [apply StateFacts.freeze_frozen | ].
    split; [now rewrite StateFacts.freeze_budget | ].
    repeat apply conj; reflexivity.
  - intros [Hpos Hlt].
    destruct (Z.leb_spec (State.budget (sys w)) 0); [lia | ].
    destruct (Z.ltb_spec (State.budget (sys w)) (Registry.scheme_amount record));
      [ | lia].
    split; [reflexivity | ]. split; [exact Hact | ].
    unfold insufficient_reason, exhausted_reason, JS.join. cbn [fold_right].
    intros Heq. discriminate Heq.
Qed.

(** C7. A claim that passes the five gates with the budget equal to the
    amount is approved, the disk being healthy, and leaves the budget at
    0 and the system frozen. *)
Theorem exact_budget_approved_then_frozen now now' citizenId scheme0 record w :
  passes_all_gates w now citizenId scheme0 record ->
  State.budget (sys w) = Registry.scheme_amount record ->
  disk w = healthy ->
  exists d w',
    validate now now' citizenId scheme0 w = (Returned d, w') /\
    approved d = true /\
    State.budget (sys w') = 0 /\
    State.status (sys w') = State.frozen.
Proof.
  intros Hpass Heq Hdisk.
  rewrite (validate_passes_all_gates _ _ _ _ _ _ Hpass).
  rewrite approve_steps_eq. cbv zeta. rewrite Hdisk.
  cbn [healthy appendFile_fails writeFile_fails].
  eexists _, _. split; [reflexivity | ]. split; [reflexivity | ].
  destruct (sys_after_verify_charged (RegistryFns.hashCitizenId citizenId)
              (Registry.scheme_amount record) w) as (Hs & _).
  cbv zeta in Hs.
  assert (Hb : State.budget (State.deduct (Registry.scheme_amount record) (sys w)) = 0).
  { rewrite StateFacts.deduct_budget. lia. }
  assert (Hf : State.status (State.deduct (Registry.scheme_amount record) (sys w))
               = State.frozen).
  { rewrite StateFacts.deduct_status.
    destruct (Z.leb_spec (State.budget (sys w) - Registry.scheme_amount record) 0);
      [reflexivity | lia]. }
  cbn [recorded_world appended_world sys set_META_FILE set_lastHash set_LEDGER_FILE].
  destruct Hs as [-> | ->]; cbn; auto.
Qed.

(** How far the defect behind C1 reaches. [validate] charges the claim
    before it calls [append] and nothing undoes the charge: whenever a
    claim passes the five gates and the disk refuses the line, [validate]
    ends with the exception and neither file is changed, yet the budget is
    lower by the amount, the transaction count, which [state.js] calls the
    count of approved transactions, higher by one, and the token in the
    replay set. *)
Theorem write_failure_keeps_charge now now' citizenId scheme0 record w :
  passes_all_gates w now citizenId scheme0 record ->
  appendFile_fails (disk w) = true ->
  exists w',
    validate now now' citizenId scheme0 w = (Thrown IOError, w') /\
    LEDGER_FILE w' = LEDGER_FILE w /\
    META_FILE w' = META_FILE w /\
    State.budget (sys w') = State.budget (sys w) - Registry.scheme_amount record /\
    State.transactionCount (sys w') = State.transactionCount (sys w) + 1 /\
    processedHashes w' =
      {[RegistryFns.hashCitizenId citizenId]} ∪ processedHashes w.
Proof.
  intros Hpass Hfail.
  rewrite (validate_passes_all_gates _ _ _ _ _ _ Hpass).
  rewrite approve_steps_eq. cbv zeta. rewrite Hfail.
  eexists. split; [reflexivity | ].
  destruct (sys_after_verify_charged (RegistryFns.hashCitizenId citizenId)
              (Registry.scheme_amount record) w) as (Hs & Hp & Hl & Hm).
  cbv zeta in Hs, Hp, Hl, Hm.
  destruct Hpass as (_ & [Hpos Hle] & _).
  assert (Hb : State.budget (State.deduct (Registry.scheme_amount record) (sys w))
               = State.budget (sys w) - Registry.scheme_amount record).
  { rewrite StateFacts.deduct_budget. lia. }
  repeat split; auto.
  - destruct Hs as [-> | ->]; cbn [State.freeze State.set_status State.budget
      State.incrTx State.set_transactionCount]; exact Hb.
  - destruct Hs as [-> | ->]; cbn [State.freeze State.set_status
      State.transactionCount State.incrTx State.set_transactionCount];
      now rewrite StateFacts.deduct_transactionCount.
Qed.

(** ** What a decision is made of *)

Lemma approve_steps_outcome now' citizenHash scheme0 amount0 w :
  fst (approve_steps now' citizenHash scheme0 amount0 w) =
  if (appendFile_fails (disk w) || writeFile_fails (disk w))%bool
  then Thrown IOError
  else Returned (approval now' scheme0 amount0).
Proof.
  rewrite approve_steps_eq. cbv zeta.
  destruct (appendFile_fails (disk w)); [reflexivity | ].
  destruct (writeFile_fails (disk w)); reflexivity.
Qed.

(** From the registry record on, the outcome does not depend on the
    token. *)
Lemma from_record_outcome now now' hash1 hash2 scheme0 record budget w :
  fst (from_record now now' hash1 scheme0 record budget w) =
  fst (from_record now now' hash2 scheme0 record budget w).
Proof.
  unfold from_record.
  repeat match goal with
         | |- context [if ?c then _ else _] => destruct c; [reflexivity | ]
         end.
  unfold from_budget_gate. cbv zeta.
  repeat match goal with
         | |- context [if ?c then _ else _] => destruct c; [reflexivity | ]
         end.
  destruct (Registry.last_claim_date record) as [lastClaim | ].
  - destruct (Qlt_bool _ _); [reflexivity | ].
    now rewrite !approve_steps_outcome.
  - now rewrite !approve_steps_outcome.
Qed.

(** A decision is a rejection, which has no amount, scheme or timestamp,
    or the approval of the record's amount for the caller's scheme. *)
Lemma from_record_decision now now' citizenHash scheme0 record budget w d :
  fst (from_record now now' citizenHash scheme0 record budget w) = Returned d ->
  (exists g r, d = rejection g r) \/
  d = approval now' scheme0 (Registry.scheme_amount record).
Proof.
  unfold from_record.
  repeat match goal with
         | |- context [if ?c then _ else _] =>
             destruct c; [cbn; intros [= <-]; left; eauto | ]
         end.
  unfold from_budget_gate. cbv zeta.
  repeat match goal with
         | |- context [if ?c then _ else _] =>
             destruct c; [cbn; intros [= <-]; left; eauto | ]
         end.
  assert (Happ : fst (approve_steps now' citizenHash scheme0
                        (Registry.scheme_amount record) w) = Returned d ->
                 d = approval now' scheme0 (Registry.scheme_amount record)).
  { rewrite approve_steps_outcome. destruct (_ || _)%bool; congruence. }
  destruct (Registry.last_claim_date record) as [lastClaim | ].
  - destruct (Qlt_bool _ _); [cbn; intros [= <-]; left; eauto | ].
    auto.
  - auto.
Qed.

(** C9, as the code has it. The decision has the properties [approved],
    [gate] and [reason], and an approval also [amount], [scheme] and
    [timestamp]: the record's amount, the caller's scheme text and the
    ledger timestamp. None of them is computed from the raw identity or
    its token: two identities that agree on membership in the replay set
    and on the registry record get the same outcome. *)
Theorem decision_independent_of_identity now now' citizenId scheme0 w :
  (forall citizenId2,
     (RegistryFns.hashCitizenId citizenId ∈ processedHashes w <->
      RegistryFns.hashCitizenId citizenId2 ∈ processedHashes w) ->
     registryMap w !! RegistryFns.hashCitizenId citizenId
       = registryMap w !! RegistryFns.hashCitizenId citizenId2 ->
     fst (validate now now' citizenId scheme0 w) =
     fst (validate now now' citizenId2 scheme0 w)) /\
  (forall d,
     fst (validate now now' citizenId scheme0 w) = Returned d ->
     (exists g r, d = rejection g r) \/
     (exists record,
        registryMap w !! RegistryFns.hashCitizenId citizenId = Some record /\
        d = approval now' scheme0 (Registry.scheme_amount record))).
Proof.
  split.
  - intros citizenId2 Hseen Hrec.
    rewrite !validate_eq. cbv zeta.
    destruct (State.status (sys w)); try reflexivity.
    rewrite (bool_decide_ext _ _ Hseen).
    destruct (bool_decide _); [reflexivity | ].
    rewrite <- Hrec.
    destruct (registryMap w !! RegistryFns.hashCitizenId citizenId) as [record | ];
      [ | reflexivity].
    apply from_record_outcome.
  - intros d. rewrite validate_eq. cbv zeta.
    destruct (State.status (sys w));
      try (cbn; intros [= <-]; left; eauto).
    destruct (bool_decide _); [cbn; intros [= <-]; left; eauto | ].
    destruct (registryMap w !! RegistryFns.hashCitizenId citizenId) as [record | ];
      [ | cbn; intros [= <-]; left; eauto].
    intros Hd. apply from_record_decision in Hd. destruct Hd as [Hd | Hd]; eauto.
Qed.

(** ** The claim route *)

(** What [POST /api/claim] answers: a rejection at the Input gate with
    status 400 and the world untouched, or with status 200 the decision of
    [validate] on the trimmed fields, as [validate] returned it. *)
Lemma post_response now now' citizen_id scheme0 w r w' :
  ClaimRoute.post now now' citizen_id scheme0 w = (Returned r, w') ->
  (ClaimRoute.code r = 400 /\ w' = w /\
   exists text, ClaimRoute.body r = rejection "Input" text) \/
  (ClaimRoute.code r = 200 /\
   exists cid sch,
     citizen_id = Some cid /\ scheme0 = Some sch /\
     ClaimRoute.twelve_digits (JS.trim cid) = true /\
     validate now now' (JS.trim cid) (JS.trim sch) w
       = (Returned (ClaimRoute.body r), w')).
Proof.
  unfold ClaimRoute.post, ret.
  destruct (ClaimRoute.falsy citizen_id || ClaimRoute.falsy scheme0)%bool eqn:Hfalsy.
  - intros Heq. inversion Heq; subst. left. cbn. eauto.
  - apply orb_false_iff in Hfalsy as [Hc Hs].
    destruct citizen_id as [cid | ]; [ | discriminate].
    destruct scheme0 as [sch | ]; [ | discriminate].
    change (default EmptyString (Some cid)) with cid.
    change (default EmptyString (Some sch)) with sch.
    destruct (ClaimRoute.twelve_digits (JS.trim cid)) eqn:Hd; cbn [negb].
    + unfold bind at 1.
      destruct (validate now now' (JS.trim cid) (JS.trim sch) w) as [[d | e] w1] eqn:Hv;
        cbv beta iota; [ | intros Heq; discriminate Heq].
      intros Heq. inversion Heq; subst. right.
      split; [reflexivity | ]. exists cid, sch. auto.
    + intros Heq. inversion Heq; subst. left. cbn. eauto.
Qed.

End WithRuntime.

End ValidatorFacts.

(** * Reading back what was written *)

Module FieldFacts.

Import Fields JSFacts.

Lemma is_hex_char a :
  is_hex a = true -> JS.is_ws a = false /\ Ascii.eqb a "|" = false.
Proof.
  destruct a as [[] [] [] [] [] [] [] []]; vm_compute; intros; try discriminate;
    split; reflexivity.
Qed.

Lemma not_ws_not_LF a : JS.is_ws a = false -> Ascii.eqb a "010" = false.
Proof.
  destruct a as [[] [] [] [] [] [] [] []]; vm_compute; intros; try discriminate;
    reflexivity.
Qed.

Lemma all_hex_plain s : all_hex s = true -> plain s = true.
Proof.
  induction s as [ | a s IH]; [reflexivity | ]. cbn [all_hex plain].
  intros [Ha Hs]%andb_true_iff. destruct (is_hex_char a Ha) as [-> ->].
  cbn. auto.
Qed.

Lemma digest_plain s : is_digest s = true -> plain s = true.
Proof.
  unfold is_digest. intros [_ Hs]%andb_true_iff. now apply all_hex_plain.
Qed.

Lemma digest_nonempty s : is_digest s = true -> s <> EmptyString.
Proof. intros Hd ->. discriminate. Qed.

Lemma plain_inline s : plain s = true -> inline s = true.
Proof.
  induction s as [ | a s IH]; [reflexivity | ]. cbn [inline plain].
  intros [[Hw Hb]%andb_true_iff Hs]%andb_true_iff.
  rewrite Hb, (IH Hs). apply negb_true_iff in Hw.
  now rewrite (not_ws_not_LF a Hw).
Qed.

Lemma inline_lacks_bar s : inline s = true -> lacks "|" s = true.
Proof.
  induction s as [ | a s IH]; [reflexivity | ]. cbn [inline lacks].
  intros [[Hb _]%andb_true_iff Hs]%andb_true_iff. now rewrite Hb, (IH Hs).
Qed.

Lemma inline_lacks_LF s : inline s = true -> lacks "010" s = true.
Proof.
  induction s as [ | a s IH]; [reflexivity | ]. cbn [inline lacks].
  intros [[_ Hl]%andb_true_iff Hs]%andb_true_iff. now rewrite Hl, (IH Hs).
Qed.

Lemma lacks_app c s t :
  lacks c (String.append s t) = (lacks c s && lacks c t)%bool.
Proof.
  induction s as [ | a s IH]; [reflexivity | ].
  rewrite append_cons. cbn [lacks]. rewrite IH. now rewrite andb_assoc.
Qed.

Lemma split_lacks c s : lacks c s = true -> JS.split c s = [s].
Proof.
  induction s as [ | a s IH]; [reflexivity | ]. cbn [lacks JS.split].
  intros [Ha Hs]%andb_true_iff. apply negb_true_iff in Ha.
  now rewrite Ha, (IH Hs).
Qed.

Lemma split_app_sep c s t :
  lacks c s = true ->
  JS.split c (String.append s (String c t)) = s :: JS.split c t.
Proof.
  induction s as [ | a s IH].
  - intros _. rewrite append_nil. cbn [JS.split]. now rewrite Ascii.eqb_refl.
  - cbn [lacks]. intros [Ha Hs]%andb_true_iff. apply negb_true_iff in Ha.
    rewrite append_cons. cbn [JS.split]. now rewrite Ha, (IH Hs).
Qed.

(** ** Decimal numerals *)

Lemma digit_plain d : 0 <= d < 10 -> plain (String (JS.digit d) EmptyString) = true.
Proof.
  intros Hd.
  assert (Hc : d = 0 \/ d = 1 \/ d = 2 \/ d = 3 \/ d = 4 \/ d = 5 \/ d = 6 \/
               d = 7 \/ d = 8 \/ d = 9) by lia.
  repeat destruct Hc as [-> | Hc]; try (vm_compute; reflexivity).
  subst. vm_compute. reflexivity.
Qed.

Lemma plain_cons a s :
  plain (String a EmptyString) = true -> plain s = true -> plain (String a s) = true.
Proof.
  cbn [plain]. rewrite andb_true_r. intros -> ->. reflexivity.
Qed.

Lemma plain_app s t :
  plain s = true -> plain t = true -> plain (String.append s t) = true.
Proof.
  intros Hs Ht. induction s as [ | a s IH]; [exact Ht | ].
  rewrite append_cons. cbn [plain] in *.
  apply andb_true_iff in Hs as [Ha Hs]. now rewrite Ha, (IH Hs).
Qed.

Lemma digits_fuel_plain fuel : forall n acc,
  plain acc = true -> plain (JS.digits_fuel fuel n acc) = true.
Proof.
  induction fuel as [ | fuel IH]; intros n acc Hacc; [exact Hacc | ].
  cbn [JS.digits_fuel].
  assert (Hd : plain (String (JS.digit (n mod 10)) acc) = true).
  { apply plain_cons; [ | exact Hacc].
    apply digit_plain, Z.mod_pos_bound. reflexivity. }
  destruct (n <? 10); [exact Hd | ]. now apply IH.
Qed.

Lemma String_of_plain n : plain (JS.String_of n) = true.
Proof.
  unfold JS.String_of, JS.digits.
  destruct (n <? 0).
  - apply plain_cons; [reflexivity | ]. now apply digits_fuel_plain.
  - now apply digits_fuel_plain.
Qed.

Lemma String_of_inline n : inline (JS.String_of n) = true.
Proof. apply plain_inline, String_of_plain. Qed.

Lemma digit_code d :
  0 <= d < 10 -> Z.of_nat (nat_of_ascii (JS.digit d)) - 48 = d.
Proof.
  intros Hd.
  assert (Hc : d = 0 \/ d = 1 \/ d = 2 \/ d = 3 \/ d = 4 \/ d = 5 \/ d = 6 \/
               d = 7 \/ d = 8 \/ d = 9) by lia.
  repeat destruct Hc as [-> | Hc]; try reflexivity.
  subst. reflexivity.
Qed.

(** The fuel of [digits] is enough: the numeral denotes the number. *)
Lemma digits_fuel_value fuel : forall n acc,
  0 <= n < 2 ^ Z.of_nat fuel ->
  JS.decimal_value 0 (JS.digits_fuel fuel n acc) = JS.decimal_value n acc.
Proof.
  induction fuel as [ | fuel IH]; intros n acc Hn.
  - cbn in Hn. assert (n = 0) by lia. subst. reflexivity.
  - cbn [JS.digits_fuel]. destruct (Z.ltb_spec n 10) as [Hlt | Hge].
    + cbn [JS.decimal_value]. rewrite Z.mod_small by lia.
      rewrite digit_code by lia. f_equal; lia.
    + rewrite IH.
      * cbn [JS.decimal_value].
        rewrite digit_code by (apply Z.mod_pos_bound; lia).
        pose proof (Z.div_mod n 10). f_equal; lia.
      * rewrite Nat2Z.inj_succ, Z.pow_succ_r in Hn by lia.
        split; [apply Z.div_pos; lia | ].
        apply Z.div_lt_upper_bound; lia.
Qed.

Lemma digits_value n : 0 <= n -> JS.decimal_value 0 (JS.digits n) = n.
Proof.
  intros Hn. unfold JS.digits. rewrite digits_fuel_value; [reflexivity | ].
  split; [exact Hn | ].
  rewrite Nat2Z.inj_succ, Z2Nat.id by apply Z.log2_nonneg.
  destruct (Z.eq_dec n 0) as [-> | Hne]; [reflexivity | ].
  apply Z.log2_spec. lia.
Qed.

(** ** Trimming *)

Lemma trimEnd_plain s : plain s = true -> JS.trimEnd s = s.
Proof.
  induction s as [ | a s IH]; [reflexivity | ]. cbn [plain JS.trimEnd].
  intros [[Hw _]%andb_true_iff Hs]%andb_true_iff. apply negb_true_iff in Hw.
  rewrite (IH Hs), Hw. now destruct s.
Qed.

Lemma trimEnd_app s t :
  t <> EmptyString -> JS.trimEnd t = t ->
  JS.trimEnd (String.append s t) = String.append s t.
Proof.
  intros Hne Ht. induction s as [ | a s IH]; [exact Ht | ].
  rewrite append_cons. cbn [JS.trimEnd]. rewrite IH.
  destruct (String.append s t) eqn:E; [ | reflexivity].
  destruct s; [ | discriminate]. rewrite append_nil in E. contradiction.
Qed.

Lemma trimStart_first a s : JS.is_ws a = false -> JS.trimStart (String a s) = String a s.
Proof. intros Ha. cbn [JS.trimStart]. now rewrite Ha. Qed.

End FieldFacts.

(** * The chain that appends build *)

Module ChainFacts.

Import Fields JSFacts FieldFacts Ledger Chain LedgerSteps LedgerFacts.

(** ** Lines and files as text *)

Lemma join_app xs ys :
  JS.join (xs ++ ys) = String.append (JS.join xs) (JS.join ys).
Proof.
  unfold JS.join. induction xs as [ | x xs IH]; [reflexivity | ].
  cbn [fold_right app]. now rewrite IH, append_assoc.
Qed.

Lemma line_of_split ts ch sc am prev cur :
  lacks "|" ts = true -> lacks "|" ch = true -> lacks "|" sc = true ->
  lacks "|" am = true -> lacks "|" prev = true -> lacks "|" cur = true ->
  JS.split "|" (line_of ts ch sc am prev cur) = [ts; ch; sc; am; prev; cur].
Proof.
  intros Hts Hch Hsc Ham Hprev Hcur.
  unfold line_of, JS.join. cbn [fold_right].
  repeat match goal with
         | |- context [String.append (String "|" EmptyString) ?x] =>
             change (String.append (String "|" EmptyString) x) with (String "|"%char x)
         end.
  rewrite append_empty_r.
  rewrite !split_app_sep by assumption.
  now rewrite split_lacks.
Qed.

Lemma line_of_lacks_LF ts ch sc am prev cur :
  lacks "010" ts = true -> lacks "010" ch = true -> lacks "010" sc = true ->
  lacks "010" am = true -> lacks "010" prev = true -> lacks "010" cur = true ->
  lacks "010" (line_of ts ch sc am prev cur) = true.
Proof.
  intros Hts Hch Hsc Ham Hprev Hcur.
  unfold line_of, JS.join. cbn [fold_right].
  rewrite !lacks_app, Hts, Hch, Hsc, Ham, Hprev, Hcur. reflexivity.
Qed.

Lemma line_of_truthy ts ch sc am prev cur :
  JS.truthy (line_of ts ch sc am prev cur) = true.
Proof.
  unfold line_of, JS.join. cbn [fold_right]. destruct ts; reflexivity.
Qed.

Lemma line_of_trim ts ch sc am prev cur :
  plain ts = true -> plain cur = true -> cur <> EmptyString ->
  JS.trim (line_of ts ch sc am prev cur) = line_of ts ch sc am prev cur.
Proof.
  intros Hts Hcur Hne. unfold JS.trim.
  assert (Hstart : JS.trimStart (line_of ts ch sc am prev cur)
                   = line_of ts ch sc am prev cur).
  { unfold line_of, JS.join. cbn [fold_right].
    destruct ts as [ | a ts].
    - reflexivity.
    - rewrite append_cons. apply trimStart_first.
      cbn [plain] in Hts. apply andb_true_iff in Hts as [Ha _].
      apply andb_true_iff in Ha as [Ha _]. now apply negb_true_iff in Ha. }
  rewrite Hstart.
  change (line_of ts ch sc am prev cur)
    with (JS.join ([ts; "|"; ch; "|"; sc; "|"; am; "|"; prev; "|"] ++ [cur])).
  rewrite join_app, join_single.
  apply trimEnd_app; [exact Hne | now apply trimEnd_plain].
Qed.

Lemma unlines_app xs ys :
  unlines (xs ++ ys) = String.append (unlines xs) (unlines ys).
Proof.
  induction xs as [ | x xs IH]; [reflexivity | ].
  cbn [unlines app]. rewrite IH, append_assoc. now rewrite append_cons.
Qed.

Lemma split_unlines ls rest :
  Forall (fun l => lacks "010" l = true) ls ->
  JS.split "010" (String.append (unlines ls) rest)
  = (ls ++ JS.split "010" rest)%list.
Proof.
  induction 1 as [ | l ls Hl Hls IH]; [reflexivity | ].
  cbn [unlines app]. rewrite append_assoc, append_cons.
  now rewrite split_app_sep, IH.
Qed.

Lemma read_lines_unlines ls :
  Forall (fun l => lacks "010" l = true) ls ->
  read_lines (unlines ls) = List.filter JS.truthy (List.map JS.trim ls).
Proof.
  intros Hls. unfold read_lines.
  rewrite <- (append_empty_r (unlines ls)), (split_unlines ls EmptyString Hls).
  rewrite List.map_app, List.filter_app. cbn. now rewrite List.app_nil_r.
Qed.

Lemma ends_with_LF_unlines content :
  ends_with_LF content = true ->
  exists ls, Forall (fun l => lacks "010" l = true) ls /\ content = unlines ls.
Proof.
  induction content as [ | a r IH].
  - intros _. exists []. split; [constructor | reflexivity].
  - cbn [ends_with_LF]. destruct r as [ | b r'].
    + intros Ha. apply Ascii.eqb_eq in Ha. subst a.
      exists [EmptyString]. split; [repeat constructor | reflexivity].
    + intros Hr. destruct (IH Hr) as (ls & Hls & Heq).
      destruct ls as [ | l ls]; [discriminate | ].
      inversion Hls as [ | ? ? Hl Hls']; subst.
      destruct (Ascii.eqb a "010") eqn:Ha.
      * apply Ascii.eqb_eq in Ha. subst a.
        exists (EmptyString :: l :: ls). split; [repeat constructor; auto | ].
        cbn [unlines] in *. rewrite append_nil. now rewrite Heq.
      * exists (String a l :: ls). split.
        -- constructor; [ | exact Hls']. cbn [lacks]. now rewrite Ha, Hl.
        -- cbn [unlines] in *. rewrite append_cons. now rewrite Heq.
Qed.

Lemma ends_with_LF_append s : ends_with_LF (String.append s LF) = true.
Proof.
  induction s as [ | a s IH]; [reflexivity | ].
  rewrite append_cons. cbn [ends_with_LF].
  destruct (String.append s LF) eqn:E; [ | exact IH].
  destruct s; discriminate.
Qed.

(** Appending a clean line to a file of terminated lines adds that line
    to the lines read back, and nothing else. *)
Lemma read_lines_append content line :
  ends_with_LF content = true ->
  lacks "010" line = true ->
  JS.trim line = line ->
  JS.truthy line = true ->
  read_lines (String.append content (String.append line LF))
  = (read_lines content ++ [line])%list.
Proof.
  intros Hend Hl Htrim Htruthy.
  destruct (ends_with_LF_unlines content Hend) as (ls & Hls & ->).
  assert (Hnew : String.append (unlines ls) (String.append line LF)
                 = unlines (ls ++ [line])).
  { rewrite unlines_app. reflexivity. }
  rewrite Hnew, !read_lines_unlines.
  - rewrite List.map_app, List.filter_app. cbn [List.map List.filter].
    now rewrite Htrim, Htruthy.
  - exact Hls.
  - apply Forall_app. split; [exact Hls | repeat constructor; exact Hl].
Qed.

(** ** Lines and the chain *)

Section WithLaws.
Context `{RuntimeLaws}.

Lemma sha256_plain parts : plain (sha256 parts) = true.
Proof. apply digest_plain, sha256_hex_is_digest. Qed.

Lemma sha256_nonempty parts : sha256 parts <> EmptyString.
Proof. apply digest_nonempty, sha256_hex_is_digest. Qed.

Lemma GENESIS_HASH_plain : plain GENESIS_HASH = true.
Proof. vm_compute. reflexivity. Qed.

Lemma plain_lacks_bar s : plain s = true -> lacks "|" s = true.
Proof. intros Hs. now apply inline_lacks_bar, plain_inline. Qed.

Lemma plain_lacks_LF s : plain s = true -> lacks "010" s = true.
Proof. intros Hs. now apply inline_lacks_LF, plain_inline. Qed.

Lemma new_line_split now e prev :
  plain prev = true -> entry_inline e ->
  JS.split "|" (new_line now e prev)
  = [toISOString now; entry_citizenHash e; entry_scheme e;
     JS.String_of (entry_amount e); prev; new_hash now e prev].
Proof.
  intros Hprev [Hch Hsc]. unfold new_line. apply line_of_split.
  - apply plain_lacks_bar, toISOString_plain.
  - now apply inline_lacks_bar.
  - now apply inline_lacks_bar.
  - apply inline_lacks_bar, String_of_inline.
  - now apply plain_lacks_bar.
  - apply plain_lacks_bar, sha256_plain.
Qed.

Lemma new_line_lacks_LF now e prev :
  plain prev = true -> entry_inline e ->
  lacks "010" (new_line now e prev) = true.
Proof.
  intros Hprev [Hch Hsc]. unfold new_line. apply line_of_lacks_LF.
  - apply plain_lacks_LF, toISOString_plain.
  - now apply inline_lacks_LF.
  - now apply inline_lacks_LF.
  - apply inline_lacks_LF, String_of_inline.
  - now apply plain_lacks_LF.
  - apply plain_lacks_LF, sha256_plain.
Qed.

Lemma new_line_trim now e prev :
  JS.trim (new_line now e prev) = new_line now e prev.
Proof.
  unfold new_line. apply line_of_trim.
  - apply toISOString_plain.
  - apply sha256_plain.
  - apply sha256_nonempty.
Qed.

Lemma new_line_linked now e prev :
  plain prev = true -> entry_inline e ->
  linked prev [new_line now e prev].
Proof.
  intros Hprev He. econstructor.
  - now apply new_line_split.
  - reflexivity.
  - constructor.
Qed.

Lemma new_line_stored_hash now e prev :
  plain prev = true -> entry_inline e ->
  stored_hash (new_line now e prev) = new_hash now e prev.
Proof.
  intros Hprev He. unfold stored_hash. now rewrite new_line_split.
Qed.

Lemma linked_app (xs ys : list string) : forall prev,
  linked prev xs -> linked (final_hash prev xs) ys -> linked prev (xs ++ ys).
Proof.
  induction xs as [ | x xs IH]; intros prev Hx Hy; [exact Hy | ].
  inversion Hx as [ | ? ts ch sc am cur ? ? Hsplit Hcur Hrest]; subst.
  cbn [app]. econstructor; eauto.
  apply IH; [exact Hrest | ].
  unfold final_hash in Hy. cbn [fold_left] in Hy. unfold stored_hash at 2 in Hy.
  now rewrite Hsplit in Hy.
Qed.

Lemma linked_final_plain lines : forall prev,
  plain prev = true -> linked prev lines -> plain (final_hash prev lines) = true.
Proof.
  induction lines as [ | line rest IH]; intros prev Hprev Hl; [exact Hprev | ].
  inversion Hl as [ | ? ts ch sc am cur ? ? Hsplit Hcur Hrest]; subst.
  unfold final_hash. cbn [fold_left]. unfold stored_hash at 2. rewrite Hsplit.
  apply IH; [apply sha256_plain | exact Hrest].
Qed.

Lemma appended_lines_linked es : forall prev,
  plain prev = true ->
  Forall (fun p => entry_inline (snd p)) es ->
  linked prev (appended_lines prev es).
Proof.
  induction es as [ | [now e] es IH]; intros prev Hprev Hes; [constructor | ].
  inversion Hes as [ | ? ? He Hes']; subst. cbn [snd] in He.
  cbn [appended_lines]. econstructor.
  - now apply (new_line_split now e prev).
  - reflexivity.
  - apply IH; [apply sha256_plain | exact Hes'].
Qed.

(** ** Appends keep the ledger consistent *)

Lemma consistent_lines_plain w :
  consistent w -> plain (final_hash GENESIS_HASH (ledger_lines w)) = true.
Proof.
  unfold consistent, ledger_lines. intros Hc.
  destruct (LEDGER_FILE w) as [content | ].
  - destruct Hc as (_ & _ & Hl & _).
    now apply linked_final_plain; [apply GENESIS_HASH_plain | ].
  - apply GENESIS_HASH_plain.
Qed.

Lemma consistent_verifyIntegrity w :
  consistent w -> fst (verifyIntegrity w) = Returned true.
Proof.
  unfold consistent. intros Hc.
  destruct (LEDGER_FILE w) as [content | ] eqn:Hf.
  - destruct Hc as (_ & Hd & Hl & _).
    now rewrite (verifyIntegrity_linked w content Hf Hd Hl).
  - now rewrite (verifyIntegrity_absent w Hf).
Qed.

(** The world in which [append] builds its line, for a consistent
    ledger: verified, the cursor on the last stored hash, nothing else
    changed. *)
Lemma consistent_after_verify w :
  consistent w ->
  let w1 := after_verify w in
  LEDGER_FILE w1 = LEDGER_FILE w /\ META_FILE w1 = META_FILE w /\
  disk w1 = disk w /\ sys w1 = sys w /\
  processedHashes w1 = processedHashes w /\
  lastHash w1 = final_hash GENESIS_HASH (ledger_lines w).
Proof.
  unfold consistent, after_verify, ledger_lines. intros Hc. cbv zeta.
  destruct (LEDGER_FILE w) as [content | ] eqn:Hf.
  - destruct Hc as (_ & Hd & Hl & Hcur).
    destruct (initialized w).
    + rewrite Hf. repeat split; auto.
    + rewrite (verifyIntegrity_linked w content Hf Hd Hl). cbn. rewrite Hf.
      repeat split; auto.
  - destruct (initialized w).
    + rewrite Hf. repeat split; auto.
    + rewrite (verifyIntegrity_absent w Hf). cbn. rewrite Hf.
      repeat split; auto.
Qed.

Lemma append_consistent now e w :
  consistent w -> disk w = healthy -> entry_inline e ->
  let prev := final_hash GENESIS_HASH (ledger_lines w) in
  exists w',
    append now e w =
      (Returned {| timestamp := toISOString now;
                   currentHash := new_hash now e prev |}, w') /\
    consistent w' /\ disk w' = healthy /\
    ledger_lines w' = (ledger_lines w ++ [new_line now e prev])%list /\
    final_hash GENESIS_HASH (ledger_lines w') = new_hash now e prev.
Proof.
  intros Hc Hdisk He. cbv zeta.
  pose proof (consistent_lines_plain w Hc) as Hplain.
  destruct (consistent_after_verify w Hc) as (Hl & Hm & Hd & Hs & Hp & Hcur).
  cbv zeta in *.
  rewrite append_eq. cbv zeta. rewrite Hd, Hdisk.
  cbn [healthy appendFile_fails writeFile_fails]. rewrite Hcur.
  eexists. split; [reflexivity | ].
  set (prev := final_hash GENESIS_HASH (ledger_lines w)) in *.
  assert (Hend : ends_with_LF (old_content (after_verify w)) = true).
  { unfold old_content. rewrite Hl. unfold consistent in Hc.
    destruct (LEDGER_FILE w); [tauto | reflexivity]. }
  assert (Hlines : read_lines (new_content now e (after_verify w))
                   = (ledger_lines w ++ [new_line now e prev])%list).
  { unfold new_content. rewrite Hcur. fold prev.
    rewrite read_lines_append.
    - f_equal. unfold old_content, ledger_lines. rewrite Hl.
      destruct (LEDGER_FILE w); reflexivity.
    - exact Hend.
    - now apply new_line_lacks_LF.
    - apply new_line_trim.
    - apply line_of_truthy. }
  assert (Hlinked : linked GENESIS_HASH (ledger_lines w)).
  { unfold consistent, ledger_lines in *.
    destruct (LEDGER_FILE w); [tauto | constructor]. }
  assert (Hfinal : final_hash GENESIS_HASH
                     (ledger_lines w ++ [new_line now e prev])
                   = new_hash now e prev).
  { rewrite final_hash_app. unfold final_hash at 1. cbn [fold_left].
    now apply new_line_stored_hash. }
  assert (Hcons : consistent (recorded_world now e (after_verify w))).
  { unfold consistent, recorded_world, appended_world.
    cbn [LEDGER_FILE META_FILE initialized lastHash set_META_FILE set_lastHash
         set_LEDGER_FILE].
    split; [ | split; [ | split]].
    - unfold new_content. rewrite <- append_assoc. apply ends_with_LF_append.
    - cbn. congruence.
    - rewrite Hlines. apply linked_app; [exact Hlinked | ].
      now apply new_line_linked.
    - intros _. rewrite Hlines. rewrite Hcur. now rewrite Hfinal. }
  split; [exact Hcons | ].
  split; [cbn [recorded_world appended_world disk set_META_FILE set_lastHash
                 set_LEDGER_FILE]; congruence | ].
  unfold ledger_lines, recorded_world, appended_world.
  cbn [LEDGER_FILE set_META_FILE set_lastHash set_LEDGER_FILE].
  rewrite Hlines. split; [reflexivity | exact Hfinal].
Qed.

Lemma run_appends_consistent es : forall w,
  consistent w -> disk w = healthy ->
  Forall (fun p => entry_inline (snd p)) es ->
  exists rs w',
    run_appends es w = (Returned rs, w') /\
    consistent w' /\ disk w' = healthy /\
    List.length rs = List.length es /\
    ledger_lines w'
    = (ledger_lines w
       ++ appended_lines (final_hash GENESIS_HASH (ledger_lines w)) es)%list.
Proof.
  induction es as [ | [now e] es IH]; intros w Hc Hdisk Hes.
  - exists [], w. cbn [appended_lines]. rewrite List.app_nil_r. auto.
  - inversion Hes as [ | ? ? He Hes']; subst. cbn [snd] in He.
    destruct (append_consistent now e w Hc Hdisk He)
      as (w1 & Happ & Hc1 & Hd1 & Hl1 & Hf1).
    cbv zeta in *.
    destruct (IH w1 Hc1 Hd1 Hes') as (rs & w' & Hrun & Hc' & Hd' & Hlen & Hl').
    eexists (_ :: rs), w'. cbn [run_appends].
    unfold bind at 1. rewrite Happ.
    unfold bind at 1. rewrite Hrun. unfold ret.
    repeat split; auto.
    + cbn [List.length]. now rewrite Hlen.
    + rewrite Hl', Hf1, Hl1, <- List.app_assoc. reflexivity.
Qed.

(** C4, as the code has it. Start from a ledger as the program leaves it
    (none yet, or a file of line-feed terminated lines that is linked from
    genesis and agrees with its stored digest), on a healthy disk, and run
    any sequence of appends whose citizen hash and scheme contain neither
    the field separator nor a line feed. [verifyIntegrity] answers [true]
    before and after; the file holds the lines it held followed by one line
    per append; and every line, old or new, has as previous hash the
    current hash of the line before it (the genesis hash for the first) and
    as current hash the hash of its own fields and that previous hash. *)
Theorem appends_keep_chain w es :
  consistent w -> disk w = healthy ->
  Forall (fun p => entry_inline (snd p)) es ->
  fst (verifyIntegrity w) = Returned true /\
  exists rs w',
    run_appends es w = (Returned rs, w') /\
    List.length rs = List.length es /\
    fst (verifyIntegrity w') = Returned true /\
    ledger_lines w'
    = (ledger_lines w
       ++ appended_lines (final_hash GENESIS_HASH (ledger_lines w)) es)%list /\
    linked (final_hash GENESIS_HASH (ledger_lines w))
           (appended_lines (final_hash GENESIS_HASH (ledger_lines w)) es) /\
    linked GENESIS_HASH (ledger_lines w').
Proof.
  intros Hc Hdisk Hes. split; [now apply consistent_verifyIntegrity | ].
  destruct (run_appends_consistent es w Hc Hdisk Hes)
    as (rs & w' & Hrun & Hc' & Hd' & Hlen & Hl').
  exists rs, w'. repeat split; auto.
  - now apply consistent_verifyIntegrity.
  - apply appended_lines_linked; [now apply consistent_lines_plain | exact Hes].
  - unfold consistent, ledger_lines in *.
    destruct (LEDGER_FILE w'); [tauto | constructor].
Qed.

End WithLaws.

End ChainFacts.

(** * The simulated runtime keeps the laws *)

Module SimFacts.

Import Fields FieldFacts.

Lemma hex_digit_is_hex d : 0 <= d < 16 -> is_hex (Sim.hex_digit d) = true.
Proof.
  intros Hd.
  assert (Hc : d = 0 \/ d = 1 \/ d = 2 \/ d = 3 \/ d = 4 \/ d = 5 \/ d = 6 \/
               d = 7 \/ d = 8 \/ d = 9 \/ d = 10 \/ d = 11 \/ d = 12 \/
               d = 13 \/ d = 14 \/ d = 15) by lia.
  repeat destruct Hc as [-> | Hc]; try (vm_compute; reflexivity).
  subst. vm_compute. reflexivity.
Qed.

Lemma spread_spec k : forall x,
  all_hex (Sim.spread k x) = true /\ String.length (Sim.spread k x) = k.
Proof.
  induction k as [ | k IH]; intros x; [auto | ].
  cbn [Sim.spread].
  destruct (IH ((x * 75 + 74) mod 65537)) as [Hh Hl].
  cbn [all_hex String.length]. rewrite Hh, Hl, hex_digit_is_hex; [auto | ].
  apply Z.mod_pos_bound. reflexivity.
Qed.

Lemma checksum_hex_is_digest s : is_digest (Sim.checksum_hex s) = true.
Proof.
  unfold is_digest, Sim.checksum_hex.
  destruct (spread_spec 64 (Sim.checksum s 7)) as [Hh Hl].
  rewrite Hh, Hl. reflexivity.
Qed.

Lemma clock_text_plain t : plain (Sim.clock_text t) = true.
Proof.
  unfold Sim.clock_text. apply plain_app; [apply String_of_plain | reflexivity].
Qed.

#[global] Instance laws : RuntimeLaws.
Proof.
  split.
  - exact checksum_hex_is_digest.
  - exact clock_text_plain.
Qed.

End SimFacts.

(** * The properties on concrete runs *)

Module Scenarios.

Import Validator ValidatorSteps Readings Gates Ledger Chain LedgerSteps.

Lemma citizen_passes_all_gates budget d :
  5000 <= budget ->
  passes_all_gates
    {| sys := State.set_budget budget State._state;
       registryMap := {[ RegistryFns.hashCitizenId Sim.citizen := Sim.food ]};
       processedHashes := ∅;
       lastHash := GENESIS_HASH;
       initialized := false;
       LEDGER_FILE := None;
       META_FILE := None;
       disk := d |}
    1000 Sim.citizen "Food" Sim.food.
Proof.
  intros Hb. unfold passes_all_gates, reaches_budget_gate, passes_budget_gate,
    passes_frequency_gate.
  cbn [sys registryMap processedHashes State.status State.budget
       State.set_budget State._state].
  repeat apply conj;
    first [ apply not_elem_of_empty | reflexivity | exact I
          | vm_compute; discriminate | cbn; lia ].
Qed.

Lemma citizen_reaches_budget_gate budget :
  reaches_budget_gate (Sim.boot budget) Sim.citizen "Food" Sim.food.
Proof.
  unfold reaches_budget_gate, Sim.boot, Sim.boot_with.
  cbn [sys registryMap processedHashes State.status State.set_budget State._state].
  repeat apply conj;
    first [ apply not_elem_of_empty | reflexivity | vm_compute; discriminate ].
Qed.

(** ** The scenarios of the specification *)

(** Budget 1,000,000, scheme Food of amount 5,000, an eligible identity:
    approval, budget 995,000, one transaction, one ledger line whose
    previous hash is the genesis hash. *)
Example first_claim_is_approved :
  fst (validate 1000 1001 Sim.citizen "Food" (Sim.boot 1000000))
    = Returned (approval 1001 "Food" 5000) /\
  State.budget (sys (Sim.served 1000000)) = 995000 /\
  State.transactionCount (sys (Sim.served 1000000)) = 1 /\
  State.status (sys (Sim.served 1000000)) = State.active /\
  ledger_lines (Sim.served 1000000) = [new_line 1001 Sim.entry GENESIS_HASH].
Proof. vm_compute. auto 6. Qed.

(** The same identity again: rejected at the Replay gate, nothing changed. *)
Example second_claim_is_a_replay :
  validate 2000 2001 Sim.citizen "Food" (Sim.served 1000000)
    = (Returned (rejection "Replay" replay_reason), Sim.served 1000000).
Proof. vm_compute. reflexivity. Qed.

(** A last claim ten days ago: rejected at the Frequency gate with
    twenty days left. *)
Example claim_after_ten_days :
  fst (validate (10 * MS_PER_DAY) (10 * MS_PER_DAY) Sim.citizen "Food"
         (Sim.boot_with Sim.claimed_at_zero 1000000))
    = Returned (rejection "Frequency"
        "Frequency violation. Last claim was 10 day(s) ago. Please wait 20 more day(s).").
Proof. vm_compute. reflexivity. Qed.

(** An insufficient budget, as the reason words it. *)
Example claim_on_short_budget :
  fst (validate 1000 1001 Sim.citizen "Food" (Sim.boot 3000))
    = Returned (rejection "Budget"
        (JS.join ["Insufficient budget. Available: "; rupee; "3,000, Required: ";
                  rupee; "5,000."])).
Proof. vm_compute. reflexivity. Qed.

(** ** C1: a disk that refuses the append *)

(** C1. The code at the failing input. On the disk that refuses the
    append the claim of [citizen] passes the five gates and [validate]
    ends with the exception, as C1 says; but the budget has gone from
    1000000 to 995000, the transaction count from 0 to 1 and the token
    into the replay set, with neither file written, and the same claim
    made again is turned away as a replay. *)
Example refused_append_leaves_charge :
  exists w',
    validate 1000 1001 Sim.citizen "Food" Sim.refusing = (Thrown IOError, w') /\
    State.budget (sys Sim.refusing) = 1000000 /\
    State.budget (sys w') = 995000 /\
    State.transactionCount (sys Sim.refusing) = 0 /\
    State.transactionCount (sys w') = 1 /\
    (RegistryFns.hashCitizenId Sim.citizen ∉ processedHashes Sim.refusing) /\
    RegistryFns.hashCitizenId Sim.citizen ∈ processedHashes w' /\
    LEDGER_FILE w' = None /\ META_FILE w' = None /\
    validate 2000 2001 Sim.citizen "Food" w'
      = (Returned (rejection "Replay" replay_reason), w').
Proof.
  exists (snd (validate 1000 1001 Sim.citizen "Food" Sim.refusing)).
  repeat apply conj;
    first [ apply not_elem_of_empty
          | apply (bool_decide_eq_true_1 _); vm_compute; reflexivity
          | vm_compute; reflexivity ].
Qed.

(** So budget, transaction count and replay set are not as they were
    before the claim, which is what C1 asks for. *)
Lemma write_failure_does_not_roll_back :
  ~ write_failure_rolls_back Sim.refusing 1000 1001 Sim.citizen "Food".
Proof.
  intros Hclaim.
  destruct (Hclaim Sim.food) as (w' & Hv & Hb & _).
  - apply (citizen_passes_all_gates 1000000). lia.
  - reflexivity.
  - assert (Hrun : State.budget
                     (sys (snd (validate 1000 1001 Sim.citizen "Food" Sim.refusing)))
                   = 995000) by (vm_compute; reflexivity).
    rewrite Hv in Hrun. cbn [snd] in Hrun. rewrite Hb in Hrun. discriminate Hrun.
Qed.

Lemma write_failure_keeps_charge_witness :
  exists w',
    validate 1000 1001 Sim.citizen "Food" Sim.refusing = (Thrown IOError, w') /\
    LEDGER_FILE w' = LEDGER_FILE Sim.refusing /\
    META_FILE w' = META_FILE Sim.refusing /\
    State.budget (sys w')
      = State.budget (sys Sim.refusing) - Registry.scheme_amount Sim.food /\
    State.transactionCount (sys w')
      = State.transactionCount (sys Sim.refusing) + 1 /\
    processedHashes w'
      = {[RegistryFns.hashCitizenId Sim.citizen]} ∪ processedHashes Sim.refusing.
Proof.
  apply (ValidatorFacts.write_failure_keeps_charge
           1000 1001 Sim.citizen "Food" Sim.food Sim.refusing).
  - apply (citizen_passes_all_gates 1000000). lia.
  - reflexivity.
Defined.

(** ** C5: the same identity twice *)

(** C5 as stated fails: [citizen] is served with a budget of exactly
    5000, which freezes the system; the token is now in the replay set,
    and the second claim is rejected at the System gate. *)
Lemma replay_reported_as_System_once_frozen :
  ~ replay_always_reported (Sim.served 5000) 2000 2001 Sim.citizen "Food".
Proof.
  intros Hclaim. destruct Hclaim as (d & Hv & _ & Hg).
  - apply (bool_decide_eq_true_1 _). vm_compute. reflexivity.
  - assert (Hrun : fst (validate 2000 2001 Sim.citizen "Food" (Sim.served 5000))
                   = Returned (rejection "System"
                       "System is FROZEN due to a security or budget event. All transactions are blocked."))
      by (vm_compute; reflexivity).
    rewrite Hv in Hrun. cbn [fst] in Hrun. inversion Hrun; subst d.
    discriminate Hg.
Qed.

Lemma replay_rejected_when_active_witness :
  validate 2000 2001 Sim.citizen "Food" (Sim.served 1000000) =
  (Returned (rejection "Replay" replay_reason), Sim.served 1000000).
Proof.
  apply (ValidatorFacts.replay_rejected_when_active
           2000 2001 Sim.citizen "Food" (Sim.served 1000000)).
  - vm_compute. reflexivity.
  - apply (bool_decide_eq_true_1 _). vm_compute. reflexivity.
Defined.

(** ** C6 and C7: the budget gate *)

(** With a budget of 0 the claim of [citizen] takes the first branch,
    with a budget of 3000 the second. *)
Lemma budget_gate_zero_before_shortfall_witness :
  (exists w',
     validate 1000 1001 Sim.citizen "Food" (Sim.boot 0) =
     (Returned (rejection "Budget" exhausted_reason), w') /\
     State.status (sys (Sim.boot 0)) = State.active /\
     State.status (sys w') = State.frozen /\
     State.budget (sys w') = 0 /\
     State.transactionCount (sys w') = State.transactionCount (sys (Sim.boot 0)) /\
     processedHashes w' = processedHashes (Sim.boot 0) /\
     LEDGER_FILE w' = LEDGER_FILE (Sim.boot 0) /\
     META_FILE w' = META_FILE (Sim.boot 0)) /\
  (validate 1000 1001 Sim.citizen "Food" (Sim.boot 3000) =
   (Returned (rejection "Budget"
      (insufficient_reason (State.budget (sys (Sim.boot 3000)))
                           (Registry.scheme_amount Sim.food))),
    Sim.boot 3000) /\
   State.status (sys (Sim.boot 3000)) = State.active /\
   insufficient_reason (State.budget (sys (Sim.boot 3000)))
                       (Registry.scheme_amount Sim.food)
     <> exhausted_reason).
Proof.
  split.
  - apply (ValidatorFacts.budget_gate_zero_before_shortfall
             1000 1001 Sim.citizen "Food" Sim.food (Sim.boot 0)).
    + apply citizen_reaches_budget_gate.
    + reflexivity.
  - apply (ValidatorFacts.budget_gate_zero_before_shortfall
             1000 1001 Sim.citizen "Food" Sim.food (Sim.boot 3000)).
    + apply citizen_reaches_budget_gate.
    + cbn. lia.
Defined.

Lemma exact_budget_approved_then_frozen_witness :
  exists d w',
    validate 1000 1001 Sim.citizen "Food" (Sim.boot 5000) = (Returned d, w') /\
    approved d = true /\
    State.budget (sys w') = 0 /\
    State.status (sys w') = State.frozen.
Proof.
  apply (ValidatorFacts.exact_budget_approved_then_frozen
           1000 1001 Sim.citizen "Food" Sim.food (Sim.boot 5000)).
  - apply (citizen_passes_all_gates 5000). lia.
  - reflexivity.
  - reflexivity.
Defined.

(** ** C9: a caller who types the identity into the scheme field *)

(** C9 as stated fails: [citizen] is registered for Food; asked for the
    scheme named by the citizen's own twelve digits, [validate] rejects
    the claim with a reason that quotes the scheme text, so the reason
    contains the raw identity. *)
Lemma scheme_text_echoes_identity :
  ~ identity_never_echoed (Sim.boot 1000000) 1000 1001 Sim.citizen Sim.citizen.
Proof.
  intros Hclaim.
  assert (Hv : validate 1000 1001 Sim.citizen Sim.citizen (Sim.boot 1000000)
               = (Returned Sim.echo, Sim.boot 1000000))
    by (vm_compute; reflexivity).
  specialize (Hclaim _ _ Hv). unfold hides_identity in Hclaim.
  change (texts Sim.echo) with [gate Sim.echo; reason Sim.echo] in Hclaim.
  destruct (proj1 (List.Forall_forall _ _) Hclaim (reason Sim.echo)) as [Hraw _].
  { right. left. reflexivity. }
  assert (Hecho : JS.includes Sim.citizen (reason Sim.echo) = true)
    by (vm_compute; reflexivity).
  cbv beta in Hraw. rewrite Hecho in Hraw. discriminate Hraw.
Qed.

(** ** C2 and C3: reading a ledger back *)

Lemma ledgered_file : LEDGER_FILE Sim.ledgered = Some Sim.written.
Proof. vm_compute. reflexivity. Qed.

Lemma ledgered_append :
  append 1001 Sim.entry (Sim.boot 1000000) = (Returned Sim.receipt, Sim.ledgered).
Proof. vm_compute. reflexivity. Qed.

Lemma tampered_one_char : one_char_changed Sim.written Sim.tampered.
Proof.
  exists EmptyString, "1"%char, "9"%char, Sim.written_tail.
  split; [discriminate | ]. split; vm_compute; reflexivity.
Qed.

Lemma tampered_no_collision : no_collision Sim.tampered Sim.written.
Proof.
  assert (Hne : String.eqb (sha256_hex Sim.tampered) (sha256_hex Sim.written) = false)
    by (vm_compute; reflexivity).
  apply String.eqb_neq in Hne. intros Heq. exfalso. exact (Hne Heq).
Qed.

Lemma one_changed_character_is_detected_witness :
  exists w'',
    verifyIntegrity (set_LEDGER_FILE (Some Sim.tampered) Sim.ledgered)
      = (Returned false, w'') /\
    State.status (sys w'') = State.frozen.
Proof.
  apply (LedgerFacts.one_changed_character_is_detected
           1001 Sim.entry (Sim.boot 1000000) Sim.receipt Sim.ledgered
           Sim.written Sim.tampered).
  - exact ledgered_append.
  - exact ledgered_file.
  - exact tampered_one_char.
  - exact tampered_no_collision.
Defined.

Lemma ledgered_digest_agrees :
  ~ digest_differs (META_FILE Sim.ledgered) (sha256_hex Sim.written).
Proof. vm_compute. intros Hd. now apply Hd. Qed.

Lemma ledgered_linked : linked GENESIS_HASH (read_lines Sim.written).
Proof.
  assert (Hlines : read_lines Sim.written
                   = [new_line 1001 Sim.entry GENESIS_HASH])
    by (vm_compute; reflexivity).
  rewrite Hlines. apply ChainFacts.new_line_linked.
  - vm_compute. reflexivity.
  - split; vm_compute; reflexivity.
Qed.

Lemma verifyIntegrity_behaviour_witness :
  verifyIntegrity Sim.ledgered =
  (Returned true,
   set_initialized true
     (set_lastHash (final_hash GENESIS_HASH (read_lines Sim.written))
                   Sim.ledgered)).
Proof.
  pose proof (LedgerFacts.verifyIntegrity_behaviour Sim.ledgered) as Hb.
  rewrite ledgered_file in Hb. destruct Hb as (_ & Hwalk & _).
  destruct (Hwalk ledgered_digest_agrees) as (_ & Hlinked).
  exact (Hlinked ledgered_linked).
Defined.

(** C3 as stated fails: after one append the ledger file is removed.
    The digest of the ledger, which [computeFileHash] takes to be the
    genesis hash when there is no file, differs from the stored one, yet
    [verifyIntegrity] answers [true] and does not freeze; and the cursor
    it leaves is the hash of the removed line, not the genesis hash that
    ends an empty chain. *)
Lemma removed_ledger_passes_verification :
  ~ digest_checked_first Sim.removed /\ ~ success_caches_final_hash Sim.removed.
Proof.
  assert (Hrun : verifyIntegrity Sim.removed
                 = (Returned true, set_initialized true Sim.removed))
    by (apply LedgerFacts.verifyIntegrity_absent; reflexivity).
  split.
  - intros Hclaim.
    assert (Hhash : computeFileHash Sim.removed
                    = (Returned GENESIS_HASH, Sim.removed)) by reflexivity.
    specialize (Hclaim _ _ Hhash). rewrite Hrun in Hclaim.
    assert (Hd : digest_differs (META_FILE Sim.removed) GENESIS_HASH).
    { assert (Hm : META_FILE Sim.removed
                   = Some (MetaFileHash (sha256_hex Sim.written)))
        by (vm_compute; reflexivity).
      rewrite Hm. cbn [digest_differs].
      assert (Hne : String.eqb (sha256_hex Sim.written) GENESIS_HASH = false)
        by (vm_compute; reflexivity).
      now apply String.eqb_neq in Hne. }
    specialize (Hclaim Hd). discriminate Hclaim.
  - intros Hclaim. specialize (Hclaim _ Hrun).
    assert (Hne : String.eqb (lastHash (set_initialized true Sim.removed))
                             (final_hash GENESIS_HASH (ledger_lines Sim.removed))
                  = false) by (vm_compute; reflexivity).
    apply String.eqb_neq in Hne. contradiction.
Qed.

(** Why the stored digest is needed for C2: the chain walk trims every
    line, so with the digest file gone it does not see the final line feed
    replaced by a space. *)
Example chain_walk_misses_the_final_line_feed :
  one_char_changed Sim.written Sim.respaced /\
  fst (verifyIntegrity
         (set_META_FILE None (set_LEDGER_FILE (Some Sim.respaced) Sim.ledgered)))
    = Returned true.
Proof.
  split.
  - exists (JS.trimEnd Sim.written), "010"%char, " "%char, EmptyString.
    split; [discriminate | ]. split; vm_compute; reflexivity.
  - vm_compute. reflexivity.
Qed.

(** ** C4: runs of appends *)

(** C4 as stated fails: from the empty ledger, appending an entry whose
    scheme text contains the field separator writes a line of seven
    fields, and [verifyIntegrity] answers [false] on it. *)
Lemma separator_in_scheme_breaks_chain :
  ~ append_then_verifies (Sim.boot 1000000) 1001 Sim.piped.
Proof.
  intros Hclaim.
  assert (Hv : fst (verifyIntegrity (snd (append 1001 Sim.piped (Sim.boot 1000000))))
               = Returned false) by (vm_compute; reflexivity).
  rewrite Hclaim in Hv; [discriminate | reflexivity | reflexivity].
Qed.

Lemma entry_is_inline : entry_inline Sim.entry.
Proof. split; vm_compute; reflexivity. Qed.

Lemma appends_keep_chain_witness :
  fst (verifyIntegrity (Sim.boot 1000000)) = Returned true /\
  exists rs w',
    run_appends [(1001, Sim.entry); (2001, Sim.entry)] (Sim.boot 1000000)
      = (Returned rs, w') /\
    List.length rs = 2%nat /\
    fst (verifyIntegrity w') = Returned true /\
    ledger_lines w'
    = (ledger_lines (Sim.boot 1000000)
       ++ appended_lines
            (final_hash GENESIS_HASH (ledger_lines (Sim.boot 1000000)))
            [(1001, Sim.entry); (2001, Sim.entry)])%list /\
    linked (final_hash GENESIS_HASH (ledger_lines (Sim.boot 1000000)))
           (appended_lines
              (final_hash GENESIS_HASH (ledger_lines (Sim.boot 1000000)))
              [(1001, Sim.entry); (2001, Sim.entry)]) /\
    linked GENESIS_HASH (ledger_lines w').
Proof.
  apply (ChainFacts.appends_keep_chain (Sim.boot 1000000)
           [(1001, Sim.entry); (2001, Sim.entry)]).
  - reflexivity.
  - reflexivity.
  - repeat constructor; apply entry_is_inline.
Defined.

(** ** C10: an append on an overwritten ledger *)

Lemma append_ignores_failed_verification_witness :
  exists found w',
    LEDGER_FILE Sim.overwritten = Some found /\
    append 1001 Sim.entry Sim.overwritten =
      (Returned
         {| timestamp := toISOString 1001;
            currentHash :=
              sha256_hex
                (toISOString 1001 ++ entry_citizenHash Sim.entry
                 ++ entry_scheme Sim.entry
                 ++ JS.String_of (entry_amount Sim.entry)
                 ++ lastHash Sim.overwritten) |}, w') /\
    LEDGER_FILE w' =
      Some (found
            ++ (toISOString 1001 ++ "|" ++ entry_citizenHash Sim.entry ++ "|"
                ++ entry_scheme Sim.entry ++ "|"
                ++ JS.String_of (entry_amount Sim.entry) ++ "|"
                ++ lastHash Sim.overwritten ++ "|"
                ++ sha256_hex
                     (toISOString 1001 ++ entry_citizenHash Sim.entry
                      ++ entry_scheme Sim.entry
                      ++ JS.String_of (entry_amount Sim.entry)
                      ++ lastHash Sim.overwritten))
            ++ String "010" EmptyString) /\
    META_FILE w' =
      Some (MetaFileHash
              (sha256_hex
                 (found
                  ++ (toISOString 1001 ++ "|" ++ entry_citizenHash Sim.entry ++ "|"
                      ++ entry_scheme Sim.entry ++ "|"
                      ++ JS.String_of (entry_amount Sim.entry) ++ "|"
                      ++ lastHash Sim.overwritten ++ "|"
                      ++ sha256_hex
                           (toISOString 1001 ++ entry_citizenHash Sim.entry
                            ++ entry_scheme Sim.entry
                            ++ JS.String_of (entry_amount Sim.entry)
                            ++ lastHash Sim.overwritten))
                  ++ String "010" EmptyString))) /\
    lastHash w' =
      sha256_hex
        (toISOString 1001 ++ entry_citizenHash Sim.entry
         ++ entry_scheme Sim.entry
         ++ JS.String_of (entry_amount Sim.entry)
         ++ lastHash Sim.overwritten) /\
    State.status (sys w') = State.frozen.
Proof.
  apply (LedgerFacts.append_ignores_failed_verification 1001 Sim.entry Sim.overwritten).
  - reflexivity.
  - vm_compute. reflexivity.
  - reflexivity.
Defined.

(** The same run read back: the overwritten file now has a second line of
    six fields, whose timestamp, scheme and amount are those of the entry
    and whose fifth field is the genesis hash, 64 zeros; the file still
    fails the verification. *)
Example overwritten_ledger_gets_a_genesis_line :
  exists line,
    ledger_lines (snd (append 1001 Sim.entry Sim.overwritten))
      = ["not a ledger line"; line] /\
    JS.split "|" line
      = [toISOString 1001; RegistryFns.hashCitizenId Sim.citizen; "Food"; "5000";
         "0000000000000000000000000000000000000000000000000000000000000000";
         currentHash Sim.receipt] /\
    toISOString 1001 = "1001Z" /\
    fst (verifyIntegrity (snd (append 1001 Sim.entry Sim.overwritten)))
      = Returned false.
Proof. eexists. vm_compute. repeat apply conj; reflexivity. Qed.

End Scenarios.

(** * Canonical identities *)

Module IdentityFacts.

Import JSFacts FieldFacts.

Lemma trimStart_idempotent s : JS.trimStart (JS.trimStart s) = JS.trimStart s.
Proof.
  induction s as [ | a s IH]; [reflexivity | ].
  cbn [JS.trimStart]. destruct (JS.is_ws a) eqn:Ha; [exact IH | ].
  cbn [JS.trimStart]. now rewrite Ha.
Qed.

Lemma trimEnd_idempotent s : JS.trimEnd (JS.trimEnd s) = JS.trimEnd s.
Proof.
  induction s as [ | a s IH]; [reflexivity | ].
  cbn [JS.trimEnd]. destruct (JS.trimEnd s) as [ | b r] eqn:Hs.
  - destruct (JS.is_ws a) eqn:Ha; [reflexivity | ].
    cbn [JS.trimEnd]. now rewrite Ha.
  - cbn [JS.trimEnd]. cbn [JS.trimEnd] in IH.
    destruct (JS.trimEnd r) as [ | c r'] eqn:Hr.
    + destruct (JS.is_ws b); [discriminate | ]. now inversion IH.
    + now inversion IH.
Qed.

(** [trimEnd] keeps a first character that is no white space. *)
Lemma trimEnd_first a s :
  JS.is_ws a = false -> exists r, JS.trimEnd (String a s) = String a r.
Proof.
  intros Ha. cbn [JS.trimEnd]. destruct (JS.trimEnd s); rewrite ?Ha; eauto.
Qed.

Lemma trimStart_trimEnd_trimStart s :
  JS.trimStart (JS.trimEnd (JS.trimStart s)) = JS.trimEnd (JS.trimStart s).
Proof.
  induction s as [ | a s IH]; [reflexivity | ].
  cbn [JS.trimStart]. destruct (JS.is_ws a) eqn:Ha; [exact IH | ].
  destruct (trimEnd_first a s Ha) as [r ->]. now apply trimStart_first.
Qed.

Lemma trim_idempotent s : JS.trim (JS.trim s) = JS.trim s.
Proof.
  unfold JS.trim. now rewrite trimStart_trimEnd_trimStart, trimEnd_idempotent.
Qed.

Lemma length_repeat a n : String.length (JS.repeat a n) = n.
Proof. induction n as [ | n IH]; cbn; congruence. Qed.

Lemma length_append s t :
  String.length (String.append s t) = (String.length s + String.length t)%nat.
Proof.
  induction s as [ | a s IH]; [reflexivity | ].
  rewrite append_cons. cbn [String.length]. now rewrite IH.
Qed.

Lemma padStart_length n c s :
  String.length (JS.padStart n c s) = Nat.max n (String.length s).
Proof.
  unfold JS.padStart. rewrite length_append, length_repeat. lia.
Qed.

(** A string that is long enough is not padded. *)
Lemma padStart_long n c s :
  (n <= String.length s)%nat -> JS.padStart n c s = s.
Proof.
  intros Hn. unfold JS.padStart.
  replace (n - String.length s)%nat with 0%nat by lia. reflexivity.
Qed.

Lemma padStart_idempotent n c s :
  JS.padStart n c (JS.padStart n c s) = JS.padStart n c s.
Proof. apply padStart_long. rewrite padStart_length. lia. Qed.

Lemma repeat_zero_plain n : Fields.plain (JS.repeat "0" n) = true.
Proof. induction n as [ | n IH]; [reflexivity | ]. cbn. exact IH. Qed.

(** Padding a trimmed string with zeros leaves it trimmed. *)
Lemma trim_padStart_trim s :
  JS.trim (JS.padStart 12 "0" (JS.trim s)) = JS.padStart 12 "0" (JS.trim s).
Proof.
  unfold JS.padStart.
  destruct (12 - String.length (JS.trim s))%nat as [ | k].
  - rewrite append_nil. apply trim_idempotent.
  - unfold JS.trim at 1. cbn [JS.repeat]. rewrite append_cons.
    rewrite trimStart_first by reflexivity. rewrite <- append_cons.
    change (String "0" (JS.repeat "0" k)) with (JS.repeat "0" (S k)).
    destruct (JS.trim s) as [ | a t] eqn:Ht.
    + rewrite append_empty_r. apply trimEnd_plain, repeat_zero_plain.
    + apply trimEnd_app; [discriminate | ].
      rewrite <- Ht. unfold JS.trim. apply trimEnd_idempotent.
Qed.

Section WithRuntime.
Context `{Runtime}.

(** X1. The token does not depend on white space around the identity nor on
    leading zeros up to twelve characters: an identity, its trimmed form
    and its trimmed, zero-padded form hash to the same token. *)
Theorem hashCitizenId_canonical rawId :
  RegistryFns.hashCitizenId (JS.trim rawId) = RegistryFns.hashCitizenId rawId /\
  RegistryFns.hashCitizenId (JS.padStart 12 "0" (JS.trim rawId))
    = RegistryFns.hashCitizenId rawId.
Proof.
  unfold RegistryFns.hashCitizenId. split.
  - now rewrite trim_idempotent.
  - now rewrite trim_padStart_trim, padStart_idempotent.
Qed.

End WithRuntime.

(** ** Twelve digits *)

Lemma is_digit_plain a :
  ClaimRoute.is_digit a = true ->
  Fields.plain (String a EmptyString) = true.
Proof.
  destruct a as [[] [] [] [] [] [] [] []]; vm_compute; intros; try discriminate;
    reflexivity.
Qed.

Lemma all_digits_plain s : ClaimRoute.all_digits s = true -> Fields.plain s = true.
Proof.
  induction s as [ | a s IH]; [reflexivity | ]. cbn [ClaimRoute.all_digits].
  intros [Ha Hs]%andb_true_iff. apply plain_cons; [now apply is_digit_plain | auto].
Qed.

Lemma trim_plain s : Fields.plain s = true -> JS.trim s = s.
Proof.
  intros Hs. unfold JS.trim.
  assert (Hstart : JS.trimStart s = s).
  { destruct s as [ | a s]; [reflexivity | ]. apply trimStart_first.
    cbn [Fields.plain] in Hs. apply andb_true_iff in Hs as [Ha _].
    apply andb_true_iff in Ha as [Ha _]. now apply negb_true_iff in Ha. }
  rewrite Hstart. now apply trimEnd_plain.
Qed.

Lemma twelve_digits_canonical s :
  ClaimRoute.twelve_digits s = true -> JS.padStart 12 "0" (JS.trim s) = s.
Proof.
  unfold ClaimRoute.twelve_digits. intros [Hlen Hd]%andb_true_iff.
  apply Nat.eqb_eq in Hlen.
  rewrite (trim_plain s (all_digits_plain s Hd)).
  apply padStart_long. lia.
Qed.

End IdentityFacts.

(** * What [validate] does to the world *)

Module GateFacts.

Import Validator ValidatorSteps Gates LedgerSteps ValidatorFacts Runs.

Section WithRuntime.
Context `{Runtime}.

Local Ltac rejected :=
  do 2 eexists; (split; [ | reflexivity]); cbn; tauto.

Lemma frequency_fails_or_passes now lastClaim :
  Qlt_bool (diffDays_of now lastClaim) (inject_Z 30) = false <->
  30 * MS_PER_DAY <= now - lastClaim.
Proof.
  unfold Qlt_bool, diffDays_of, Qle_bool, inject_Z. cbn [Qnum Qden].
  rewrite negb_false_iff, Z.leb_le.
  change (Z.pos (Z.to_pos MS_PER_DAY)) with MS_PER_DAY. lia.
Qed.

(** From the budget gate on: a rejection that leaves the world alone, the
    rejection of an exhausted budget that freezes it, or the approval
    statements, reached exactly when gates 4 and 5 pass. *)
Lemma from_budget_gate_cases now now' citizenHash scheme0 record w :
  let run := from_budget_gate now now' citizenHash scheme0 record
               (State.budget (sys w)) w in
  (exists g r, In g rejecting_gates /\ run = (Returned (rejection g r), w)) \/
  (State.budget (sys w) <= 0 /\
   run = (Returned (rejection "Budget" exhausted_reason),
          set_sys (State.freeze (sys w)) w)) \/
  (passes_budget_gate w record /\ passes_frequency_gate now record /\
   run = approve_steps now' citizenHash scheme0 (Registry.scheme_amount record) w).
Proof.
  cbv zeta. unfold from_budget_gate. cbv zeta.
  destruct (Z.leb_spec (State.budget (sys w)) 0) as [Hz | Hpos].
  { right; left. split; [exact Hz | reflexivity]. }
  destruct (Z.ltb_spec (State.budget (sys w)) (Registry.scheme_amount record))
    as [Hlt | Hge].
  { left. rejected. }
  unfold passes_budget_gate, passes_frequency_gate.
  destruct (Registry.last_claim_date record) as [lastClaim | ].
  - destruct (Qlt_bool _ _) eqn:Hq.
    + left. rejected.
    + right; right. apply frequency_fails_or_passes in Hq.
      repeat apply conj; auto; lia.
  - right; right. repeat apply conj; auto; lia.
Qed.

(** The whole of [validate]: the same three cases, the approval
    statements being reached exactly when the five gates pass. *)
Lemma validate_cases now now' citizenId scheme0 w :
  let run := validate now now' citizenId scheme0 w in
  (exists g r, In g rejecting_gates /\ run = (Returned (rejection g r), w)) \/
  (State.status (sys w) = State.active /\ State.budget (sys w) <= 0 /\
   run = (Returned (rejection "Budget" exhausted_reason),
          set_sys (State.freeze (sys w)) w)) \/
  (exists record,
     passes_all_gates w now citizenId scheme0 record /\
     run = approve_steps now' (RegistryFns.hashCitizenId citizenId) scheme0
             (Registry.scheme_amount record) w).
Proof.
  cbv zeta. rewrite validate_eq. cbv zeta.
  destruct (State.status (sys w)) eqn:Hst; [ | left; rejected | left; rejected].
  destruct (bool_decide _) eqn:Hseen; [left; rejected | ].
  apply bool_decide_eq_false in Hseen.
  destruct (registryMap w !! RegistryFns.hashCitizenId citizenId)
    as [record | ] eqn:Hrec; [ | left; rejected].
  unfold from_record.
  destruct (String.eqb_spec (JS.toLowerCase (Registry.account_status record)) "active")
    as [Hacc | ]; cbn [negb]; [ | left; rejected].
  destruct (Registry.aadhaar_linked record) eqn:Hlink; cbn [negb]; [ | left; rejected].
  destruct (String.eqb_spec (JS.toLowerCase (Registry.scheme_eligibility record))
              (JS.toLowerCase (JS.trim scheme0))) as [Hsch | ]; cbn [negb];
    [ | left; rejected].
  destruct (Z.ltb_spec 3 (Registry.claim_count record)) as [ | Hcount];
    [left; rejected | ].
  destruct (from_budget_gate_cases now now' (RegistryFns.hashCitizenId citizenId)
              scheme0 record w) as [Hrej | [[Hz Hfrozen] | (Hb & Hf & Happ)]];
    [now left | right; left; auto | ].
  right; right. exists record. split; [ | exact Happ].
  unfold passes_all_gates. split; [ | split; assumption].
  unfold reaches_budget_gate. repeat apply conj; auto.
Qed.

(** The approval statements end with an approval or with an exception. *)
Lemma approve_steps_result now' citizenHash scheme0 amount0 w o w' :
  approve_steps now' citizenHash scheme0 amount0 w = (o, w') ->
  o = Thrown IOError \/
  (o = Returned (approval now' scheme0 amount0) /\
   disk w = healthy /\
   w' = recorded_world now'
          {| Ledger.entry_citizenHash := citizenHash;
             Ledger.entry_scheme := scheme0;
             Ledger.entry_amount := amount0 |}
          (after_verify (charged_world citizenHash amount0 w))).
Proof.
  rewrite approve_steps_eq. cbv zeta.
  destruct (disk w) as [[ | ] [ | ]]; cbn [appendFile_fails writeFile_fails];
    intros Heq; inversion Heq; subst; auto.
Qed.

(** X2. A rejection changes nothing, but for the rejection of an exhausted
    budget, which freezes the system, active until then, and changes
    nothing else. *)
Theorem rejection_changes_nothing now now' citizenId scheme0 w d w' :
  validate now now' citizenId scheme0 w = (Returned d, w') ->
  approved d = false ->
  w' = w \/
  (gate d = "Budget" /\ State.budget (sys w) <= 0 /\
   w' = set_sys (State.freeze (sys w)) w /\
   State.status (sys w) = State.active /\
   State.status (sys w') = State.frozen).
Proof.
  intros Hv Hrej.
  destruct (validate_cases now now' citizenId scheme0 w)
    as [(g & r & _ & Hrun) | [(Hact & Hz & Hrun) | (record & Hpass & Hrun)]];
    cbv zeta in Hrun; rewrite Hrun in Hv.
  - inversion Hv; subst. now left.
  - inversion Hv; subst. right.
    repeat apply conj; auto.
  - apply approve_steps_result in Hv as [Hthrow | (Hd & _)]; [discriminate | ].
    inversion Hd; subst d. discriminate Hrej.
Qed.

(** X3. An approval is returned only when the five gates pass, and then the
    budget is lower by the record's amount, the transaction count higher
    by one, the token new to the replay set and now in it, and the decision
    carries the record's amount, the caller's scheme and the ledger
    timestamp. *)
Theorem approval_requires_gates_and_charges now now' citizenId scheme0 w d w' :
  validate now now' citizenId scheme0 w = (Returned d, w') ->
  approved d = true ->
  exists record,
    passes_all_gates w now citizenId scheme0 record /\
    d = approval now' scheme0 (Registry.scheme_amount record) /\
    State.budget (sys w')
      = State.budget (sys w) - Registry.scheme_amount record /\
    State.transactionCount (sys w') = State.transactionCount (sys w) + 1 /\
    processedHashes w'
      = {[RegistryFns.hashCitizenId citizenId]} ∪ processedHashes w.
Proof.
  intros Hv Happ.
  destruct (validate_cases now now' citizenId scheme0 w)
    as [(g & r & _ & Hrun) | [(Hact & Hz & Hrun) | (record & Hpass & Hrun)]];
    cbv zeta in Hrun; rewrite Hrun in Hv.
  - inversion Hv; subst. discriminate Happ.
  - inversion Hv; subst. discriminate Happ.
  - exists record. split; [exact Hpass | ].
    apply approve_steps_result in Hv as [Hthrow | (Hd & _ & ->)]; [discriminate | ].
    inversion Hd; subst d. split; [reflexivity | ].
    destruct (sys_after_verify_charged (RegistryFns.hashCitizenId citizenId)
                (Registry.scheme_amount record) w) as (Hs & Hp & _).
    cbv zeta in Hs, Hp.
    destruct Hpass as (_ & [Hpos Hle] & _).
    cbn [recorded_world appended_world sys processedHashes set_META_FILE
         set_lastHash set_LEDGER_FILE].
    repeat apply conj; [ | | exact Hp].
    + destruct Hs as [-> | ->]; cbn [State.freeze State.set_status State.budget
        State.incrTx State.set_transactionCount];
        rewrite StateFacts.deduct_budget; lia.
    + destruct Hs as [-> | ->]; cbn [State.freeze State.set_status
        State.transactionCount State.incrTx State.set_transactionCount];
        now rewrite StateFacts.deduct_transactionCount.
Qed.

(** X4. On a healthy disk a claim that passes the five gates is approved. *)
Theorem all_gates_passed_is_approved now now' citizenId scheme0 record w :
  passes_all_gates w now citizenId scheme0 record ->
  disk w = healthy ->
  exists w',
    validate now now' citizenId scheme0 w =
    (Returned (approval now' scheme0 (Registry.scheme_amount record)), w').
Proof.
  intros Hpass Hdisk.
  rewrite (validate_passes_all_gates _ _ _ _ _ _ Hpass), approve_steps_eq.
  cbv zeta. rewrite Hdisk. cbn [healthy appendFile_fails writeFile_fails]. eauto.
Qed.

Lemma Qfloor_diffDays now lastClaim :
  Qfloor (diffDays_of now lastClaim) = (now - lastClaim) / MS_PER_DAY.
Proof. reflexivity. Qed.

Lemma Qceiling_daysLeft now lastClaim :
  Qceiling (inject_Z 30 - diffDays_of now lastClaim)
  = 30 - (now - lastClaim) / MS_PER_DAY.
Proof.
  unfold Qceiling, Qfloor, diffDays_of, Qminus, Qplus, Qopp, inject_Z.
  cbn [Qnum Qden].
  change (Z.pos (1 * Z.to_pos MS_PER_DAY)) with MS_PER_DAY.
  change (Z.pos (Z.to_pos MS_PER_DAY)) with MS_PER_DAY.
  replace (- (30 * MS_PER_DAY + - (now - lastClaim) * 1))
    with ((now - lastClaim) + (-30) * MS_PER_DAY) by lia.
  rewrite Z.div_add by (unfold MS_PER_DAY; lia). lia.
Qed.

(** X5. A claim that reaches the frequency gate less than thirty days after
    the last one is rejected with the whole days since the last claim and
    the days still to wait; the two numbers add up to thirty, and nothing
    changes. *)
Theorem frequency_rejection_counts_days now now' citizenId scheme0 record lastClaim w :
  reaches_budget_gate w citizenId scheme0 record ->
  passes_budget_gate w record ->
  Registry.last_claim_date record = Some lastClaim ->
  now - lastClaim < 30 * MS_PER_DAY ->
  let ago := (now - lastClaim) / MS_PER_DAY in
  ago < 30 /\
  validate now now' citizenId scheme0 w =
  (Returned (rejection "Frequency"
     (JS.join ["Frequency violation. Last claim was "; JS.String_of ago;
               " day(s) ago. Please wait "; JS.String_of (30 - ago);
               " more day(s)."])), w).
Proof.
  intros Hreach [Hpos Hle] Hlast Hlt. cbv zeta.
  split; [apply Z.div_lt_upper_bound; unfold MS_PER_DAY in *; lia | ].
  rewrite (validate_reaches_budget_gate _ _ _ _ _ _ Hreach).
  unfold from_budget_gate. cbv zeta.
  destruct (Z.leb_spec (State.budget (sys w)) 0); [lia | ].
  destruct (Z.ltb_spec (State.budget (sys w)) (Registry.scheme_amount record));
    [lia | ].
  rewrite Hlast.
  assert (Hq : Qlt_bool (diffDays_of now lastClaim) (inject_Z 30) = true).
  { destruct (Qlt_bool _ _) eqn:Hq; [reflexivity | ].
    apply frequency_fails_or_passes in Hq. lia. }
  rewrite Hq, Qfloor_diffDays, Qceiling_daysLeft. reflexivity.
Qed.

End WithRuntime.

End GateFacts.

(** * Verification run again, and writes that fail *)

Module RecoveryFacts.

Import Ledger Chain LedgerSteps LedgerFacts JSFacts.

Section WithRuntime.
Context `{Runtime}.

(** X6. Running [verifyIntegrity] a second time gives the answer of the first
    and changes nothing more. *)
Theorem verifyIntegrity_idempotent w :
  verifyIntegrity (snd (verifyIntegrity w))
  = (fst (verifyIntegrity w), snd (verifyIntegrity w)).
Proof.
  destruct (LEDGER_FILE w) as [content | ] eqn:Hf.
  - rewrite (verifyIntegrity_present w content Hf).
    destruct (meta_mismatch (meta_view (META_FILE w)) (sha256_hex content)) eqn:Hm.
    + cbn [fst snd].
      rewrite (verifyIntegrity_present (frozen_world w) content Hf).
      change (META_FILE (frozen_world w)) with (META_FILE w). now rewrite Hm.
    + destruct (walk_cases (read_lines content) GENESIS_HASH w) as [[_ Hw] | [_ Hw]];
        rewrite Hw; cbn [fst snd].
      * set (h := final_hash GENESIS_HASH (read_lines content)).
        rewrite (verifyIntegrity_present (verified_world h w) content Hf).
        change (META_FILE (verified_world h w)) with (META_FILE w). rewrite Hm.
        destruct (walk_cases (read_lines content) GENESIS_HASH (verified_world h w))
          as [[_ Hw'] | [Hl' _]].
        -- rewrite Hw'. reflexivity.
        -- destruct (walk_cases (read_lines content) GENESIS_HASH w)
             as [[Hl _] | [_ Hw2]]; [contradiction | congruence].
      * rewrite (verifyIntegrity_present (frozen_world w) content Hf).
        change (META_FILE (frozen_world w)) with (META_FILE w). rewrite Hm.
        destruct (walk_cases (read_lines content) GENESIS_HASH (frozen_world w))
          as [[Hl' _] | [_ Hw']].
        -- destruct (walk_cases (read_lines content) GENESIS_HASH w)
             as [[_ Hw2] | [Hl _]]; [congruence | contradiction].
        -- rewrite Hw'. reflexivity.
  - rewrite (verifyIntegrity_absent w Hf). cbn [fst snd].
    now rewrite (verifyIntegrity_absent (set_initialized true w) Hf).
Qed.

(** X7. When the disk refuses the line, [append] throws with both files as
    they were; what has changed is what the verification it may have run
    first changed, so nothing at all on a ledger already verified. *)
Theorem refused_line_leaves_files now e w :
  appendFile_fails (disk w) = true ->
  exists w',
    append now e w = (Thrown IOError, w') /\
    LEDGER_FILE w' = LEDGER_FILE w /\ META_FILE w' = META_FILE w /\
    processedHashes w' = processedHashes w /\
    (sys w' = sys w \/ sys w' = State.freeze (sys w)) /\
    (initialized w = true -> w' = w).
Proof.
  intros Hfail. exists (after_verify w).
  destruct (after_verify_same_files w) as (Hl & Hm & Hd & _ & Hp & Hs).
  rewrite append_eq. cbv zeta. rewrite Hd, Hfail.
  repeat apply conj; auto.
  unfold after_verify. now intros ->.
Qed.

Lemma append_longer s t : t <> EmptyString -> String.append s t <> s.
Proof.
  intros Ht Heq. apply (f_equal String.length) in Heq.
  rewrite IdentityFacts.length_append in Heq. destruct t; [congruence | cbn in Heq; lia].
Qed.

(** X8. When the line is written and the disk then refuses the digest,
    [append] throws with the line in the file and the old digest stored:
    unless the two contents collide, the next verification answers [false]
    and freezes the system. *)
Theorem unrecorded_line_fails_next_verification now e w content :
  LEDGER_FILE w = Some content ->
  META_FILE w = Some (MetaFileHash (sha256_hex content)) ->
  appendFile_fails (disk w) = false ->
  writeFile_fails (disk w) = true ->
  no_collision content (new_content now e (after_verify w)) ->
  exists w',
    append now e w = (Thrown IOError, w') /\
    LEDGER_FILE w' = Some (new_content now e (after_verify w)) /\
    META_FILE w' = META_FILE w /\
    verifyIntegrity w' = (Returned false, frozen_world w') /\
    State.status (sys (frozen_world w')) = State.frozen.
Proof.
  intros Hf Hmeta Happ Hwrite Hnc.
  destruct (after_verify_same_files w) as (Hl & Hm & Hd & _).
  exists (appended_world now e (after_verify w)).
  rewrite append_eq. cbv zeta. rewrite Hd, Happ, Hwrite.
  split; [reflexivity | ]. split; [reflexivity | ]. split; [exact Hm | ].
  split; [ | apply StateFacts.freeze_frozen].
  apply (verifyIntegrity_digest_differs _ (new_content now e (after_verify w)));
    [reflexivity | ].
  cbn [appended_world META_FILE set_lastHash set_LEDGER_FILE].
  rewrite Hm, Hmeta. cbn [digest_differs].
  intros Heq. apply Hnc in Heq.
  unfold new_content, old_content in Heq. rewrite Hl, Hf in Heq.
  symmetry in Heq. revert Heq. apply append_longer.
  unfold LF. destruct (new_line _ _ _); discriminate.
Qed.

End WithRuntime.

End RecoveryFacts.

(** * The reporting view of the ledger *)

Module LedgerViewFacts.

Import Fields FieldFacts Ledger Chain LedgerSteps LedgerFacts JSFacts ChainFacts.
Import LedgerView.

(** [getLastLines] shows lines of the list [verifyIntegrity] walks, and
    neither throws nor changes anything. *)
Lemma getLastLines_eq n w :
  getLastLines n w
  = (Returned (List.map show (slice (- n) (ledger_lines w))), w).
Proof.
  unfold getLastLines, Fs.existsSync_LEDGER_FILE, Fs.readFileSync_LEDGER_FILE,
    bind, get, ret, ledger_lines, read_lines.
  destruct (LEDGER_FILE w) as [content | ] eqn:Hf; cbn [negb]; [now rewrite Hf | ].
  unfold slice. now rewrite drop_nil.
Qed.

Lemma slice_last {A} n (a : list A) :
  0 < n -> slice (- n) a = drop (List.length a - Z.to_nat n) a.
Proof.
  intros Hn. unfold slice. cbv zeta.
  destruct (Z.ltb_spec (- n) 0) as [_ | ]; [ | lia].
  f_equal. lia.
Qed.

Lemma slice_zero {A} (a : list A) : slice (- 0) a = a.
Proof.
  unfold slice. cbv zeta. change (- 0) with 0. cbn [Z.ltb Z.compare].
  replace (Z.to_nat (Z.min 0 (Z.of_nat (List.length a)))) with 0%nat by lia.
  reflexivity.
Qed.

Lemma slice_first {A} n (a : list A) :
  n < 0 -> slice (- n) a = drop (Z.to_nat (- n)) a.
Proof.
  intros Hn. unfold slice. cbv zeta.
  destruct (Z.ltb_spec (- n) 0) as [ | _]; [lia | ].
  destruct (Z.min_spec (- n) (Z.of_nat (List.length a))) as [[_ ->] | [Hle ->]];
    [reflexivity | ].
  rewrite Nat2Z.id, !drop_ge; [reflexivity | lia | lia].
Qed.

(** X9. For a positive [n] the view is of the last [n] lines, of all of them
    when there are fewer, in the order of the file; [getLastLines(0)]
    shows every line, and a negative [n] leaves out the first [-n] lines. *)
Theorem getLastLines_window n w :
  exists shown,
    getLastLines n w = (Returned shown, w) /\
    (0 < n ->
     shown = List.map show
               (drop (List.length (ledger_lines w) - Z.to_nat n) (ledger_lines w)) /\
     List.length shown = Nat.min (Z.to_nat n) (List.length (ledger_lines w))) /\
    (n = 0 -> shown = List.map show (ledger_lines w)) /\
    (n < 0 -> shown = List.map show (drop (Z.to_nat (- n)) (ledger_lines w))).
Proof.
  eexists. split; [apply getLastLines_eq | ].
  repeat apply conj.
  - intros Hn. rewrite (slice_last n _ Hn). split; [reflexivity | ].
    rewrite List.length_map, length_drop. lia.
  - intros ->. now rewrite slice_zero.
  - intros Hn. now rewrite (slice_first n _ Hn).
Qed.

Lemma length_substring s : forall n m,
  (String.length (String.substring n m s) <= m)%nat.
Proof.
  induction s as [ | a s IH]; intros [ | n] [ | m]; cbn; try lia.
  - specialize (IH 0%nat m). lia.
  - apply IH.
  - apply IH.
Qed.

Lemma length_shorten field : (String.length (shorten field) <= 15)%nat.
Proof.
  destruct field as [s | ]; cbn [shorten]; [ | cbn; lia].
  destruct (JS.truthy s); [ | cbn; lia].
  rewrite IdentityFacts.length_append.
  pose proof (length_substring s 0 12). cbn [String.length]. lia.
Qed.

(** X10. No entry of the view holds more than fifteen characters of a hash:
    twelve of its own and the three dots. *)
Theorem getLastLines_cuts_hashes n w :
  exists shown,
    getLastLines n w = (Returned shown, w) /\
    Forall (fun s =>
              (String.length (citizenHash s) <= 15)%nat /\
              (String.length (prevHash s) <= 15)%nat /\
              (String.length (currHash s) <= 15)%nat) shown.
Proof.
  eexists. split; [apply getLastLines_eq | ].
  apply List.Forall_forall. intros s Hs.
  apply List.in_map_iff in Hs as (line & <- & _).
  unfold show. cbn [citizenHash prevHash currHash].
  repeat apply conj; apply length_shorten.
Qed.

Lemma shorten_truthy s :
  s <> EmptyString ->
  shorten (Some s) = String.append (String.substring 0 12 s) "...".
Proof. intros Hs. destruct s; [congruence | reflexivity]. Qed.

Section WithLaws.
Context `{RuntimeLaws}.

Lemma linked_final_nonempty lines : forall prev,
  prev <> EmptyString -> linked prev lines ->
  final_hash prev lines <> EmptyString.
Proof.
  induction lines as [ | line rest IH]; intros prev Hprev Hl; [exact Hprev | ].
  inversion Hl as [ | ? ts ch sc am cur ? ? Hsplit Hcur Hrest]; subst.
  unfold final_hash. cbn [fold_left]. unfold stored_hash at 2. rewrite Hsplit.
  apply IH; [apply sha256_nonempty | exact Hrest].
Qed.

Lemma consistent_final_nonempty w :
  consistent w -> final_hash GENESIS_HASH (ledger_lines w) <> EmptyString.
Proof.
  unfold consistent, ledger_lines. intros Hc.
  destruct (LEDGER_FILE w) as [content | ].
  - destruct Hc as (_ & _ & Hl & _).
    apply linked_final_nonempty; [discriminate | exact Hl].
  - discriminate.
Qed.

(** X11. What [append] has written is what [getLastLines(1)] shows next: the
    timestamp of the receipt, the scheme, the amount in decimal, and the
    citizen hash, the previous hash and the hash of the receipt cut to
    twelve characters. *)
Theorem appended_entry_is_shown now e w :
  consistent w -> disk w = healthy -> entry_inline e ->
  exists r w',
    append now e w = (Returned r, w') /\
    getLastLines 1 w' =
    (Returned
       [ {| LedgerView.timestamp := Some (Ledger.timestamp r);
            citizenHash := shorten (Some (entry_citizenHash e));
            scheme := Some (entry_scheme e);
            amount := Some (JS.String_of (entry_amount e));
            prevHash :=
              String.append
                (String.substring 0 12 (final_hash GENESIS_HASH (ledger_lines w)))
                "...";
            currHash :=
              String.append (String.substring 0 12 (currentHash r)) "..." |} ],
     w').
Proof.
  intros Hc Hdisk He.
  destruct (append_consistent now e w Hc Hdisk He) as (w' & Happ & _ & _ & Hlines & _).
  cbv zeta in Happ, Hlines.
  eexists _, w'. split; [exact Happ | ].
  rewrite getLastLines_eq, Hlines, slice_last by lia.
  rewrite List.length_app. cbn [List.length].
  replace (List.length (ledger_lines w) + 1 - Z.to_nat 1)%nat
    with (List.length (ledger_lines w) + 0)%nat by lia.
  rewrite drop_app_length'; [ | lia].
  cbn [List.map]. unfold show.
  rewrite (new_line_split now e _ (consistent_lines_plain w Hc) He).
  cbn [lookup list_lookup Ledger.timestamp currentHash].
  rewrite (shorten_truthy _ (consistent_final_nonempty w Hc)).
  rewrite (shorten_truthy (new_hash now e _)) by apply sha256_nonempty.
  reflexivity.
Qed.

End WithLaws.

End LedgerViewFacts.

(** * The routes, one request after another *)

Module ServerFacts.

Import Validator ValidatorSteps Gates Ledger Chain LedgerSteps.
Import LedgerFacts ValidatorFacts Server Runs.

Section WithRuntime.
Context `{Runtime}.

Lemma freeze_of_frozen s : State.status s = State.frozen -> State.freeze s = s.
Proof. destruct s as [st b t i]. cbn. now intros ->. Qed.

Lemma set_sys_same w : set_sys (sys w) w = w.
Proof. now destruct w. Qed.

Lemma frozen_world_of_frozen w :
  State.status (sys w) = State.frozen -> frozen_world w = w.
Proof.
  intros Hs. unfold frozen_world. rewrite (freeze_of_frozen _ Hs). apply set_sys_same.
Qed.

(** [POST /api/claim]: the answer at the Input gate, or what [validate]
    does on the trimmed fields. *)
Lemma post_eq now now' citizen_id scheme0 w :
  (exists text,
     ClaimRoute.post now now' citizen_id scheme0 w
     = (Returned (ClaimRoute.mkResponse 400 (rejection "Input" text)), w)) \/
  (exists cid sch,
     citizen_id = Some cid /\ scheme0 = Some sch /\
     ClaimRoute.twelve_digits (JS.trim cid) = true /\
     ClaimRoute.post now now' citizen_id scheme0 w
     = answer (ClaimRoute.mkResponse 200)
         (validate now now' (JS.trim cid) (JS.trim sch) w)).
Proof.
  unfold ClaimRoute.post, ret.
  destruct (ClaimRoute.falsy citizen_id || ClaimRoute.falsy scheme0)%bool eqn:Hfalsy.
  - left. eauto.
  - apply orb_false_iff in Hfalsy as [Hc Hs].
    destruct citizen_id as [cid | ]; [ | discriminate].
    destruct scheme0 as [sch | ]; [ | discriminate].
    change (default EmptyString (Some cid)) with cid.
    change (default EmptyString (Some sch)) with sch.
    destruct (ClaimRoute.twelve_digits (JS.trim cid)) eqn:Hd; cbn [negb].
    + right. exists cid, sch.
      split; [reflexivity | split; [reflexivity | split; [assumption | ]]].
      unfold bind, answer.
      destruct (validate now now' (JS.trim cid) (JS.trim sch) w) as [[d | e] w1];
        reflexivity.
    + left. eauto.
Qed.

(** What one request does. It is answered and leaves the world alone; or
    it is a claim rejected on an exhausted budget, which freezes the
    system; or it is a switch of the administrator; or it is the status
    request, which runs the verification; or it is a claim that has passed
    the five gates, and the approval statements run. *)
Lemma handle_cases req w out w' :
  handle req w = (out, w') ->
  (returned out = true /\ is_approval out = false /\
   reported_integrity (req, out) = None /\
   (w' = w \/
    (State.status (sys w) = State.active /\ State.budget (sys w) <= 0 /\
     w' = frozen_world w) \/
    (is_claim req = false /\
     (w' = set_sys (State.pause (sys w)) w \/
      w' = set_sys (State.resume (sys w)) w)))) \/
  (exists b r,
     req = GetStatus /\ verifyIntegrity w = (Returned b, w') /\
     out = Returned (StatusReply r) /\ AdminRoute.ledgerIntegrity r = b) \/
  (exists now now' cid sch record,
     req = PostClaim now now' (Some cid) (Some sch) /\
     passes_all_gates w now (JS.trim cid) (JS.trim sch) record /\
     (out, w') =
     answer (fun d => ClaimReply (ClaimRoute.mkResponse 200 d))
       (approve_steps now' (RegistryFns.hashCitizenId (JS.trim cid)) (JS.trim sch)
          (Registry.scheme_amount record) w)).
Proof.
  destruct req as [now now' citizen_id scheme0 | | | | ]; cbn [handle].
  - unfold bind at 1.
    destruct (post_eq now now' citizen_id scheme0 w)
      as [(text & ->) | (cid & sch & -> & -> & Hd & ->)].
    + unfold ret. intros Heq; inversion Heq; subst. left.
      repeat apply conj; try reflexivity. now left.
    + destruct (GateFacts.validate_cases now now' (JS.trim cid) (JS.trim sch) w)
        as [(g & r & _ & Hrun) | [(Hact & Hz & Hrun) | (record & Hpass & Hrun)]];
        cbv zeta in Hrun; rewrite Hrun.
      * cbn [answer]. unfold ret. intros Heq; inversion Heq; subst. left.
        repeat apply conj; try reflexivity. now left.
      * cbn [answer]. unfold ret. intros Heq; inversion Heq; subst. left.
        repeat apply conj; try reflexivity. right; left.
        split; [exact Hact | split; [exact Hz | reflexivity]].
      * intros Heq. right; right. exists now, now', cid, sch, record.
        split; [reflexivity | ]. split; [exact Hpass | ].
        rewrite <- Heq. unfold answer, ret.
        destruct (approve_steps _ _ _ _ w) as [[d | e] w1]; reflexivity.
  - unfold AdminRoute.get_status.
    unfold bind at 1. unfold bind at 1. unfold state_getState at 1. unfold get at 1.
    unfold bind at 1.
    destruct (verifyIntegrity_total w) as [[h Hv] | [Hv | Hv]]; rewrite Hv;
      unfold ret; intros Heq; inversion Heq; subst;
      right; left; eexists _, _; repeat apply conj; reflexivity.
  - unfold AdminRoute.post_pause, bind, state_call, modify, state_getState, get, ret.
    intros Heq; inversion Heq; subst. left.
    repeat apply conj; try reflexivity. right; right. split; [reflexivity | now left].
  - unfold AdminRoute.post_resume, bind, state_call, modify, state_getState, get, ret.
    intros Heq; inversion Heq; subst. left.
    repeat apply conj; try reflexivity. right; right. split; [reflexivity | now right].
  - unfold AdminRoute.get_ledger. unfold bind at 1. unfold bind at 1.
    rewrite LedgerViewFacts.getLastLines_eq. unfold ret.
    intros Heq; inversion Heq; subst. left.
    repeat apply conj; try reflexivity. now left.
Qed.

Lemma serve_cons req rest w trace w' :
  serve (req :: rest) w = (trace, w') ->
  exists out w1 trace',
    handle req w = (out, w1) /\ serve rest w1 = (trace', w') /\
    trace = (req, out) :: trace'.
Proof.
  intros Heq. cbn [serve] in Heq.
  destruct (handle req w) as [out w1] eqn:Hh.
  destruct (serve rest w1) as [trace' w2] eqn:Hs.
  inversion Heq; subst. exists out, w1, trace'. auto.
Qed.

(** The approval statements: the charge, whatever the disk does. *)
Lemma approve_steps_charge now' citizenHash scheme0 amount0 w o w' :
  approve_steps now' citizenHash scheme0 amount0 w = (o, w') ->
  0 <= State.budget (sys w) - amount0 ->
  State.budget (sys w') = State.budget (sys w) - amount0 /\
  State.transactionCount (sys w') = State.transactionCount (sys w) + 1 /\
  processedHashes w' = {[citizenHash]} ∪ processedHashes w /\
  registryMap w' = registryMap w /\ disk w' = disk w /\
  (o = Thrown IOError \/ o = Returned (approval now' scheme0 amount0)).
Proof.
  rewrite approve_steps_eq. cbv zeta. intros Heq Hle.
  destruct (after_verify_charged citizenHash amount0 w)
    as (_ & _ & Hd & Hr & Hp & Hs).
  assert (Hbudget : State.budget
                      (sys (after_verify (charged_world citizenHash amount0 w)))
                    = State.budget (sys w) - amount0).
  { destruct Hs as [-> | ->]; cbn [charged_world sys set_processedHashes set_sys
      State.freeze State.set_status State.budget State.incrTx
      State.set_transactionCount];
      rewrite StateFacts.deduct_budget; lia. }
  assert (Hcount : State.transactionCount
                     (sys (after_verify (charged_world citizenHash amount0 w)))
                   = State.transactionCount (sys w) + 1).
  { destruct Hs as [-> | ->]; cbn [charged_world sys set_processedHashes set_sys
      State.freeze State.set_status State.transactionCount State.incrTx
      State.set_transactionCount];
      now rewrite StateFacts.deduct_transactionCount. }
  destruct (appendFile_fails (disk w)); [ | destruct (writeFile_fails (disk w))];
    inversion Heq; subst;
    cbn [recorded_world appended_world sys processedHashes registryMap disk
         set_META_FILE set_lastHash set_LEDGER_FILE];
    repeat apply conj; auto.
Qed.

Lemma not_approval_no_amount req out :
  is_approval out = false -> approved_amount (req, out) = None.
Proof.
  unfold is_approval, approved_amount. cbn [snd].
  destruct (decision_of out) as [d | ]; [ | reflexivity]. now intros ->.
Qed.

Lemma not_approval_no_token req out :
  is_approval out = false -> approved_token (req, out) = None.
Proof.
  unfold approved_token. cbn [fst snd]. intros ->.
  destruct req as [? ? [cid | ] ? | | | | ]; reflexivity.
Qed.

Lemma pause_resume_fields s :
  State.budget (State.pause s) = State.budget s /\
  State.transactionCount (State.pause s) = State.transactionCount s /\
  State.budget (State.resume s) = State.budget s /\
  State.transactionCount (State.resume s) = State.transactionCount s.
Proof.
  unfold State.pause, State.resume. destruct (State.status s); cbn; auto.
Qed.

(** ** A frozen system *)

Lemma handle_frozen req w out w1 :
  State.status (sys w) = State.frozen ->
  handle req w = (out, w1) ->
  sys w1 = sys w /\ LEDGER_FILE w1 = LEDGER_FILE w /\ META_FILE w1 = META_FILE w /\
  processedHashes w1 = processedHashes w /\
  returned out = true /\ is_approval out = false.
Proof.
  intros Hfr Hh.
  destruct (handle_cases req w out w1 Hh)
    as [(Hret & Happ & _ & Hw) | [(b & r & -> & Hv & -> & _) | Happrove]].
  - destruct Hw as [-> | [(Hact & _) | (_ & [-> | ->])]].
    + auto 6.
    + congruence.
    + rewrite (StateFacts.pause_frozen _ Hfr), set_sys_same. auto 6.
    + rewrite (StateFacts.resume_frozen _ Hfr), set_sys_same. auto 6.
  - assert (Hw1 : w1 = snd (verifyIntegrity w)) by now rewrite Hv.
    destruct (verifyIntegrity_same_files w) as (Hl & Hm & _ & _ & Hp & Hs).
    rewrite <- Hw1 in Hl, Hm, Hp, Hs.
    repeat apply conj; auto.
    destruct Hs as [-> | ->]; [reflexivity | now apply freeze_of_frozen].
  - destruct Happrove as (now & now' & cid & sch & record & _ & Hpass & _).
    destruct Hpass as ((Hact & _) & _). congruence.
Qed.

(** X14. Once the system is frozen no run of requests changes the state, the
    two files or the replay set; every request is answered, and no claim
    is approved. *)
Theorem frozen_system_serves_nothing reqs : forall w,
  State.status (sys w) = State.frozen ->
  sys (snd (serve reqs w)) = sys w /\
  LEDGER_FILE (snd (serve reqs w)) = LEDGER_FILE w /\
  META_FILE (snd (serve reqs w)) = META_FILE w /\
  processedHashes (snd (serve reqs w)) = processedHashes w /\
  Forall (fun p => returned (snd p) = true /\ is_approval (snd p) = false)
         (fst (serve reqs w)).
Proof.
  induction reqs as [ | req rest IH]; intros w Hfr.
  - cbn. auto 6.
  - destruct (serve (req :: rest) w) as [trace w'] eqn:Hrun.
    destruct (serve_cons _ _ _ _ _ Hrun) as (out & w1 & trace' & Hh & Hrest & ->).
    destruct (handle_frozen req w out w1 Hfr Hh) as (Hs & Hl & Hm & Hp & Hret & Happ).
    assert (Hfr1 : State.status (sys w1) = State.frozen) by now rewrite Hs.
    specialize (IH w1 Hfr1). rewrite Hrest in IH. cbn [fst snd] in *.
    destruct IH as (Hs' & Hl' & Hm' & Hp' & Hall).
    repeat apply conj; try congruence.
    constructor; [now split | exact Hall].
Qed.

(** ** The replay set *)

Lemma seen_later (X Y : gset string) h : X ⊆ Y -> h ∈ X -> h ∈ Y.
Proof. intros Hsub Hin. now apply Hsub. Qed.

Lemma new_earlier (X Y : gset string) h : X ⊆ Y -> h ∉ Y -> h ∉ X.
Proof. intros Hsub Hnot Hin. apply Hnot. now apply Hsub. Qed.

Lemma seen_after_charge (X : gset string) h : h ∈ {[h]} ∪ X.
Proof. apply elem_of_union_l. now apply elem_of_singleton. Qed.

Lemma handle_tokens req w out w1 :
  handle req w = (out, w1) ->
  processedHashes w ⊆ processedHashes w1 /\
  forall h, approved_token (req, out) = Some h ->
            (h ∉ processedHashes w) /\ h ∈ processedHashes w1.
Proof.
  intros Hh.
  destruct (handle_cases req w out w1 Hh)
    as [(Hret & Happ & _ & Hw) | [(b & r & -> & Hv & -> & _) | Happrove]].
  - rewrite (not_approval_no_token req out Happ).
    split; [ | discriminate].
    destruct Hw as [-> | [(_ & _ & ->) | (_ & [-> | ->])]]; reflexivity.
  - split; [ | discriminate].
    assert (Hw1 : w1 = snd (verifyIntegrity w)) by now rewrite Hv.
    destruct (verifyIntegrity_same_files w) as (_ & _ & _ & _ & Hp & _).
    rewrite <- Hw1 in Hp. now rewrite Hp.
  - destruct Happrove as (now & now' & cid & sch & record & -> & Hpass & Heq).
    destruct (approve_steps now' (RegistryFns.hashCitizenId (JS.trim cid))
                (JS.trim sch) (Registry.scheme_amount record) w) as [o w2] eqn:Hsteps.
    destruct Hpass as ((_ & Hnew & _) & (Hpos & Hle) & _).
    destruct (approve_steps_charge _ _ _ _ _ _ _ Hsteps) as (_ & _ & Hp & _);
      [lia | ].
    assert (Hw : w1 = w2) by (destruct o; cbn [answer] in Heq; congruence).
    subst w2. rewrite Hp. split; [apply union_subseteq_r | ].
    unfold approved_token. cbn [fst snd].
    destruct (is_approval out); [ | discriminate].
    intros h Heqh. inversion Heqh; subst h.
    split; [exact Hnew | apply seen_after_charge].
Qed.

(** X15. In a run of requests no token is approved twice: the tokens of the
    approved claims are pairwise distinct, none was in the replay set
    before the run and all are in it after; the replay set only grows. *)
Theorem no_token_approved_twice reqs : forall w,
  NoDup (approved_tokens (fst (serve reqs w))) /\
  (forall h, h ∈ approved_tokens (fst (serve reqs w)) ->
             (h ∉ processedHashes w) /\ h ∈ processedHashes (snd (serve reqs w))) /\
  processedHashes w ⊆ processedHashes (snd (serve reqs w)).
Proof.
  induction reqs as [ | req rest IH]; intros w.
  - cbn. repeat apply conj; [constructor | | reflexivity].
    intros h Hin. now apply elem_of_nil in Hin.
  - destruct (serve (req :: rest) w) as [trace w'] eqn:Hrun.
    destruct (serve_cons _ _ _ _ _ Hrun) as (out & w1 & trace' & Hh & Hrest & ->).
    destruct (handle_tokens req w out w1 Hh) as (Hsub & Htok).
    specialize (IH w1). rewrite Hrest in IH. cbn [fst snd] in *.
    destruct IH as (Hnd & Hin & Hsub').
    unfold approved_tokens in *. cbn [omap list_omap].
    destruct (approved_token (req, out)) as [h0 | ] eqn:Ht.
    + destruct (Htok h0 eq_refl) as (Hnew & Hseen).
      repeat apply conj.
      * constructor; [ | exact Hnd].
        intros Hdup. destruct (Hin h0 Hdup) as (Hnot & _). contradiction.
      * intros h Hh0. apply elem_of_cons in Hh0 as [-> | Hh0].
        -- split; [exact Hnew | exact (seen_later _ _ _ Hsub' Hseen)].
        -- destruct (Hin h Hh0) as (Hnot & Hyes).
           split; [exact (new_earlier _ _ _ Hsub Hnot) | exact Hyes].
      * now transitivity (processedHashes w1).
    + repeat apply conj; [exact Hnd | | now transitivity (processedHashes w1)].
      intros h Hh0. destruct (Hin h Hh0) as (Hnot & Hyes).
      split; [exact (new_earlier _ _ _ Hsub Hnot) | exact Hyes].
Qed.

(** ** The budget *)

Lemma handle_account req w out w1 :
  disk w = healthy ->
  handle req w = (out, w1) ->
  disk w1 = healthy /\ returned out = true /\
  State.budget (sys w1)
    = State.budget (sys w) - default 0 (approved_amount (req, out)) /\
  State.transactionCount (sys w1)
    = State.transactionCount (sys w)
      + Z.of_nat (List.length (approved_amounts [(req, out)])).
Proof.
  intros Hdisk Hh.
  destruct (handle_cases req w out w1 Hh)
    as [(Hret & Happ & _ & Hw) | [(b & r & -> & Hv & -> & _) | Happrove]].
  - unfold approved_amounts. cbn [omap list_omap].
    rewrite (not_approval_no_amount req out Happ). cbn [default List.length].
    destruct (pause_resume_fields (sys w)) as (Hpb & Hpt & Hrb & Hrt).
    destruct Hw as [-> | [(_ & _ & ->) | (_ & [-> | ->])]];
      cbn [frozen_world set_sys sys disk]; rewrite ?Hpb, ?Hpt, ?Hrb, ?Hrt;
      cbn [State.freeze State.set_status State.budget State.transactionCount];
      repeat apply conj; auto; lia.
  - assert (Hw1 : w1 = snd (verifyIntegrity w)) by now rewrite Hv.
    destruct (verifyIntegrity_same_files w) as (_ & _ & Hd & _ & _ & Hs).
    rewrite <- Hw1 in Hd, Hs.
    repeat apply conj; [congruence | reflexivity | | ];
      destruct Hs as [-> | ->]; cbn; lia.
  - destruct Happrove as (now & now' & cid & sch & record & -> & Hpass & Heq).
    destruct Hpass as (_ & (Hpos & Hle) & _).
    pose proof (approve_steps_eq now' (RegistryFns.hashCitizenId (JS.trim cid))
                  (JS.trim sch) (Registry.scheme_amount record) w) as Hsteps.
    cbv zeta in Hsteps. rewrite Hdisk in Hsteps.
    cbn [healthy appendFile_fails writeFile_fails] in Hsteps.
    destruct (approve_steps_charge _ _ _ _ _ _ _ Hsteps) as (Hb & Ht & _ & _ & Hd & _);
      [lia | ].
    rewrite Hsteps in Heq. cbn [answer] in Heq. inversion Heq; subst out w1.
    repeat apply conj; [congruence | reflexivity | exact Hb | ].
    rewrite Ht. reflexivity.
Qed.

Lemma handle_bounds req w out w1 :
  0 <= State.budget (sys w) ->
  map_Forall (fun _ record => 0 <= Registry.scheme_amount record) (registryMap w) ->
  handle req w = (out, w1) ->
  registryMap w1 = registryMap w /\
  0 <= default 0 (approved_amount (req, out)) <= State.budget (sys w).
Proof.
  intros Hb Hreg Hh.
  destruct (handle_cases req w out w1 Hh)
    as [(Hret & Happ & _ & Hw) | [(b & r & -> & Hv & -> & _) | Happrove]].
  - rewrite (not_approval_no_amount req out Happ). cbn [default from_option id].
    split; [ | lia].
    destruct Hw as [-> | [(_ & _ & ->) | (_ & [-> | ->])]]; reflexivity.
  - assert (Hw1 : w1 = snd (verifyIntegrity w)) by now rewrite Hv.
    destruct (verifyIntegrity_same_files w) as (_ & _ & _ & Hr & _).
    rewrite <- Hw1 in Hr. split; [exact Hr | ]. cbn. lia.
  - destruct Happrove as (now & now' & cid & sch & record & -> & Hpass & Heq).
    destruct Hpass as ((_ & _ & Hrec & _) & (Hpos & Hle) & _).
    pose proof (Hreg _ _ Hrec) as Hamount. cbn beta in Hamount.
    destruct (approve_steps now' (RegistryFns.hashCitizenId (JS.trim cid))
                (JS.trim sch) (Registry.scheme_amount record) w) as [o w2] eqn:Hsteps.
    destruct (approve_steps_charge _ _ _ _ _ _ _ Hsteps) as (_ & _ & _ & Hr & _ & Ho);
      [lia | ].
    destruct Ho as [-> | ->]; cbn [answer] in Heq; inversion Heq; subst out w1;
      (split; [exact Hr | ]); cbn; lia.
Qed.

(** X16. Where the arithmetic of [state.js] is exact (whole numbers, no
    negative amount in the registry, budget and count within the safe
    integers) and the disk is healthy, every request of a run is answered
    and after the run the budget is what it was less the amounts of the
    approved claims, the transaction count what it was plus their number;
    no approved amount is negative and the budget and the count have
    stayed within the safe integers. *)
Theorem budget_is_charged_for_approvals reqs : forall w,
  disk w = healthy ->
  exact_arithmetic w (List.length reqs) ->
  State.budget (sys (snd (serve reqs w)))
    = State.budget (sys w) - foldr Z.add 0 (approved_amounts (fst (serve reqs w))) /\
  0 <= State.budget (sys (snd (serve reqs w))) <= State.budget (sys w) /\
  State.transactionCount (sys (snd (serve reqs w)))
    = State.transactionCount (sys w)
      + Z.of_nat (List.length (approved_amounts (fst (serve reqs w)))) /\
  State.transactionCount (sys (snd (serve reqs w))) <= MAX_SAFE_INTEGER /\
  Forall (fun amount => 0 <= amount) (approved_amounts (fst (serve reqs w))) /\
  Forall (fun p => returned (snd p) = true) (fst (serve reqs w)).
Proof.
  induction reqs as [ | req rest IH]; intros w Hdisk (Hbudget & Hcount & Hmax & Hreg).
  - cbn [serve fst snd approved_amounts omap list_omap foldr List.length] in *.
    repeat apply conj; try lia; constructor.
  - destruct (serve (req :: rest) w) as [trace w'] eqn:Hrun.
    destruct (serve_cons _ _ _ _ _ Hrun) as (out & w1 & trace' & Hh & Hrest & ->).
    destruct (handle_account req w out w1 Hdisk Hh) as (Hd & Hret & Hb & Ht).
    destruct (handle_bounds req w out w1 (proj1 Hbudget) Hreg Hh) as (Hr & Ha).
    cbn [List.length] in Hmax.
    assert (Hexact : exact_arithmetic w1 (List.length rest)).
    { unfold exact_arithmetic. rewrite Hr, Hb, Ht.
      unfold approved_amounts. cbn [omap list_omap].
      destruct (approved_amount (req, out)) as [a | ];
        cbn [default from_option id List.length] in *;
        repeat apply conj; try exact Hreg; lia. }
    specialize (IH w1 Hd Hexact). rewrite Hrest in IH. cbn [fst snd] in *.
    destruct IH as (Hb' & Hrange & Ht' & Hmax' & Hpos & Hall).
    unfold approved_amounts in *. cbn [omap list_omap] in *.
    destruct (approved_amount (req, out)) as [a | ];
      cbn [default from_option id foldr List.length] in *;
      (repeat apply conj;
       [lia | lia | lia | lia | lia
        | first [constructor; [lia | exact Hpos] | exact Hpos]
        | constructor; [exact Hret | exact Hall]]).
Qed.

(** ** A pause *)

Lemma handle_paused req w out w1 :
  State.status (sys w) = State.paused ->
  is_claim req = true ->
  handle req w = (out, w1) ->
  w1 = w /\ returned out = true /\ is_approval out = false.
Proof.
  intros Hp Hc Hh.
  destruct (handle_cases req w out w1 Hh)
    as [(Hret & Happ & _ & Hw) | [(b & r & -> & _) | Happrove]].
  - destruct Hw as [-> | [(Hact & _) | (Hnc & _)]]; [auto | congruence | congruence].
  - discriminate Hc.
  - destruct Happrove as (now & now' & cid & sch & record & _ & Hpass & _).
    destruct Hpass as ((Hact & _) & _). congruence.
Qed.

Lemma serve_paused claims : forall w,
  State.status (sys w) = State.paused ->
  Forall (fun req => is_claim req = true) claims ->
  forall rest,
    snd (serve (claims ++ rest) w) = snd (serve rest w) /\
    exists answered,
      fst (serve (claims ++ rest) w) = (answered ++ fst (serve rest w))%list /\
      Forall (fun p => returned (snd p) = true /\ is_approval (snd p) = false)
             answered.
Proof.
  induction claims as [ | req claims IH]; intros w Hp Hall rest.
  - split; [reflexivity | ]. exists []. split; [reflexivity | constructor].
  - inversion Hall as [ | ? ? Hc Hall']; subst.
    cbn [app]. destruct (serve (req :: claims ++ rest) w) as [trace w'] eqn:Hrun.
    destruct (serve_cons _ _ _ _ _ Hrun) as (out & w1 & trace' & Hh & Hrest & ->).
    destruct (handle_paused req w out w1 Hp Hc Hh) as (-> & Hret & Happ).
    destruct (IH w Hp Hall' rest) as (Hw & answered & Htr & Hans).
    rewrite Hrest in Hw, Htr. cbn [fst snd] in *.
    split; [exact Hw | ]. exists ((req, out) :: answered).
    split; [now rewrite Htr | ]. constructor; [now split | exact Hans].
Qed.

(** X17. A pause, any claims, then a resume: the claims are answered, none is
    approved, and the world ends as it began. *)
Theorem paused_claims_leave_no_trace claims w :
  State.status (sys w) = State.active ->
  Forall (fun req => is_claim req = true) claims ->
  snd (serve (PostPause :: claims ++ [PostResume]) w) = w /\
  Forall (fun p => returned (snd p) = true /\ is_approval (snd p) = false)
         (fst (serve (PostPause :: claims ++ [PostResume]) w)).
Proof.
  intros Hact Hall.
  set (w1 := set_sys (State.pause (sys w)) w).
  assert (Hpause : handle PostPause w
                   = (Returned (SwitchReply
                        {| AdminRoute.success := true;
                           AdminRoute.switched_status := State.paused |}), w1)).
  { cbn [handle]. unfold AdminRoute.post_pause, bind, state_call, modify,
      state_getState, get, ret, w1. cbn [sys set_sys State.getState].
    unfold State.pause. rewrite Hact. reflexivity. }
  assert (Hp1 : State.status (sys w1) = State.paused).
  { unfold w1. cbn [sys set_sys]. unfold State.pause. now rewrite Hact. }
  assert (Hresume : handle PostResume w1
                    = (Returned (SwitchReply
                         {| AdminRoute.success := true;
                            AdminRoute.switched_status := State.active |}), w)).
  { cbn [handle]. unfold AdminRoute.post_resume, bind, state_call, modify,
      state_getState, get, ret, w1. cbn [sys set_sys State.getState].
    unfold State.pause, State.resume. rewrite Hact. cbn.
    destruct w as [[st b t i] ? ? ? ? ? ? ?]. cbn in Hact. subst st. reflexivity. }
  destruct (serve_paused claims w1 Hp1 Hall [PostResume]) as (Hw & answered & Htr & Hans).
  cbn [serve] in Hw, Htr. rewrite Hresume in Hw, Htr. cbn [fst snd] in Hw, Htr.
  cbn [serve]. rewrite Hpause.
  destruct (serve (claims ++ [PostResume]) w1) as [trace w']. cbn [fst snd] in *.
  subst w' trace. split; [reflexivity | ].
  constructor; [now split | ].
  apply Forall_app. split; [exact Hans | ].
  constructor; [now split | constructor].
Qed.

End WithRuntime.

Section WithLaws.
Context `{RuntimeLaws}.

(** ** The ledger *)

Lemma lower_ascii_inline a :
  (negb (Ascii.eqb (JS.lower_ascii a) "|")
   && negb (Ascii.eqb (JS.lower_ascii a) "010"))%bool
  = (negb (Ascii.eqb a "|") && negb (Ascii.eqb a "010"))%bool.
Proof. destruct a as [[] [] [] [] [] [] [] []]; reflexivity. Qed.

Lemma inline_toLowerCase s : Fields.inline (JS.toLowerCase s) = Fields.inline s.
Proof.
  induction s as [ | a s IH]; [reflexivity | ].
  cbn [JS.toLowerCase Fields.inline]. rewrite IH.
  pose proof (lower_ascii_inline a) as Ha.
  destruct (Ascii.eqb (JS.lower_ascii a) "|"), (Ascii.eqb a "|"),
    (Ascii.eqb (JS.lower_ascii a) "010"), (Ascii.eqb a "010");
    cbn in *; congruence.
Qed.

Lemma consistent_fields w w1 :
  LEDGER_FILE w1 = LEDGER_FILE w -> META_FILE w1 = META_FILE w ->
  lastHash w1 = lastHash w -> initialized w1 = initialized w ->
  consistent w -> consistent w1.
Proof.
  unfold consistent. intros -> -> -> ->. exact (fun Hc => Hc).
Qed.

Lemma ledger_lines_fields w w1 :
  LEDGER_FILE w1 = LEDGER_FILE w -> ledger_lines w1 = ledger_lines w.
Proof. unfold ledger_lines. now intros ->. Qed.

(** On a consistent ledger the verification answers [true] and leaves a
    consistent ledger of the same lines. *)
Lemma consistent_verified w :
  consistent w ->
  exists w1,
    verifyIntegrity w = (Returned true, w1) /\ consistent w1 /\
    LEDGER_FILE w1 = LEDGER_FILE w /\ disk w1 = disk w /\
    registryMap w1 = registryMap w.
Proof.
  intros Hc. pose proof Hc as Hc'. unfold consistent in Hc'.
  destruct (LEDGER_FILE w) as [content | ] eqn:Hf.
  - destruct Hc' as (Hend & Hd & Hl & Hcur).
    rewrite (verifyIntegrity_linked w content Hf Hd Hl).
    eexists. split; [reflexivity | ].
    split; [ | split; [exact Hf | split; reflexivity]].
    unfold consistent, verified_world.
    cbn [LEDGER_FILE META_FILE lastHash initialized set_initialized set_lastHash].
    rewrite Hf.
    split; [exact Hend | split; [exact Hd | split; [exact Hl | now intros _]]].
  - rewrite (verifyIntegrity_absent w Hf).
    eexists. split; [reflexivity | ].
    split; [ | split; [exact Hf | split; reflexivity]].
    unfold consistent. cbn [LEDGER_FILE lastHash set_initialized].
    now rewrite Hf.
Qed.

Lemma handle_consistent req w out w1 :
  consistent w -> disk w = healthy -> registry_inline w ->
  handle req w = (out, w1) ->
  consistent w1 /\ disk w1 = healthy /\ registry_inline w1 /\
  reported_integrity (req, out) <> Some false /\
  exists added,
    ledger_lines w1 = (ledger_lines w ++ added)%list /\
    List.length added = List.length (approved_amounts [(req, out)]).
Proof.
  intros Hc Hdisk Hreg Hh.
  destruct (handle_cases req w out w1 Hh)
    as [(Hret & Happ & Hint & Hw) | [(b & r & -> & Hv & -> & Hb) | Happrove]].
  - assert (Hsame : LEDGER_FILE w1 = LEDGER_FILE w /\ META_FILE w1 = META_FILE w /\
                    lastHash w1 = lastHash w /\ initialized w1 = initialized w /\
                    disk w1 = disk w /\ registryMap w1 = registryMap w).
    { destruct Hw as [-> | [(_ & _ & ->) | (_ & [-> | ->])]]; repeat apply conj;
        reflexivity. }
    destruct Hsame as (Hl & Hm & Hcur & Hi & Hd & Hr).
    repeat apply conj.
    + now apply (consistent_fields w w1).
    + congruence.
    + unfold registry_inline. now rewrite Hr.
    + rewrite Hint. discriminate.
    + exists []. rewrite List.app_nil_r. split; [now apply ledger_lines_fields | ].
      unfold approved_amounts. cbn [omap list_omap].
      now rewrite (not_approval_no_amount req out Happ).
  - destruct (consistent_verified w Hc) as (w1' & Hv' & Hc1 & Hl & Hd & Hr).
    rewrite Hv in Hv'. inversion Hv'; subst b w1'.
    repeat apply conj.
    + exact Hc1.
    + congruence.
    + unfold registry_inline. now rewrite Hr.
    + cbn [reported_integrity snd]. rewrite H2. discriminate.
    + exists []. rewrite List.app_nil_r. split; [now apply ledger_lines_fields | ].
      reflexivity.
  - destruct Happrove as (now & now' & cid & sch & record & -> & Hpass & Heq).
    set (h := RegistryFns.hashCitizenId (JS.trim cid)) in *.
    set (e := {| entry_citizenHash := h; entry_scheme := JS.trim sch;
                 entry_amount := Registry.scheme_amount record |}).
    set (cw := charged_world h (Registry.scheme_amount record) w).
    assert (Hcw : consistent cw).
    { apply (consistent_fields w cw); auto. }
    assert (He : entry_inline e).
    { split; cbn [e entry_citizenHash entry_scheme].
      - apply FieldFacts.plain_inline, FieldFacts.digest_plain.
        apply sha256_hex_is_digest.
      - destruct Hpass as ((_ & _ & Hrec & _ & _ & Hsch & _) & _).
        specialize (Hreg _ _ Hrec). cbn beta in Hreg.
        rewrite IdentityFacts.trim_idempotent in Hsch.
        rewrite <- inline_toLowerCase, <- Hsch, inline_toLowerCase. exact Hreg. }
    destruct (ChainFacts.append_consistent now' e cw Hcw Hdisk He)
      as (w' & Happ & Hc' & Hd' & Hlines & _). cbv zeta in Happ, Hlines.
    pose proof (approve_steps_eq now' h (JS.trim sch)
                  (Registry.scheme_amount record) w) as Hsteps.
    cbv zeta in Hsteps. rewrite Hdisk in Hsteps.
    cbn [healthy appendFile_fails writeFile_fails] in Hsteps.
    fold e cw in Hsteps.
    rewrite append_eq in Happ. cbv zeta in Happ.
    destruct (after_verify_same_files cw) as (_ & _ & Hdcw & Hrcw & _).
    rewrite Hdcw in Happ. change (disk cw) with (disk w) in Happ.
    rewrite Hdisk in Happ. cbn [healthy appendFile_fails writeFile_fails] in Happ.
    assert (Hw' : recorded_world now' e (after_verify cw) = w') by congruence.
    rewrite Hsteps in Heq. cbn [answer] in Heq. inversion Heq; subst out w1.
    rewrite Hw'.
    repeat apply conj.
    + exact Hc'.
    + exact Hd'.
    + unfold registry_inline. rewrite <- Hw'.
      cbn [recorded_world appended_world registryMap set_META_FILE set_lastHash
           set_LEDGER_FILE]. rewrite Hrcw. exact Hreg.
    + discriminate.
    + eexists. split; [exact Hlines | reflexivity].
Qed.

(** X18. With scheme names in the registry that contain neither the field
    separator nor a line feed, on a healthy disk, no run of requests
    breaks a consistent ledger: the verification answers [true] after it,
    every status reply has reported the ledger intact, and the ledger has
    its old lines followed by one new line for each approved claim. *)
Theorem routes_keep_the_ledger_verifiable reqs : forall w,
  consistent w -> disk w = healthy -> registry_inline w ->
  fst (verifyIntegrity (snd (serve reqs w))) = Returned true /\
  consistent (snd (serve reqs w)) /\
  (exists added,
     ledger_lines (snd (serve reqs w)) = (ledger_lines w ++ added)%list /\
     List.length added = List.length (approved_amounts (fst (serve reqs w)))) /\
  Forall (fun p => reported_integrity p <> Some false) (fst (serve reqs w)).
Proof.
  assert (Hrun : forall reqs w,
    consistent w -> disk w = healthy -> registry_inline w ->
    consistent (snd (serve reqs w)) /\
    (exists added,
       ledger_lines (snd (serve reqs w)) = (ledger_lines w ++ added)%list /\
       List.length added = List.length (approved_amounts (fst (serve reqs w)))) /\
    Forall (fun p => reported_integrity p <> Some false) (fst (serve reqs w))).
  { clear reqs. induction reqs as [ | req rest IH]; intros w Hc Hdisk Hreg.
    - cbn [serve fst snd]. repeat apply conj; [exact Hc | | constructor].
      exists []. now rewrite List.app_nil_r.
    - destruct (serve (req :: rest) w) as [trace w'] eqn:Hrun.
      destruct (serve_cons _ _ _ _ _ Hrun) as (out & w1 & trace' & Hh & Hrest & ->).
      destruct (handle_consistent req w out w1 Hc Hdisk Hreg Hh)
        as (Hc1 & Hd1 & Hr1 & Hint & added1 & Hl1 & Hn1).
      specialize (IH w1 Hc1 Hd1 Hr1). rewrite Hrest in IH. cbn [fst snd] in *.
      destruct IH as (Hc' & (added & Hl & Hn) & Hall).
      repeat apply conj; [exact Hc' | | constructor; [exact Hint | exact Hall]].
      exists (added1 ++ added)%list. split.
      + rewrite Hl, Hl1. now rewrite List.app_assoc.
      + rewrite List.length_app, Hn1, Hn. unfold approved_amounts.
        cbn [omap list_omap]. destruct (approved_amount (req, out)); reflexivity. }
  intros w Hc Hdisk Hreg.
  destruct (Hrun reqs w Hc Hdisk Hreg) as (Hc' & Hadded & Hall).
  split; [now apply ChainFacts.consistent_verifyIntegrity | auto].
Qed.

End WithLaws.

End ServerFacts.

(** * The answers of the routes *)

Module RouteFacts.

Import Validator ValidatorSteps Gates Ledger Chain LedgerSteps.
Import LedgerFacts ValidatorFacts Server Runs.

Section WithRuntime.
Context `{Runtime}.

(** X12. [GET /api/admin/status] answers with the state as it was before the
    verification it runs, and with the outcome of that verification. A
    failed verification has frozen the system by the time the reply says
    what the status was; a successful one has left the state alone. *)
Theorem get_status_reports_state_before_check w :
  exists b w',
    verifyIntegrity w = (Returned b, w') /\
    AdminRoute.get_status w =
    (Returned {| AdminRoute.status := State.status (sys w);
                 AdminRoute.budget := State.budget (sys w);
                 AdminRoute.initialBudget := State.initialBudget (sys w);
                 AdminRoute.transactionCount := State.transactionCount (sys w);
                 AdminRoute.ledgerIntegrity := b |}, w') /\
    (b = false -> State.status (sys w') = State.frozen) /\
    (b = true -> sys w' = sys w).
Proof.
  unfold AdminRoute.get_status.
  unfold bind at 1. unfold state_getState at 1. unfold get at 1.
  unfold bind at 1. unfold State.getState.
  destruct (verifyIntegrity_total w) as [[h Hv] | [Hv | Hv]]; rewrite Hv;
    eexists _, _; (split; [reflexivity | ]); (split; [reflexivity | ]);
    split; intros Hb; try discriminate Hb; reflexivity.
Qed.

(** X13. For fields of ASCII characters, [POST /api/claim] hands a claim
    to [validate] exactly when both fields are present and not empty and
    the identity, trimmed, is twelve digits: [validate] then gets the two
    fields trimmed, and the token is the digest of the twelve digits as
    they are. A request with a field absent or empty is answered with
    status 400 and the text about missing fields, one whose identity is not
    twelve digits with status 400 and the text about the format; both at
    the Input gate, and neither changes anything. *)
Theorem post_admits_twelve_digits now now' citizen_id scheme0 w :
  ascii_field citizen_id = true ->
  ascii_field scheme0 = true ->
  (forall cid sch,
     citizen_id = Some cid -> scheme0 = Some sch -> sch <> EmptyString ->
     ClaimRoute.twelve_digits (JS.trim cid) = true ->
     RegistryFns.hashCitizenId (JS.trim cid) = sha256_hex (JS.trim cid) /\
     ClaimRoute.post now now' citizen_id scheme0 w
     = answer (ClaimRoute.mkResponse 200)
         (validate now now' (JS.trim cid) (JS.trim sch) w)) /\
  (citizen_id = None \/ citizen_id = Some EmptyString \/
   scheme0 = None \/ scheme0 = Some EmptyString ->
   ClaimRoute.post now now' citizen_id scheme0 w
   = (Returned (ClaimRoute.mkResponse 400
        (rejection "Input" "Missing required fields: citizen_id and scheme.")),
      w)) /\
  (forall cid sch,
     citizen_id = Some cid -> scheme0 = Some sch ->
     cid <> EmptyString -> sch <> EmptyString ->
     ClaimRoute.twelve_digits (JS.trim cid) = false ->
     ClaimRoute.post now now' citizen_id scheme0 w
     = (Returned (ClaimRoute.mkResponse 400
          (rejection "Input" "Invalid Citizen ID format. Must be exactly 12 digits.")),
        w)).
Proof.
  intros _ _. repeat apply conj.
  - intros cid sch -> -> Hsch Hd. split.
    + unfold RegistryFns.hashCitizenId. cbv zeta.
      now rewrite (IdentityFacts.twelve_digits_canonical _ Hd).
    + assert (Hcid : cid <> EmptyString).
      { intros ->. vm_compute in Hd. discriminate Hd. }
      unfold ClaimRoute.post.
      destruct cid; [congruence | ]. destruct sch; [congruence | ].
      cbn [ClaimRoute.falsy JS.truthy negb orb].
      change (default EmptyString (Some ?x)) with x.
      rewrite Hd. cbn [negb]. unfold bind, answer, ret.
      destruct (validate _ _ _ _ w) as [[d | e] w1]; reflexivity.
  - unfold ClaimRoute.post, ret.
    intros [-> | [-> | [-> | ->]]]; cbn [ClaimRoute.falsy JS.truthy negb orb];
      try reflexivity; destruct citizen_id as [[ | ? ?] | ]; reflexivity.
  - intros cid sch -> -> Hcid Hsch Hd.
    unfold ClaimRoute.post, ret.
    destruct cid; [congruence | ]. destruct sch; [congruence | ].
    cbn [ClaimRoute.falsy JS.truthy negb orb].
    change (default EmptyString (Some ?x)) with x.
    rewrite Hd. reflexivity.
Qed.

(** X19. The marks [GateViz] ends with for a response of [POST /api/claim]:
    three passes for an approval, whose gate is Approved, and also for a
    rejection with status 400, whose gate is Input; a failure of the first
    gate, the other two skipped, for a rejection at the System, Replay or
    Eligibility gate; a pass and a failure for one at the Budget gate; two
    passes and a failure for one at the Frequency gate. *)
Theorem marks_of_a_response now now' citizen_id scheme0 w r w' :
  ClaimRoute.post now now' citizen_id scheme0 w = (Returned r, w') ->
  let d := ClaimRoute.body r in
  (((approved d = true /\ gate d = "Approved" /\ ClaimRoute.code r = 200) \/
    (approved d = false /\ gate d = "Input" /\ ClaimRoute.code r = 400)) /\
   GateViz.marks (gate d) = [GateViz.PASS; GateViz.PASS; GateViz.PASS]) \/
  (approved d = false /\ ClaimRoute.code r = 200 /\
   ((In (gate d) ["System"; "Replay"; "Eligibility"] /\
     GateViz.marks (gate d) = [GateViz.FAIL; GateViz.SKIP; GateViz.SKIP]) \/
    (gate d = "Budget" /\
     GateViz.marks (gate d) = [GateViz.PASS; GateViz.FAIL; GateViz.SKIP]) \/
    (gate d = "Frequency" /\
     GateViz.marks (gate d) = [GateViz.PASS; GateViz.PASS; GateViz.FAIL]))).
Proof.
  intros Hpost. cbv zeta.
  assert (Hrej : forall g text,
    In g rejecting_gates ->
    r = ClaimRoute.mkResponse 200 (rejection g text) ->
    approved (ClaimRoute.body r) = false /\ ClaimRoute.code r = 200 /\
    ((In (gate (ClaimRoute.body r)) ["System"; "Replay"; "Eligibility"] /\
      GateViz.marks (gate (ClaimRoute.body r))
      = [GateViz.FAIL; GateViz.SKIP; GateViz.SKIP]) \/
     (gate (ClaimRoute.body r) = "Budget" /\
      GateViz.marks (gate (ClaimRoute.body r))
      = [GateViz.PASS; GateViz.FAIL; GateViz.SKIP]) \/
     (gate (ClaimRoute.body r) = "Frequency" /\
      GateViz.marks (gate (ClaimRoute.body r))
      = [GateViz.PASS; GateViz.PASS; GateViz.FAIL]))).
  { intros g text Hg ->. cbn [ClaimRoute.body ClaimRoute.code rejection approved gate].
    split; [reflexivity | split; [reflexivity | ]].
    cbn [rejecting_gates In] in Hg.
    destruct Hg as [<- | [<- | [<- | [<- | [<- | []]]]]].
    - left. split; [cbn; tauto | vm_compute; reflexivity].
    - left. split; [cbn; tauto | vm_compute; reflexivity].
    - left. split; [cbn; tauto | vm_compute; reflexivity].
    - right; left. split; [reflexivity | vm_compute; reflexivity].
    - right; right. split; [reflexivity | vm_compute; reflexivity]. }
  destruct (ServerFacts.post_eq now now' citizen_id scheme0 w)
    as [(text & Hin) | (cid & sch & _ & _ & _ & Hp)].
  - rewrite Hin in Hpost. inversion Hpost; subst. left.
    split; [right; repeat apply conj; reflexivity | vm_compute; reflexivity].
  - rewrite Hp in Hpost.
    destruct (GateFacts.validate_cases now now' (JS.trim cid) (JS.trim sch) w)
      as [(g & text & Hg & Hrun) | [(_ & _ & Hrun) | (record & _ & Hrun)]];
      cbv zeta in Hrun; rewrite Hrun in Hpost.
    + cbn [answer] in Hpost. inversion Hpost; subst. right. now apply (Hrej g text).
    + cbn [answer] in Hpost. right.
      apply (Hrej "Budget" exhausted_reason); [cbn; tauto | congruence].
    + destruct (approve_steps now' (RegistryFns.hashCitizenId (JS.trim cid))
                  (JS.trim sch) (Registry.scheme_amount record) w)
        as [o w2] eqn:Hsteps.
      destruct (GateFacts.approve_steps_result _ _ _ _ _ _ _ Hsteps)
        as [-> | (-> & _)]; cbn [answer] in Hpost; [discriminate Hpost | ].
      inversion Hpost; subst. left.
      split; [left; repeat apply conj; reflexivity | vm_compute; reflexivity].
Qed.

End WithRuntime.

End RouteFacts.

(** * The same properties on a session of the toy runtime *)

Module SessionScenarios.

Import Validator ValidatorSteps Gates Ledger Chain LedgerSteps Server Runs.

Lemma booted_passes_all_gates :
  passes_all_gates (Sim.boot 1000000) 1000 Sim.citizen "Food" Sim.food.
Proof. apply (Scenarios.citizen_passes_all_gates 1000000 healthy). lia. Qed.

Lemma claimed_reaches_budget_gate :
  reaches_budget_gate Session.claimed Sim.citizen "Food" Sim.claimed_at_zero.
Proof.
  unfold reaches_budget_gate, Session.claimed, Sim.boot_with.
  cbn [sys registryMap processedHashes State.status State.set_budget State._state].
  repeat apply conj;
    first [ apply not_elem_of_empty | reflexivity | vm_compute; discriminate ].
Qed.

Lemma booted_registry_inline : registry_inline (Sim.boot 1000000).
Proof.
  unfold registry_inline, Sim.boot, Sim.boot_with. cbn [registryMap].
  apply map_Forall_singleton. reflexivity.
Qed.

Lemma unrecording_no_collision :
  no_collision Sim.written
    (new_content 2001 Sim.entry (after_verify Session.unrecording)).
Proof.
  assert (Hne : String.eqb (sha256_hex Sim.written)
                  (sha256_hex (new_content 2001 Sim.entry
                                 (after_verify Session.unrecording))) = false)
    by (vm_compute; reflexivity).
  apply String.eqb_neq in Hne. intros Heq. exfalso. exact (Hne Heq).
Qed.

Lemma rejection_changes_nothing_witness :
  Session.locked = Session.exhausted \/
  (gate (rejection "Budget" exhausted_reason) = "Budget" /\
   State.budget (sys Session.exhausted) <= 0 /\
   Session.locked = set_sys (State.freeze (sys Session.exhausted)) Session.exhausted /\
   State.status (sys Session.exhausted) = State.active /\
   State.status (sys Session.locked) = State.frozen).
Proof.
  apply (GateFacts.rejection_changes_nothing 1000 1001 Sim.citizen "Food"
           Session.exhausted (rejection "Budget" exhausted_reason) Session.locked).
  - vm_compute. reflexivity.
  - reflexivity.
Defined.

Lemma approval_requires_gates_and_charges_witness :
  exists record,
    passes_all_gates (Sim.boot 1000000) 1000 Sim.citizen "Food" record /\
    approval 1001 "Food" 5000 = approval 1001 "Food" (Registry.scheme_amount record) /\
    State.budget (sys (Sim.served 1000000))
      = State.budget (sys (Sim.boot 1000000)) - Registry.scheme_amount record /\
    State.transactionCount (sys (Sim.served 1000000))
      = State.transactionCount (sys (Sim.boot 1000000)) + 1 /\
    processedHashes (Sim.served 1000000)
      = {[RegistryFns.hashCitizenId Sim.citizen]} ∪ processedHashes (Sim.boot 1000000).
Proof.
  apply (GateFacts.approval_requires_gates_and_charges 1000 1001 Sim.citizen "Food"
           (Sim.boot 1000000) (approval 1001 "Food" 5000) (Sim.served 1000000)).
  - vm_compute. reflexivity.
  - reflexivity.
Defined.

Lemma all_gates_passed_is_approved_witness :
  exists w',
    validate 1000 1001 Sim.citizen "Food" (Sim.boot 1000000) =
    (Returned (approval 1001 "Food" (Registry.scheme_amount Sim.food)), w').
Proof.
  apply (GateFacts.all_gates_passed_is_approved 1000 1001 Sim.citizen "Food"
           Sim.food (Sim.boot 1000000)).
  - exact booted_passes_all_gates.
  - reflexivity.
Defined.

Lemma frequency_rejection_counts_days_witness :
  (10 * MS_PER_DAY - 0) / MS_PER_DAY < 30 /\
  validate (10 * MS_PER_DAY) (10 * MS_PER_DAY) Sim.citizen "Food" Session.claimed =
  (Returned (rejection "Frequency"
     (JS.join ["Frequency violation. Last claim was ";
               JS.String_of ((10 * MS_PER_DAY - 0) / MS_PER_DAY);
               " day(s) ago. Please wait ";
               JS.String_of (30 - (10 * MS_PER_DAY - 0) / MS_PER_DAY);
               " more day(s)."])), Session.claimed).
Proof.
  apply (GateFacts.frequency_rejection_counts_days (10 * MS_PER_DAY) (10 * MS_PER_DAY)
           Sim.citizen "Food" Sim.claimed_at_zero 0 Session.claimed).
  - exact claimed_reaches_budget_gate.
  - split; vm_compute; [reflexivity | discriminate].
  - reflexivity.
  - vm_compute. reflexivity.
Defined.

Lemma refused_line_leaves_files_witness :
  exists w',
    append 1001 Sim.entry Sim.refusing = (Thrown IOError, w') /\
    LEDGER_FILE w' = LEDGER_FILE Sim.refusing /\
    META_FILE w' = META_FILE Sim.refusing /\
    processedHashes w' = processedHashes Sim.refusing /\
    (sys w' = sys Sim.refusing \/ sys w' = State.freeze (sys Sim.refusing)) /\
    (initialized Sim.refusing = true -> w' = Sim.refusing).
Proof.
  apply (RecoveryFacts.refused_line_leaves_files 1001 Sim.entry Sim.refusing).
  reflexivity.
Defined.

Lemma unrecorded_line_fails_next_verification_witness :
  exists w',
    append 2001 Sim.entry Session.unrecording = (Thrown IOError, w') /\
    LEDGER_FILE w'
      = Some (new_content 2001 Sim.entry (after_verify Session.unrecording)) /\
    META_FILE w' = META_FILE Session.unrecording /\
    verifyIntegrity w' = (Returned false, frozen_world w') /\
    State.status (sys (frozen_world w')) = State.frozen.
Proof.
  apply (RecoveryFacts.unrecorded_line_fails_next_verification
           2001 Sim.entry Session.unrecording Sim.written).
  - vm_compute. reflexivity.
  - vm_compute. reflexivity.
  - reflexivity.
  - reflexivity.
  - exact unrecording_no_collision.
Defined.

Lemma appended_entry_is_shown_witness :
  exists r w',
    append 1001 Sim.entry (Sim.boot 1000000) = (Returned r, w') /\
    LedgerView.getLastLines 1 w' =
    (Returned
       [ {| LedgerView.timestamp := Some (Ledger.timestamp r);
            LedgerView.citizenHash :=
              LedgerView.shorten (Some (entry_citizenHash Sim.entry));
            LedgerView.scheme := Some (entry_scheme Sim.entry);
            LedgerView.amount := Some (JS.String_of (entry_amount Sim.entry));
            LedgerView.prevHash :=
              String.append
                (String.substring 0 12
                   (final_hash GENESIS_HASH (ledger_lines (Sim.boot 1000000))))
                "...";
            LedgerView.currHash :=
              String.append (String.substring 0 12 (currentHash r)) "..." |} ],
     w').
Proof.
  apply (LedgerViewFacts.appended_entry_is_shown 1001 Sim.entry (Sim.boot 1000000)).
  - reflexivity.
  - reflexivity.
  - exact Scenarios.entry_is_inline.
Defined.

Lemma frozen_system_serves_nothing_witness :
  sys (snd (serve Session.requests (Sim.served 5000))) = sys (Sim.served 5000) /\
  LEDGER_FILE (snd (serve Session.requests (Sim.served 5000)))
    = LEDGER_FILE (Sim.served 5000) /\
  META_FILE (snd (serve Session.requests (Sim.served 5000)))
    = META_FILE (Sim.served 5000) /\
  processedHashes (snd (serve Session.requests (Sim.served 5000)))
    = processedHashes (Sim.served 5000) /\
  Forall (fun p => returned (snd p) = true /\ is_approval (snd p) = false)
         (fst (serve Session.requests (Sim.served 5000))).
Proof.
  apply (ServerFacts.frozen_system_serves_nothing Session.requests (Sim.served 5000)).
  vm_compute. reflexivity.
Defined.

Lemma booted_exact_arithmetic :
  exact_arithmetic (Sim.boot 1000000) (List.length Session.requests).
Proof.
  unfold exact_arithmetic, Sim.boot, Sim.boot_with.
  cbn [sys registryMap State.budget State.transactionCount State.set_budget
       State._state].
  repeat apply conj; try (vm_compute; discriminate).
  apply map_Forall_singleton. vm_compute. discriminate.
Qed.

Lemma budget_is_charged_for_approvals_witness :
  State.budget (sys (snd (serve Session.requests (Sim.boot 1000000))))
    = State.budget (sys (Sim.boot 1000000))
      - foldr Z.add 0
          (approved_amounts (fst (serve Session.requests (Sim.boot 1000000)))) /\
  0 <= State.budget (sys (snd (serve Session.requests (Sim.boot 1000000))))
    <= State.budget (sys (Sim.boot 1000000)) /\
  State.transactionCount (sys (snd (serve Session.requests (Sim.boot 1000000))))
    = State.transactionCount (sys (Sim.boot 1000000))
      + Z.of_nat (List.length
          (approved_amounts (fst (serve Session.requests (Sim.boot 1000000))))) /\
  State.transactionCount (sys (snd (serve Session.requests (Sim.boot 1000000))))
    <= MAX_SAFE_INTEGER /\
  Forall (fun amount => 0 <= amount)
         (approved_amounts (fst (serve Session.requests (Sim.boot 1000000)))) /\
  Forall (fun p => returned (snd p) = true)
         (fst (serve Session.requests (Sim.boot 1000000))).
Proof.
  apply (ServerFacts.budget_is_charged_for_approvals Session.requests
           (Sim.boot 1000000)).
  - reflexivity.
  - exact booted_exact_arithmetic.
Defined.

Lemma post_admits_twelve_digits_witness :
  (RegistryFns.hashCitizenId (JS.trim " 123456789012 ")
     = sha256_hex (JS.trim " 123456789012 ") /\
   ClaimRoute.post 2000 2001 (Some " 123456789012 ") (Some "Food ")
     (Sim.boot 1000000)
   = answer (ClaimRoute.mkResponse 200)
       (validate 2000 2001 (JS.trim " 123456789012 ") (JS.trim "Food ")
          (Sim.boot 1000000))) /\
  ClaimRoute.post 2000 2001 (Some "123456789012") (Some EmptyString)
    (Sim.boot 1000000)
  = (Returned (ClaimRoute.mkResponse 400
       (rejection "Input" "Missing required fields: citizen_id and scheme.")),
     Sim.boot 1000000) /\
  ClaimRoute.post 3000 3001 (Some "12345") (Some "Food") (Sim.boot 1000000)
  = (Returned (ClaimRoute.mkResponse 400
       (rejection "Input" "Invalid Citizen ID format. Must be exactly 12 digits.")),
     Sim.boot 1000000).
Proof.
  split; [ | split].
  - destruct (RouteFacts.post_admits_twelve_digits 2000 2001
                (Some " 123456789012 ") (Some "Food ") (Sim.boot 1000000)
                eq_refl eq_refl) as (Hadmitted & _ & _).
    apply Hadmitted; [reflexivity | reflexivity | discriminate | reflexivity].
  - destruct (RouteFacts.post_admits_twelve_digits 2000 2001
                (Some "123456789012") (Some EmptyString) (Sim.boot 1000000)
                eq_refl eq_refl) as (_ & Hmissing & _).
    apply Hmissing. right; right; right. reflexivity.
  - destruct (RouteFacts.post_admits_twelve_digits 3000 3001
                (Some "12345") (Some "Food") (Sim.boot 1000000)
                eq_refl eq_refl) as (_ & _ & Hformat).
    apply (Hformat "12345" "Food");
      [reflexivity | reflexivity | discriminate | discriminate | reflexivity].
Defined.

Lemma paused_claims_leave_no_trace_witness :
  snd (serve (PostPause :: [Session.claim; Session.spaced_claim] ++ [PostResume])
         (Sim.boot 1000000))
    = Sim.boot 1000000 /\
  Forall (fun p => returned (snd p) = true /\ is_approval (snd p) = false)
         (fst (serve (PostPause :: [Session.claim; Session.spaced_claim]
                        ++ [PostResume])
                 (Sim.boot 1000000))).
Proof.
  apply (ServerFacts.paused_claims_leave_no_trace
           [Session.claim; Session.spaced_claim] (Sim.boot 1000000)).
  - reflexivity.
  - repeat constructor.
Defined.

Lemma routes_keep_the_ledger_verifiable_witness :
  fst (verifyIntegrity (snd (serve Session.requests (Sim.boot 1000000))))
    = Returned true /\
  consistent (snd (serve Session.requests (Sim.boot 1000000))) /\
  (exists added,
     ledger_lines (snd (serve Session.requests (Sim.boot 1000000)))
       = (ledger_lines (Sim.boot 1000000) ++ added)%list /\
     List.length added
       = List.length
           (approved_amounts (fst (serve Session.requests (Sim.boot 1000000))))) /\
  Forall (fun p => reported_integrity p <> Some false)
         (fst (serve Session.requests (Sim.boot 1000000))).
Proof.
  apply (ServerFacts.routes_keep_the_ledger_verifiable Session.requests
           (Sim.boot 1000000)).
  - reflexivity.
  - reflexivity.
  - exact booted_registry_inline.
Defined.

Lemma marks_of_a_response_witness :
  (((approved (approval 1001 "Food" 5000) = true /\
     gate (approval 1001 "Food" 5000) = "Approved" /\ 200 = 200) \/
    (approved (approval 1001 "Food" 5000) = false /\
     gate (approval 1001 "Food" 5000) = "Input" /\ 200 = 400)) /\
   GateViz.marks (gate (approval 1001 "Food" 5000))
   = [GateViz.PASS; GateViz.PASS; GateViz.PASS]) \/
  (approved (approval 1001 "Food" 5000) = false /\ 200 = 200 /\
   ((In (gate (approval 1001 "Food" 5000)) ["System"; "Replay"; "Eligibility"] /\
     GateViz.marks (gate (approval 1001 "Food" 5000))
     = [GateViz.FAIL; GateViz.SKIP; GateViz.SKIP]) \/
    (gate (approval 1001 "Food" 5000) = "Budget" /\
     GateViz.marks (gate (approval 1001 "Food" 5000))
     = [GateViz.PASS; GateViz.FAIL; GateViz.SKIP]) \/
    (gate (approval 1001 "Food" 5000) = "Frequency" /\
     GateViz.marks (gate (approval 1001 "Food" 5000))
     = [GateViz.PASS; GateViz.PASS; GateViz.FAIL]))).
Proof.
  apply (RouteFacts.marks_of_a_response 1000 1001 (Some Sim.citizen) (Some "Food")
           (Sim.boot 1000000)
           (ClaimRoute.mkResponse 200 (approval 1001 "Food" 5000))
           (Sim.served 1000000)).
  vm_compute. reflexivity.
Defined.

(** What the session of [Session.requests] comes to, from a start with a
    budget of 1,000,000: the one well-formed claim is approved, the same
    identity with spaces around it is a replay, and the ledger view ends
    with one entry. *)
Example session_outcome :
  approved_amounts (fst (serve Session.requests (Sim.boot 1000000))) = [5000] /\
  approved_tokens (fst (serve Session.requests (Sim.boot 1000000)))
    = [RegistryFns.hashCitizenId Sim.citizen] /\
  List.map reported_integrity
    (List.filter (fun p => negb (is_claim (fst p)))
       (fst (serve Session.requests (Sim.boot 1000000))))
    = [None; Some true; None; None; None] /\
  State.budget (sys (snd (serve Session.requests (Sim.boot 1000000)))) = 995000.
Proof. vm_compute. auto. Qed.

End SessionScenarios.
